(** * ReadFASTbinary: a shallow embedding of the FAST binary output reader

    Source: [src/Release/PythonFunctions/ReadFASTbinary.py].

    The reader parses a header (format id, counts, time encoding, per-channel
    scale and offset, description, channel names and units), then the
    row-major payload, and reconstructs a table of physical values.

    Modelling choices.
    - A file opened with [open(filename, 'rb')] is the list of the bytes that
      are still unread; [fid.read] consumes a prefix of it.
    - [struct.unpack] uses the host byte order; the model fixes little endian.
    - Python [int] is [Z]; Python [float] and NumPy [float64] are Rocq's
      primitive binary64 floats, so every arithmetic step rounds as IEEE 754
      does.  Rocq has one not-a-number value, so NaN payloads are identified.
    - Exceptions are values of [exn]; a computation returns, raises, or runs
      out of fuel (the only loop of the source is a [while]).
    - NumPy arrays carry their shape: a one-dimensional array is a list, a
      two-dimensional array is a list of rows with its column count. *)

From Stdlib Require Import ZArith List Lia Bool Ascii String Floats.
From Stdlib.Strings Require Import Byte.
Import ListNotations.

Local Open Scope Z_scope.

#[local] Set Warnings "-inexact-float".

(** ** Exceptions and the file monad *)

Inductive exn : Type :=
| StructError                         (* struct.error: unpack requires a buffer of k bytes *)
| ZeroDivisionError                   (* int / int with a zero divisor *)
| ValueError                          (* NumPy: negative dimension, reshape, broadcast, concatenate *)
| IndexError                          (* index out of range *)
| TypeError                           (* not all arguments converted during string formatting *)
| FileIDNotSupported (FileID : Z)     (* line 74 *)
| CouldNotReadTime (cnt NT : Z)       (* line 122 *)
| CouldNotReadValues (cnt nPts : Z).  (* line 139 *)

(** An open file: the bytes not read yet. *)
Definition file := list byte.

(** How a computation ends: with a value, with an exception, or never. *)
Inductive outcome (A : Type) : Type :=
| Return (a : A) (fid : file)
| Raise (e : exn) (fid : file)
| Diverge.

Arguments Return {A} a fid.
Arguments Raise {A} e fid.
Arguments Diverge {A}.

(** A computation on an open file. *)
Definition M (A : Type) : Type := file -> outcome A.

(** [return], [raise], and sequencing. *)
Definition ret {A} (a : A) : M A := fun fid => Return a fid.

Definition raise {A} (e : exn) : M A := fun fid => Raise e fid.

Definition bind {A B} (c : M A) (k : A -> M B) : M B :=
  fun fid =>
    match c fid with
    | Return a fid' => k a fid'
    | Raise e fid' => Raise e fid'
    | Diverge => Diverge
    end.

(** A bare [except:] clause: every exception of the body runs the handler. *)
Definition try_except {A} (body : M A) (handler : M A) : M A :=
  fun fid =>
    match body fid with
    | Return a fid' => Return a fid'
    | Raise _ fid' => handler fid'
    | Diverge => Diverge
    end.

Declare Scope py_scope.
Delimit Scope py_scope with py.
Notation "x <- c ;; k" := (bind c (fun x => k))
  (at level 61, c at next level, right associativity) : py_scope.
Notation "' pat <- c ;; k" := (bind c (fun x => match x with pat => k end))
  (at level 61, pat pattern, c at next level, right associativity) : py_scope.
Local Open Scope py_scope.

(** ** Element types of [struct] *)

Inductive dtype : Type := uint8 | int16 | int32 | float32 | float64.

(** The table of lines 19 and 36: the size of one element. *)
Definition nbytes (t : dtype) : Z :=
  match t with
  | uint8 => 1
  | int16 => 2
  | int32 => 4
  | float32 => 4
  | float64 => 8
  end.

(** The Python value [struct.unpack] gives for one element. *)
Definition py_type (t : dtype) : Type :=
  match t with
  | uint8 | int16 | int32 => Z
  | float32 | float64 => float
  end.

(** Little-endian bytes as an unsigned integer, and its reading as a signed
    integer of [w] bits. *)
Definition le_unsigned (bs : list byte) : Z :=
  fold_right (fun b acc => Z.of_N (Byte.to_N b) + 256 * acc) 0 bs.

Definition to_signed (w : Z) (z : Z) : Z :=
  if z <? 2 ^ (w - 1) then z else z - 2 ^ w.

(** An IEEE 754 bit pattern with [mw] fraction bits and [ew] exponent bits,
    as the binary64 value it denotes (exact for binary32 and binary64). *)
Definition decode_ieee (mw ew : Z) (bits : Z) : float :=
  let s := Z.testbit bits (mw + ew)%Z in
  let e := Z.land (Z.shiftr bits mw) (2 ^ ew - 1)%Z in
  let m := Z.land bits (2 ^ mw - 1)%Z in
  let bias := (2 ^ (ew - 1) - 1)%Z in
  if (e =? 2 ^ ew - 1)%Z then
    if (m =? 0)%Z then (if s then neg_infinity else infinity) else nan
  else if (e =? 0)%Z then
    match m with
    | Zpos p => SF2Prim (S754_finite s p (1 - bias - mw)%Z)
    | _ => SF2Prim (S754_zero s)
    end
  else
    match (m + 2 ^ mw)%Z with
    | Zpos p => SF2Prim (S754_finite s p (e - bias - mw)%Z)
    | _ => nan
    end.

(** One element of type [t] from its bytes. *)
Definition decode (t : dtype) (bs : list byte) : py_type t :=
  match t with
  | uint8 => le_unsigned bs
  | int16 => to_signed 16 (le_unsigned bs)
  | int32 => to_signed 32 (le_unsigned bs)
  | float32 => decode_ieee 23 8 (le_unsigned bs)
  | float64 => decode_ieee 52 11 (le_unsigned bs)
  end.

(** Conversion of a Python or NumPy integer to [float64]; exact below 2^53. *)
Definition float_of_Z (z : Z) : float :=
  match z with
  | Z0 => 0%float
  | Zpos _ => of_uint63 (Uint63.of_Z z)
  | Zneg p => (- of_uint63 (Uint63.of_Z (Zpos p)))%float
  end.

(** The cast of an element to [float64] when it enters an array. *)
Definition to_float64 (t : dtype) : py_type t -> float :=
  match t with
  | uint8 | int16 | int32 => float_of_Z
  | float32 | float64 => fun x => x
  end.

(** [fid.read(k)]: at most [k] bytes; a negative [k] reads to the end. *)
Definition fid_read (k : Z) : M (list byte) :=
  fun fid =>
    if k <? 0 then Return fid []
    else Return (firstn (Z.to_nat k) fid) (skipn (Z.to_nat k) fid).

(** Consecutive elements of [nb] bytes each. *)
Fixpoint unpack_items (t : dtype) (count : nat) (buf : list byte) : list (py_type t) :=
  match count with
  | O => []
  | S count' =>
      decode t (firstn (Z.to_nat (nbytes t)) buf)
        :: unpack_items t count' (skipn (Z.to_nat (nbytes t)) buf)
  end.

(** [struct.unpack(fmt * n, buf)]: [fmt * n] is empty for [n <= 0]; the
    buffer must have exactly the size the format asks for. *)
Definition struct_unpack (t : dtype) (n : Z) (buf : list byte) : M (list (py_type t)) :=
  if Z.of_nat (List.length buf) =? nbytes t * Z.max n 0
  then ret (unpack_items t (Z.to_nat n) buf)
  else raise StructError.

(** Line 18. *)
Definition fread (n : Z) (t : dtype) : M (list (py_type t)) :=
  buf <- fid_read (nbytes t * n) ;;
  struct_unpack t n buf.

(** Subscript [[0]] of a tuple. *)
Definition item0 {A} (l : list A) : M A :=
  match l with
  | x :: _ => ret x
  | [] => raise IndexError
  end.

(** ** Python integer arithmetic and slices *)

(** [int(a / b)] on Python integers: true division, then truncation toward
    zero.  The quotient is exact for the magnitudes a 32-bit header gives. *)
Definition int_div (a b : Z) : M Z :=
  if b =? 0 then raise ZeroDivisionError else ret (Z.quot a b).

(** A slice bound [k] on a dimension of size [len]. *)
Definition slice_bound (k len : Z) : Z :=
  if k <? 0 then Z.max (k + len) 0 else Z.min k len.

(** The slice [a:b]: first index and number of indices. *)
Definition slice_range (a b len : Z) : nat * nat :=
  let s := slice_bound a len in
  let e := slice_bound b len in
  (Z.to_nat s, Z.to_nat (e - s)).

(** [l[a:b]]. *)
Definition py_slice {A} (l : list A) (a b : Z) : list A :=
  let '(s, n) := slice_range a b (Z.of_nat (List.length l)) in
  firstn n (skipn s l).

(** [i] is one of the [count] indices from [start] on. *)
Definition in_range (start count i : nat) : bool :=
  ((start <=? i) && (i <? start + count))%nat.

(** [map] with the position of each element, counted from [k]. *)
Fixpoint mapi_from {A B} (k : nat) (f : nat -> A -> B) (l : list A) : list B :=
  match l with
  | [] => []
  | x :: l' => f k x :: mapi_from (S k) f l'
  end.

Definition mapi {A B} (f : nat -> A -> B) (l : list A) : list B := mapi_from 0 f l.

(** ** NumPy arrays *)

(** A two-dimensional [float64] array of shape [(nrows, ncols)], row by row.
    An array of integers is held as the floats it converts to: the source
    only ever uses it in [float64] arithmetic, and the conversion is exact. *)
Record array2 : Type := mk_array2 { ncols : nat; rows : list (list float) }.

(** The number of rows. *)
Definition nrows (a : array2) : nat := List.length (rows a).

(** Entries, zero outside the shape. *)
Definition get1 (a : list float) (i : nat) : float := nth i a 0%float.

Definition get2 (a : array2) (i j : nat) : float := nth j (nth i (rows a) []) 0%float.

(** One dimension of a broadcast: equal sizes, or one of them is 1. *)
Definition broadcast_dim (a b : nat) : option nat :=
  if (a =? b)%nat then Some a
  else if (a =? 1)%nat then Some b
  else if (b =? 1)%nat then Some a
  else None.

(** Index into a dimension that is stretched when its size is 1. *)
Definition bidx (dim i : nat) : nat := if (dim =? 1)%nat then 0%nat else i.

(** An element-wise operation on one-dimensional arrays, with broadcast. *)
Definition np_binop1 (f : float -> float -> float) (a b : list float) : M (list float) :=
  match broadcast_dim (List.length a) (List.length b) with
  | Some n =>
      ret (map (fun i => f (get1 a (bidx (List.length a) i)) (get1 b (bidx (List.length b) i)))
               (seq 0 n))
  | None => raise ValueError
  end.

(** The same on two-dimensional arrays. *)
Definition np_binop2 (f : float -> float -> float) (a b : array2) : M array2 :=
  match broadcast_dim (nrows a) (nrows b), broadcast_dim (ncols a) (ncols b) with
  | Some r, Some c =>
      ret {| ncols := c;
             rows := map (fun i =>
                       map (fun j => f (get2 a (bidx (nrows a) i) (bidx (ncols a) j))
                                       (get2 b (bidx (nrows b) i) (bidx (ncols b) j)))
                           (seq 0 c))
                     (seq 0 r) |}
  | _, _ => raise ValueError
  end.

(** [np.zeros((r, c))] and [np.ones((r, c))]. *)
Definition np_full (x : float) (r c : Z) : M array2 :=
  if (r <? 0) || (c <? 0) then raise ValueError
  else ret {| ncols := Z.to_nat c; rows := repeat (repeat x (Z.to_nat c)) (Z.to_nat r) |}.

(** [r] consecutive rows of [c] elements. *)
Fixpoint chunk {A} (r c : nat) (l : list A) : list (list A) :=
  match r with
  | O => []
  | S r' => firstn c l :: chunk r' c (skipn c l)
  end.

(** [a.reshape(r, c)] of a one-dimensional array; [-1] is the dimension
    NumPy infers. *)
Definition reshape2 (a : list float) (r c : Z) : M array2 :=
  let size := Z.of_nat (List.length a) in
  if (r <? -1) || (c <? -1) then raise ValueError
  else if (r =? -1) && (c =? -1) then raise ValueError
  else if r =? -1 then
    if (c =? 0) || negb (size mod c =? 0) then raise ValueError
    else ret {| ncols := Z.to_nat c; rows := chunk (Z.to_nat (size / c)) (Z.to_nat c) a |}
  else if c =? -1 then
    if (r =? 0) || negb (size mod r =? 0) then raise ValueError
    else ret {| ncols := Z.to_nat (size / r);
                rows := chunk (Z.to_nat r) (Z.to_nat (size / r)) a |}
  else if r * c =? size then
    ret {| ncols := Z.to_nat c; rows := chunk (Z.to_nat r) (Z.to_nat c) a |}
  else raise ValueError.

(** In an assignment the value is stretched to the target, never the target. *)
Definition can_broadcast_to (src dst : nat) : bool := ((src =? dst) || (src =? 1))%nat.

(** [data[r0:r1, c0:c1] = B]. *)
Definition assign_block (data : array2) (r0 r1 c0 c1 : Z) (B : array2) : M array2 :=
  let '(rs, rn) := slice_range r0 r1 (Z.of_nat (nrows data)) in
  let '(cs, cn) := slice_range c0 c1 (Z.of_nat (ncols data)) in
  if can_broadcast_to (nrows B) rn && can_broadcast_to (ncols B) cn then
    ret {| ncols := ncols data;
           rows := mapi (fun i row =>
                     mapi (fun j x =>
                       if in_range rs rn i && in_range cs cn j
                       then get2 B (bidx (nrows B) (i - rs)) (bidx (ncols B) (j - cs))
                       else x) row)
                   (rows data) |}
  else raise ValueError.

(** [data[:, j]] for [0 <= j]. *)
Definition get_col (data : array2) (j : nat) : M (list float) :=
  if (j <? ncols data)%nat then ret (map (fun row => nth j row 0%float) (rows data))
  else raise IndexError.

(** [data[:, j] = v] for [0 <= j]; a scalar is a one-element [v]. *)
Definition set_col (data : array2) (j : nat) (v : list float) : M array2 :=
  if (j <? ncols data)%nat then
    if can_broadcast_to (List.length v) (nrows data) then
      ret {| ncols := ncols data;
             rows := mapi (fun i row =>
                       mapi (fun k x => if (k =? j)%nat then get1 v (bidx (List.length v) i) else x)
                            row)
                     (rows data) |}
    else raise ValueError
  else raise IndexError.

(** [np.concatenate([a, b], 1)]. *)
Definition np_concatenate1 (a b : array2) : M array2 :=
  if (nrows a =? nrows b)%nat then
    ret {| ncols := ncols a + ncols b;
           rows := map (fun i => nth i (rows a) [] ++ nth i (rows b) []) (seq 0 (nrows a)) |}
  else raise ValueError.

(** [np.arange(n)], already as [float64]. *)
Definition np_arange (n : Z) : list float :=
  map (fun i => float_of_Z (Z.of_nat i)) (seq 0 (Z.to_nat n)).

(** ** Strings *)

(** A Python [str] whose characters are below 256. *)
Definition str := list ascii.

Definition chr (code : Z) : ascii := ascii_of_N (Z.to_N code).

(** ["".join(map(chr, codes))]. *)
Definition join_chr (codes : list Z) : str := map chr codes.

(** [str.isspace] on the code points below 256. *)
Definition isspace (c : ascii) : bool :=
  let n := N_of_ascii c in
  ((9 <=? n) && (n <=? 13) || (28 <=? n) && (n <=? 32) || (n =? 133) || (n =? 160))%N.

(** [str.strip()]: whitespace off both ends. *)
Fixpoint lstrip (s : str) : str :=
  match s with
  | c :: s' => if isspace c then lstrip s' else s
  | [] => []
  end.

Definition rstrip (s : str) : str := rev (lstrip (rev s)).

Definition strip (s : str) : str := rstrip (lstrip s).

(** Helpers for [rfind]: the part before the first [c], and from it on. *)
Definition is_char (c : ascii) (x : ascii) : bool := Ascii.eqb c x.

Fixpoint take_until (c : ascii) (s : str) : str :=
  match s with
  | x :: s' => if is_char c x then [] else x :: take_until c s'
  | [] => []
  end.

Fixpoint drop_until (c : ascii) (s : str) : str :=
  match s with
  | x :: s' => if is_char c x then s else drop_until c s'
  | [] => []
  end.

(** [os.path.basename] (POSIX): what follows the last slash. *)
Definition basename (p : str) : str := rev (take_until "/"%char (rev p)).

(** [os.path.splitext(b)[0]] for a name without a slash: cut at the last dot,
    unless only dots come before it. *)
Definition splitext_root (b : str) : str :=
  match drop_until "."%char (rev b) with
  | [] => b
  | _ :: before_rev =>
      if forallb (is_char "."%char) before_rev then b else rev before_rev
  end.

(** ** The reader *)

(** File identifiers used in FAST (lines 61-64). *)
Definition FileFmtID_WithTime : Z := 1.
Definition FileFmtID_WithoutTime : Z := 2.
Definition FileFmtID_NoCompressWithoutTime : Z := 3.
Definition FileFmtID_ChanLen_In : Z := 4.

(** Line 38. *)
Definition GoodBufferSize : Z := 4096 * 40.

(** The two time encodings: scale and offset of the packed time, or first
    time and increment.  Each is the one-element tuple [fread] returned. *)
Inductive time_encoding : Type :=
| PackedTimeEnc (TimeScl TimeOff : list float)
| ComputedTimeEnc (TimeOut1 TimeIncr : list float).

(** Channel coefficients: the tuple [fread] returned, or the array of shape
    [(n, 1)] that [np.ones] and [np.zeros] build for the uncompressed format. *)
Inductive coeffs : Type :=
| TupleCoef (l : list float)
| ColumnCoef (l : list float).

(** The values, whatever the shape. *)
Definition coef_list (c : coeffs) : list float :=
  match c with TupleCoef l | ColumnCoef l => l end.

(** [c[k]]: a scalar of the tuple, or the one-element row [k] of the array;
    both act as a one-element array in what follows. *)
Definition coef_item (c : coeffs) (k : nat) : M (list float) :=
  match nth_error (coef_list c) k with
  | Some x => ret [x]
  | None => raise IndexError
  end.

(** The coefficients as an operand of a two-dimensional broadcast: a tuple of
    [n] values has shape [(n,)], read as [(1, n)]; the array has shape
    [(n, 1)]. *)
Definition coef_array (c : coeffs) : array2 :=
  match c with
  | TupleCoef l => {| ncols := List.length l; rows := [l] |}
  | ColumnCoef l => {| ncols := 1; rows := map (fun x => [x]) l |}
  end.

(** [np.ones((n, 1))] and [np.zeros((n, 1))]. *)
Definition np_column (x : float) (n : Z) : M coeffs :=
  a <- np_full x n 1 ;;
  ret (ColumnCoef (map (fun row => nth 0 row 0%float) (rows a))).

(** The local variables the header sets. *)
Record header : Type := mk_header {
  FileID : Z;
  LenName : Z;
  NumOutChans : Z;
  NT : Z;
  TimeEnc : time_encoding;
  ColScl : coeffs;
  ColOff : coeffs;
  DescStr : str
}.

(** The dictionary of line 165. *)
Record info : Type := mk_info {
  name : str;
  description : str;
  fileID : Z;
  attribute_names : list str;
  attribute_units : list str
}.

(** The loops of lines 103-105 and 108-110: [count] fields of [LenName]
    bytes, each decoded and passed through [post]. *)
Fixpoint read_fields (count : nat) (LenName : Z) (post : str -> str) : M (list str) :=
  match count with
  | O => ret []
  | S count' =>
      ASCII <- fread LenName uint8 ;;
      rest <- read_fields count' LenName post ;;
      ret (post (join_chr ASCII) :: rest)
  end.

(** Lines 105 and 110: [.strip()], and [.strip()[1:-1]]. *)
Definition name_of_field (s : str) : str := strip s.

Definition unit_of_field (s : str) : str := py_slice (strip s) 1 (-1).

(** Lines 71-100: the header up to the description. *)
Definition read_header : M header :=
  l <- fread 1 int16 ;;
  FileID <- item0 l ;;
  if negb (existsb (Z.eqb FileID)
             [FileFmtID_WithTime; FileFmtID_WithoutTime;
              FileFmtID_NoCompressWithoutTime; FileFmtID_ChanLen_In])
  then raise (FileIDNotSupported FileID)
  else
    LenName <- (if FileID =? FileFmtID_ChanLen_In
                then l <- fread 1 int16 ;; item0 l
                else ret 10) ;;
    l <- fread 1 int32 ;;
    NumOutChans <- item0 l ;;
    l <- fread 1 int32 ;;
    NT <- item0 l ;;
    TimeEnc <- (if FileID =? FileFmtID_WithTime
                then TimeScl <- fread 1 float64 ;;
                     TimeOff <- fread 1 float64 ;;
                     ret (PackedTimeEnc TimeScl TimeOff)
                else TimeOut1 <- fread 1 float64 ;;
                     TimeIncr <- fread 1 float64 ;;
                     ret (ComputedTimeEnc TimeOut1 TimeIncr)) ;;
    '(ColScl, ColOff) <- (if FileID =? FileFmtID_NoCompressWithoutTime
                          then ColScl <- np_column 1%float NumOutChans ;;
                               ColOff <- np_column 0%float NumOutChans ;;
                               ret (ColScl, ColOff)
                          else ColScl <- fread NumOutChans float32 ;;
                               ColOff <- fread NumOutChans float32 ;;
                               ret (TupleCoef ColScl, TupleCoef ColOff)) ;;
    l <- fread 1 int32 ;;
    LenDesc <- item0 l ;;
    DescStrASCII <- fread LenDesc uint8 ;;
    ret {| FileID := FileID; LenName := LenName; NumOutChans := NumOutChans; NT := NT;
           TimeEnc := TimeEnc; ColScl := ColScl; ColOff := ColOff;
           DescStr := strip (join_chr DescStrASCII) |}.

(** Lines 102-110: the channel names, then the channel units. *)
Definition read_channel_names (h : header) : M (list str * list str) :=
  ChanName <- read_fields (Z.to_nat (NumOutChans h + 1)) (LenName h) name_of_field ;;
  ChanUnit <- read_fields (Z.to_nat (NumOutChans h + 1)) (LenName h) unit_of_field ;;
  ret (ChanName, ChanUnit).

(** Lines 46-55: the [while] loop of the buffered read.  [fuel] bounds the
    number of iterations; the loop diverges when no fuel is enough. *)
Fixpoint buffered_loop (fuel : nat) (n : Z) (type_in : dtype) (nCols nOff BufferSize : Z)
    (data : array2) (nIntRead nLinesRead : Z) : M array2 :=
  match fuel with
  | O => fun _ => Diverge
  | S fuel' =>
      if nIntRead <? n then
        let nIntToRead := Z.min (n - nIntRead) BufferSize in
        nLinesToRead <- int_div nIntToRead nCols ;;
        items <- fread nIntToRead type_in ;;
        Buffer <- reshape2 (map (to_float64 type_in) items) (-1) nCols ;;
        data' <- assign_block data nLinesRead (nLinesRead + nLinesToRead)
                   nOff (nOff + nCols) Buffer ;;
        buffered_loop fuel' n type_in nCols nOff BufferSize data'
          (nIntRead + nIntToRead) (nLinesRead + nLinesToRead)
      else ret data
  end.

(** Lines 22-58.  The handler of line 57 formats three values with a string
    of two conversions, so what it raises is a [TypeError]. *)
Definition freadRowOrderTableBuffered (fuel : nat) (n : Z) (type_in : dtype)
    (nCols nOff : Z) : M array2 :=
  nLines <- int_div n nCols ;;
  nLinesPerBuffer <- int_div GoodBufferSize nCols ;;
  let BufferSize := nCols * nLinesPerBuffer in
  nBuffer <- int_div n BufferSize ;;
  data <- np_full 0%float nLines (nCols + nOff) ;;
  try_except
    (buffered_loop fuel n type_in nCols nOff BufferSize data 0 0)
    (raise TypeError).

(** Lines 116-141: the packed time and the payload. *)
Definition read_series (fuel : nat) (h : header) (use_buffer : bool)
  : M (list Z * array2) :=
  let nPts := NT h * NumOutChans h in
  PackedTime <- (if FileID h =? FileFmtID_WithTime
                 then PackedTime <- fread (NT h) int32 ;;
                      let cnt := Z.of_nat (List.length PackedTime) in
                      if cnt <? NT h then raise (CouldNotReadTime cnt (NT h))
                      else ret PackedTime
                 else ret []) ;;
  data <- (if use_buffer then
             if FileID h =? FileFmtID_NoCompressWithoutTime
             then freadRowOrderTableBuffered fuel nPts float64 (NumOutChans h) 1
             else freadRowOrderTableBuffered fuel nPts int16 (NumOutChans h) 1
           else
             PackedData <- (if FileID h =? FileFmtID_NoCompressWithoutTime
                            then l <- fread nPts float64 ;; ret (map (to_float64 float64) l)
                            else l <- fread nPts int16 ;; ret (map (to_float64 int16) l)) ;;
             let cnt := Z.of_nat (List.length PackedData) in
             if cnt <? nPts then raise (CouldNotReadValues cnt nPts)
             else reshape2 PackedData (NT h) (NumOutChans h)) ;;
  ret (PackedTime, data).

(** Lines 143-146. *)
Definition reconstruct_time (h : header) (PackedTime : list Z) : M (list float) :=
  match TimeEnc h with
  | PackedTimeEnc TimeScl TimeOff =>
      d <- np_binop1 PrimFloat.sub (map float_of_Z PackedTime) TimeOff ;;
      np_binop1 PrimFloat.div d TimeScl
  | ComputedTimeEnc TimeOut1 TimeIncr =>
      m <- np_binop1 PrimFloat.mul TimeIncr (np_arange (NT h)) ;;
      np_binop1 PrimFloat.add TimeOut1 m
  end.

(** [for i in l: s = body(i, s)]. *)
Fixpoint for_each {S} (l : list nat) (body : nat -> S -> M S) (s : S) : M S :=
  match l with
  | [] => ret s
  | i :: l' => s' <- body i s ;; for_each l' body s'
  end.

(** [np.isnan] of a one-element array, as a truth value. *)
Definition isnan1 (v : list float) : bool := is_nan (get1 v 0).

(** Lines 153-157: the body of the scaling loop. *)
Definition scale_column (h : header) (iCol : nat) (data : array2) : M array2 :=
  scl <- coef_item (ColScl h) iCol ;;
  off <- coef_item (ColOff h) iCol ;;
  if isnan1 scl && isnan1 off then set_col data (iCol + 1) [0%float]
  else
    col <- get_col data (iCol + 1) ;;
    d <- np_binop1 PrimFloat.sub col off ;;
    q <- np_binop1 PrimFloat.div d scl ;;
    set_col data (iCol + 1) q.

(** Lines 151-163. *)
Definition scale_data (h : header) (use_buffer : bool) (data : array2) (time : list float)
  : M array2 :=
  if use_buffer then
    data' <- for_each (seq 0 (Z.to_nat (NumOutChans h))) (scale_column h) data ;;
    set_col data' 0 time
  else
    d <- np_binop2 PrimFloat.sub data (coef_array (ColOff h)) ;;
    q <- np_binop2 PrimFloat.div d (coef_array (ColScl h)) ;;
    t <- reshape2 time (NT h) 1 ;;
    np_concatenate1 t q.

(** Lines 165-169. *)
Definition make_info (filename : str) (h : header) (ChanName ChanUnit : list str) : info :=
  {| name := splitext_root (basename filename);
     description := DescStr h;
     fileID := FileID h;
     attribute_names := ChanName;
     attribute_units := ChanUnit |}.

(** Line 6.  [content] is what [open(filename, 'rb')] gives to read. *)
Definition ReadFASTbinary (fuel : nat) (filename : str) (content : file) (use_buffer : bool)
  : outcome (array2 * info) :=
  (h <- read_header ;;
   '(ChanName, ChanUnit) <- read_channel_names h ;;
   '(PackedTime, data) <- read_series fuel h use_buffer ;;
   time <- reconstruct_time h PackedTime ;;
   data' <- scale_data h use_buffer data time ;;
   ret (data', make_info filename h ChanName ChanUnit)) content.

(** ** Sample files *)

(** The byte of value [z mod 256]. *)
Definition byte_of_Z (z : Z) : byte :=
  match Byte.of_N (Z.to_N (z mod 256)) with
  | Some b => b
  | None => x00
  end.

(** The [k] low bytes of [z], least significant first (two's complement). *)
Fixpoint le_bytes (k : nat) (z : Z) : list byte :=
  match k with
  | O => []
  | S k' => byte_of_Z z :: le_bytes k' (z / 256)
  end.

(** The bytes of a text. *)
Definition text (s : string) : list byte := map byte_of_ascii (list_ascii_of_string s).

Definition sample_name : str := list_ascii_of_string "/sim/IEA15MW_03/run.1.outb".

(** A string literal as a Python [str]. *)
Definition pystr (s : string) : str := list_ascii_of_string s.

(** Format 2 (computed time), two channels, five steps: first time 0.0,
    increment 0.0125; channel 1 has scale 2.0 and offset 100.0, channel 2 has
    the not-a-number scale and offset. *)
Definition sample_fmt2_header : file :=
  le_bytes 2 2 ++ le_bytes 4 2 ++ le_bytes 4 5
  ++ le_bytes 8 0 ++ le_bytes 8 0x3F8999999999999A
  ++ le_bytes 4 0x40000000 ++ le_bytes 4 0x7FC00000
  ++ le_bytes 4 0x42C80000 ++ le_bytes 4 0x7FC00000
  ++ le_bytes 4 6 ++ text " demo "
  ++ text "Time      " ++ text "Wind1VelX " ++ text "  GenPwr  "
  ++ text "(s)       " ++ text "(m/s)     " ++ text " (kW)     ".

Definition sample_fmt2 : file :=
  sample_fmt2_header
  ++ List.concat (map (le_bytes 2) [1000; 1; 1200; 2; -100; 3; 100; 4; 0; 5]).

(** The same file with its last payload byte missing. *)
Definition sample_fmt2_truncated : file := removelast sample_fmt2.

(** What the read of [sample_fmt2] gives, with [x] in the column of the
    channel whose scale and offset are not-a-number. *)
Definition sample_fmt2_table (x : float) : array2 :=
  {| ncols := 3;
     rows := [[0; 450; x];
              [0x1.999999999999ap-7; 550; x];
              [0x1.999999999999ap-6; -100; x];
              [0x1.3333333333334p-5; 0; x];
              [0x1.999999999999ap-5; -50; x]]%float |}.

Definition sample_fmt2_info : info :=
  {| name := pystr "run.1";
     description := pystr "demo";
     fileID := 2;
     attribute_names := [pystr "Time"; pystr "Wind1VelX"; pystr "GenPwr"];
     attribute_units := [pystr "s"; pystr "m/s"; pystr "kW"] |}.

(** Format 1 (packed time), one channel, two steps: time scale 4.0 and time
    offset 8.0, packed times 8 and 12; channel scale 2.0 and offset 100.0,
    stored values 1000 and 1100. *)
Definition sample_fmt1_header : file :=
  le_bytes 2 1 ++ le_bytes 4 1 ++ le_bytes 4 2
  ++ le_bytes 8 0x4010000000000000 ++ le_bytes 8 0x4020000000000000
  ++ le_bytes 4 0x40000000 ++ le_bytes 4 0x42C80000
  ++ le_bytes 4 0
  ++ text "Time      " ++ text "RotSpeed  "
  ++ text "(s)       " ++ text "(rpm)     ".

Definition sample_fmt1 : file :=
  sample_fmt1_header ++ le_bytes 4 8 ++ le_bytes 4 12 ++ le_bytes 2 1000 ++ le_bytes 2 1100.

(** The same header followed by six of the eight bytes of the packed time. *)
Definition sample_fmt1_short_time : file :=
  sample_fmt1_header ++ le_bytes 4 8 ++ le_bytes 2 12.

(** What the read of [sample_fmt1] gives. *)
Definition sample_fmt1_table : array2 :=
  {| ncols := 2; rows := [[0; 450]; [1; 500]]%float |}.

Definition sample_fmt1_info : info :=
  {| name := pystr "run.1";
     description := [];
     fileID := 1;
     attribute_names := [pystr "Time"; pystr "RotSpeed"];
     attribute_units := [pystr "s"; pystr "rpm"] |}.

(** Format 3 (no compression), three channels, two steps, the payload being
    1.5, 2.0, 0.1, -3.0, 0.0, 1.5 as 64-bit floats. *)
Definition sample_fmt3 : file :=
  le_bytes 2 3 ++ le_bytes 4 3 ++ le_bytes 4 2
  ++ le_bytes 8 0 ++ le_bytes 8 0x3F8999999999999A
  ++ le_bytes 4 0
  ++ text "Time      " ++ text "A         " ++ text "B         " ++ text "C         "
  ++ text "(s)       " ++ text "(-)       " ++ text "(-)       " ++ text "(-)       "
  ++ List.concat (map (le_bytes 8)
       [0x3FF8000000000000; 0x4000000000000000; 0x3FB999999999999A;
        0xC008000000000000; 0; 0x3FF8000000000000]).

Definition sample_fmt3_table : array2 :=
  {| ncols := 4;
     rows := [[0; 1.5; 2; 0x1.999999999999ap-4];
              [0x1.999999999999ap-7; -3; 0; 1.5]]%float |}.

(** Files without channels: format 2 with three steps, format 3 with one. *)
Definition sample_fmt2_no_channel : file :=
  le_bytes 2 2 ++ le_bytes 4 0 ++ le_bytes 4 3
  ++ le_bytes 8 0 ++ le_bytes 8 0x3FE0000000000000
  ++ le_bytes 4 0 ++ text "Time      " ++ text "(s)       ".

Definition sample_fmt3_no_channel : file :=
  le_bytes 2 3 ++ le_bytes 4 0 ++ le_bytes 4 1
  ++ le_bytes 8 0 ++ le_bytes 8 0x3FE0000000000000
  ++ le_bytes 4 0 ++ text "Time      " ++ text "(s)       ".

(** A payload of two 16-bit values for a table declared 163841 columns wide. *)
Definition wide_payload : file := le_bytes 2 1000 ++ le_bytes 2 (-7).

(** ** Vocabulary of the statements *)

(** Element [k] of a byte sequence read as consecutive values of type [t]. *)
Definition item (t : dtype) (buf : file) (k : nat) : py_type t :=
  decode t (firstn (Z.to_nat (nbytes t)) (skipn (k * Z.to_nat (nbytes t)) buf)).

(** The character codes of bytes. *)
Definition codes (bs : list byte) : list Z := map (fun b => Z.of_N (Byte.to_N b)) bs.

(** Field [k] of a region cut into fields of [LenName] bytes. *)
Definition field (LenName : Z) (region : file) (k : nat) : list byte :=
  firstn (Z.to_nat LenName) (skipn (k * Z.to_nat LenName) region).

(** What every header that was read satisfies: a known format, a channel
    count that is not negative, ten-byte names unless the format gives their
    length, one-element tuples for the time encoding chosen by the format,
    and as many scales and offsets as channels, ones and zeros in format 3. *)
Definition header_shape (h : header) : Prop :=
  In (FileID h) [1; 2; 3; 4]
  /\ 0 <= NumOutChans h
  /\ (FileID h <> FileFmtID_ChanLen_In -> LenName h = 10)
  /\ (if FileID h =? FileFmtID_WithTime
      then exists s o, TimeEnc h = PackedTimeEnc [s] [o]
      else exists t0 dt, TimeEnc h = ComputedTimeEnc [t0] [dt])
  /\ (if FileID h =? FileFmtID_NoCompressWithoutTime
      then ColScl h = ColumnCoef (repeat 1%float (Z.to_nat (NumOutChans h)))
           /\ ColOff h = ColumnCoef (repeat 0%float (Z.to_nat (NumOutChans h)))
      else exists s o, ColScl h = TupleCoef s /\ ColOff h = TupleCoef o
                       /\ List.length s = Z.to_nat (NumOutChans h)
                       /\ List.length o = Z.to_nat (NumOutChans h)).

(** Every row has the width the array declares. *)
Definition wf (a : array2) : Prop :=
  Forall (fun row => List.length row = ncols a) (rows a).

(** Entry-wise updates keep the shape; [F i j x] is the new entry at row [i]
    and column [j], where [x] was. *)
Definition update_entries (F : nat -> nat -> float -> float) (a : array2) : array2 :=
  {| ncols := ncols a;
     rows := mapi (fun i row => mapi (fun j x => F i j x) row) (rows a) |}.

(** The time of step [i] as the specification words it: the packed time
    minus the offset, over the scale; or the first time plus [i] increments. *)
Definition time_at (h : header) (body : file) (i : nat) : float :=
  match TimeEnc h with
  | PackedTimeEnc TimeScl TimeOff =>
      (float_of_Z (item int32 body i) - get1 TimeOff 0) / get1 TimeScl 0
  | ComputedTimeEnc TimeOut1 TimeIncr =>
      get1 TimeOut1 0 + get1 TimeIncr 0 * float_of_Z (Z.of_nat i)
  end.

(** The element type of the payload (lines 126-135). *)
Definition payload_type (h : header) : dtype :=
  if FileID h =? FileFmtID_NoCompressWithoutTime then float64 else int16.

(** The payload follows the channel units, after the packed time when the
    format has one. *)
Definition payload (h : header) (body : file) : file :=
  if FileID h =? FileFmtID_WithTime then skipn (Z.to_nat (4 * NT h)) body else body.

(** Stored value number [k] of the payload, as a [float64]. *)
Definition stored (h : header) (body : file) (k : nat) : float :=
  to_float64 (payload_type h) (item (payload_type h) (payload h body) k).

(** Columns the payload read leaves free for the time: one in the buffered
    mode, none in the unbuffered mode. *)
Definition time_column (use_buffer : bool) : nat := if use_buffer then 1%nat else 0%nat.

(** What lines 154-157 make of one entry of channel [c]. *)
Definition dequantize (h : header) (c : nat) (x : float) : float :=
  let scl := nth c (coef_list (ColScl h)) 0%float in
  let off := nth c (coef_list (ColOff h)) 0%float in
  if is_nan scl && is_nan off then 0%float else ((x - off) / scl)%float.

(** Entry [(i, c + 1)] of the table, from the stored value, in each mode. *)
Definition table_entry (use_buffer : bool) (h : header) (c : nat) (x : float) : float :=
  if use_buffer then dequantize h c x
  else ((x - nth c (coef_list (ColOff h)) 0) / nth c (coef_list (ColScl h)) 0)%float.

(** The header of [sample_fmt2_no_channel]. *)
Definition sample_no_channel_header : header :=
  {| FileID := 2; LenName := 10; NumOutChans := 0; NT := 3;
     TimeEnc := ComputedTimeEnc [0%float] [0.5%float];
     ColScl := TupleCoef []; ColOff := TupleCoef []; DescStr := [] |}.

(** The value of type [t] stored at byte offset [off] of a file. *)
Definition value_at (t : dtype) (content : file) (off : nat) : py_type t :=
  decode t (firstn (Z.to_nat (nbytes t)) (skipn off content)).

(** No channel has both its scale and its offset not-a-number. *)
Definition no_sentinel (h : header) : Prop :=
  forall c, Z.of_nat c < NumOutChans h ->
    is_nan (nth c (coef_list (ColScl h)) 0%float)
    && is_nan (nth c (coef_list (ColOff h)) 0%float) = false.

(** Neither the first nor the last character is whitespace. *)
Definition trimmed (s : str) : bool :=
  match s with
  | [] => true
  | c :: _ => negb (isspace c) && negb (isspace (last s c))
  end.

(** The character [c] occurs in [s]. *)
Definition has_char (c : ascii) (s : str) : bool := existsb (is_char c) s.

(** The computation ended: it returned or raised. *)
Definition halts {A} (o : outcome A) : bool :=
  match o with
  | Diverge => false
  | _ => true
  end.


(** The computation does not touch the file: it ends the same way whatever
    is left to read, and leaves it unread. *)
Definition leaves_file {A} (c : M A) : Prop :=
  forall fid fid2,
    c fid2 = match c fid with
             | Return a _ => Return a fid2
             | Raise e _ => Raise e fid2
             | Diverge => Diverge
             end.

(** ** The file monad: inversion *)

Section Inversion.

Context {A B : Type}.

Lemma bind_Return (c : M A) (k : A -> M B) fid b fid' :
  bind c k fid = Return b fid' ->
  exists a fid1, c fid = Return a fid1 /\ k a fid1 = Return b fid'.
Proof.
  unfold bind. destruct (c fid) as [a fid1| |]; try discriminate.
  intros H. exists a, fid1. split; [reflexivity | exact H].
Qed.

Lemma bind_Return_eq (c : M A) (k : A -> M B) fid a fid1 :
  c fid = Return a fid1 -> bind c k fid = k a fid1.
Proof. unfold bind. intros ->. reflexivity. Qed.

Lemma bind_Raise_eq (c : M A) (k : A -> M B) fid e fid1 :
  c fid = Raise e fid1 -> bind c k fid = Raise e fid1.
Proof. unfold bind. intros ->. reflexivity. Qed.

End Inversion.

Lemma bind_assoc {A B C} (c : M A) (k1 : A -> M B) (k2 : B -> M C) fid :
  bind (bind c k1) k2 fid = bind c (fun a => bind (k1 a) k2) fid.
Proof. unfold bind. destruct (c fid); reflexivity. Qed.

Lemma ret_Return {A} (a b : A) fid fid' :
  ret a fid = Return b fid' -> a = b /\ fid = fid'.
Proof. unfold ret. intros H. injection H as -> ->. split; reflexivity. Qed.

(** Splits a successful [bind] in hypothesis [H] into its two steps. *)
Ltac inv_bind H :=
  let a := fresh "a" in
  let f := fresh "fid" in
  let H1 := fresh "Hstep" in
  let H2 := fresh "Hbind_tmp" in
  apply bind_Return in H; destruct H as (a & f & H1 & H2); rename H2 into H.

Tactic Notation "inv_bind" hyp(H) "as" ident(a) ident(f) ident(H1) :=
  let H2 := fresh "Hbind_tmp" in
  apply bind_Return in H; destruct H as (a & f & H1 & H2); rename H2 into H.

Ltac inv_ret H :=
  let E1 := fresh "E" in
  let E2 := fresh "E" in
  apply ret_Return in H; destruct H as [E1 E2];
  try (injection E1 as E1); subst.

(** ** Format rejection *)

Lemma fread_one_int16 b0 b1 rest :
  fread 1 int16 (b0 :: b1 :: rest) = Return [decode int16 [b0; b1]] rest.
Proof. reflexivity. Qed.

(** C4. A file whose first two bytes decode, as a signed 16-bit integer, to a
    value outside 1, 2, 3, 4 is refused with the exception of line 74, in
    both modes; the handle then stands right after these two bytes (nothing
    further was read) and no table is returned. *)
Theorem unsupported_format_rejected :
  forall fuel filename b0 b1 rest use_buffer,
    ~ In (decode int16 [b0; b1]) [1; 2; 3; 4] ->
    ReadFASTbinary fuel filename (b0 :: b1 :: rest) use_buffer
    = Raise (FileIDNotSupported (decode int16 [b0; b1])) rest.
Proof.
  intros fuel filename b0 b1 rest use_buffer Hid.
  unfold ReadFASTbinary.
  apply bind_Raise_eq.
  unfold read_header.
  rewrite (bind_Return_eq _ _ _ _ _ (fread_one_int16 b0 b1 rest)).
  set (id := decode int16 [b0; b1]) in *.
  cbn [item0]. unfold bind at 1, ret at 1.
  assert (Hex : existsb (Z.eqb id)
            [FileFmtID_WithTime; FileFmtID_WithoutTime;
             FileFmtID_NoCompressWithoutTime; FileFmtID_ChanLen_In] = false).
  { apply not_true_is_false. intros Hx.
    apply existsb_exists in Hx. destruct Hx as (x & Hin & Heq).
    apply Z.eqb_eq in Heq. subst x. exact (Hid Hin). }
  rewrite Hex. reflexivity.
Qed.

Lemma unsupported_format_rejected_witness :
  ReadFASTbinary 0 sample_name (le_bytes 2 7 ++ text "not a FAST file") true
  = Raise (FileIDNotSupported 7) (text "not a FAST file").
Proof.
  apply (unsupported_format_rejected 0 sample_name x07 x00 (text "not a FAST file") true).
  vm_compute. intuition discriminate.
Defined.

(** ** Lists with positions *)

Lemma mapi_from_id {A} (f : nat -> A -> A) (l : list A) k :
  (forall i x, f i x = x) -> mapi_from k f l = l.
Proof.
  intros Hf. revert k. induction l as [|x l IH]; intros k; cbn.
  - reflexivity.
  - rewrite Hf, IH. reflexivity.
Qed.

Lemma mapi_id {A} (f : nat -> A -> A) (l : list A) :
  (forall i x, f i x = x) -> mapi f l = l.
Proof. apply mapi_from_id. Qed.

Lemma mapi_from_length {A B} (f : nat -> A -> B) l k :
  List.length (mapi_from k f l) = List.length l.
Proof.
  revert k. induction l as [|x l IH]; intros k; cbn; [reflexivity|].
  rewrite IH. reflexivity.
Qed.

Lemma mapi_length {A B} (f : nat -> A -> B) l :
  List.length (mapi f l) = List.length l.
Proof. apply mapi_from_length. Qed.

Lemma nth_mapi_from {A B} (f : nat -> A -> B) l k i da db :
  (i < List.length l)%nat ->
  nth i (mapi_from k f l) db = f (k + i)%nat (nth i l da).
Proof.
  revert k i. induction l as [|x l IH]; intros k i Hi; cbn in Hi; [lia|].
  destruct i as [|i]; cbn.
  - rewrite Nat.add_0_r. reflexivity.
  - rewrite IH by lia. f_equal. lia.
Qed.

Lemma nth_mapi {A B} (f : nat -> A -> B) l i da db :
  (i < List.length l)%nat -> nth i (mapi f l) db = f i (nth i l da).
Proof. intros Hi. unfold mapi. rewrite (nth_mapi_from f l 0 i da db Hi). reflexivity. Qed.

(** ** The buffered loop when the channel count exceeds the buffer size *)

Lemma int_div_Return a b fid :
  b <> 0 -> int_div a b fid = Return (Z.quot a b) fid.
Proof. intros Hb. unfold int_div. apply Z.eqb_neq in Hb. rewrite Hb. reflexivity. Qed.

Lemma int_div_zero a fid : int_div a 0 fid = Raise ZeroDivisionError fid.
Proof. reflexivity. Qed.

Lemma fread_zero t fid : fread 0 t fid = Return [] fid.
Proof.
  unfold fread, bind, fid_read. rewrite Z.mul_0_r. cbn.
  unfold struct_unpack. cbn. rewrite Z.mul_0_r. reflexivity.
Qed.

Lemma array2_eta (a : array2) : {| ncols := ncols a; rows := rows a |} = a.
Proof. destruct a. reflexivity. Qed.

Lemma in_range_empty start i : in_range start 0 i = false.
Proof.
  unfold in_range. rewrite Nat.add_0_r.
  destruct (Nat.leb_spec start i); destruct (Nat.ltb_spec i start);
    cbn; try reflexivity; lia.
Qed.

(** An assignment to a block without rows leaves the table as it is. *)
Lemma assign_block_no_rows data r c0 nCols :
  0 <= c0 -> 0 < nCols -> Z.of_nat (ncols data) = nCols + c0 ->
  forall fid,
    assign_block data r (r + 0) c0 (c0 + nCols)
      {| ncols := Z.to_nat nCols; rows := [] |} fid
    = Return data fid.
Proof.
  intros Hc0 Hn Hw fid. unfold assign_block, slice_range.
  rewrite Z.add_0_r, Z.sub_diag. cbn [Z.to_nat].
  assert (Hcn : Z.to_nat (slice_bound (c0 + nCols) (Z.of_nat (ncols data))
                          - slice_bound c0 (Z.of_nat (ncols data))) = Z.to_nat nCols).
  { unfold slice_bound.
    destruct (Z.ltb_spec (c0 + nCols) 0); [lia|].
    destruct (Z.ltb_spec c0 0); [lia|]. f_equal. lia. }
  rewrite Hcn. unfold can_broadcast_to, nrows. cbn [rows List.length ncols].
  rewrite !Nat.eqb_refl. cbn [orb andb]. unfold ret.
  transitivity (Return {| ncols := ncols data; rows := rows data |} fid);
    [|rewrite array2_eta; reflexivity].
  do 2 f_equal.
  apply mapi_id. intros i row. apply mapi_id. intros j x.
  rewrite in_range_empty. reflexivity.
Qed.

Lemma buffered_loop_zero_buffer fuel n t nCols nOff data nIntRead nLinesRead fid :
  GoodBufferSize < nCols -> 0 <= nOff -> Z.of_nat (ncols data) = nCols + nOff ->
  nIntRead < n ->
  buffered_loop fuel n t nCols nOff 0 data nIntRead nLinesRead fid = Diverge.
Proof.
  intros Hbig Hoff Hw Hlt. unfold GoodBufferSize in Hbig.
  induction fuel as [|fuel IH]; cbn [buffered_loop]; [reflexivity|].
  apply Z.ltb_lt in Hlt. rewrite Hlt. apply Z.ltb_lt in Hlt.
  replace (Z.min (n - nIntRead) 0) with 0 by lia.
  rewrite (bind_Return_eq _ _ _ _ _ (int_div_Return 0 nCols fid ltac:(lia))).
  rewrite (bind_Return_eq _ _ _ _ _ (fread_zero t fid)).
  assert (Hre : reshape2 (map (to_float64 t) []) (-1) nCols fid
                = Return {| ncols := Z.to_nat nCols; rows := [] |} fid).
  { unfold reshape2. cbn [map List.length Z.of_nat].
    destruct (Z.ltb_spec nCols (-1)); [lia|].
    destruct (Z.eqb_spec nCols (-1)); [lia|].
    destruct (Z.eqb_spec nCols 0); [lia|].
    cbn. reflexivity. }
  rewrite (bind_Return_eq _ _ _ _ _ Hre).
  rewrite Z.quot_0_l by lia.
  rewrite (bind_Return_eq _ _ _ _ _
             (assign_block_no_rows data nLinesRead nOff nCols Hoff ltac:(lia) Hw fid)).
  rewrite !Z.add_0_r. exact IH.
Qed.

Lemma zero_buffer_size_raises fuel n t nCols nOff fid :
  GoodBufferSize < nCols ->
  freadRowOrderTableBuffered fuel n t nCols nOff fid = Raise ZeroDivisionError fid.
Proof.
  intros Hbig.
  assert (Hq : Z.quot GoodBufferSize nCols = 0).
  { unfold GoodBufferSize in *. apply Z.quot_small. lia. }
  unfold freadRowOrderTableBuffered. unfold GoodBufferSize in Hbig.
  rewrite (bind_Return_eq _ _ _ _ _ (int_div_Return n nCols fid ltac:(lia))).
  rewrite (bind_Return_eq _ _ _ _ _ (int_div_Return GoodBufferSize nCols fid ltac:(lia))).
  rewrite Hq, Z.mul_0_r. reflexivity.
Qed.

(** C9, as the code has it. With a channel count above 163840 the buffer size
    [nCols * int(163840 / nCols)] is zero, and line 41 divides by it: the
    buffered read raises [ZeroDivisionError] whatever the fuel, before the
    loop is entered and with no byte of the payload read.  The loop itself,
    were it entered with this buffer size and values left to read, would
    make no progress and never end. *)
Theorem buffered_read_wide_table :
  forall fuel n type_in nCols nOff fid,
    GoodBufferSize < nCols ->
    nCols * Z.quot GoodBufferSize nCols = 0
    /\ freadRowOrderTableBuffered fuel n type_in nCols nOff fid
       = Raise ZeroDivisionError fid
    /\ (forall data nIntRead nLinesRead,
          0 <= nOff -> Z.of_nat (ncols data) = nCols + nOff -> nIntRead < n ->
          buffered_loop fuel n type_in nCols nOff 0 data nIntRead nLinesRead fid
          = Diverge).
Proof.
  intros fuel n t nCols nOff fid Hbig.
  assert (Hq : Z.quot GoodBufferSize nCols = 0).
  { unfold GoodBufferSize in *. apply Z.quot_small. lia. }
  split; [rewrite Hq; lia|]. split.
  - apply zero_buffer_size_raises. exact Hbig.
  - intros data nIntRead nLinesRead Hoff Hw Hlt.
    apply buffered_loop_zero_buffer; assumption.
Qed.

(** ** Reading elements *)

Lemma nbytes_pos t : 0 < nbytes t.
Proof. destruct t; reflexivity. Qed.

Lemma unpack_items_length t c buf : List.length (unpack_items t c buf) = c.
Proof.
  revert buf. induction c as [|c IH]; intros buf; cbn; [reflexivity|].
  rewrite IH. reflexivity.
Qed.

Lemma nth_unpack_items t c buf k d :
  (k < c)%nat -> nth k (unpack_items t c buf) d = item t buf k.
Proof.
  revert buf k. induction c as [|c IH]; intros buf k Hk; [lia|].
  destruct k as [|k]; cbn [unpack_items nth].
  - reflexivity.
  - rewrite IH by lia. unfold item. rewrite skipn_skipn. do 3 f_equal. lia.
Qed.

Lemma item_firstn t m buf k :
  ((k + 1) * Z.to_nat (nbytes t) <= m)%nat -> item t (firstn m buf) k = item t buf k.
Proof.
  intros Hm. unfold item. f_equal.
  rewrite skipn_firstn_comm, firstn_firstn. f_equal. lia.
Qed.

Lemma item_skipn t m buf k :
  item t (skipn (m * Z.to_nat (nbytes t)) buf) k = item t buf (m + k).
Proof. unfold item. rewrite skipn_skipn. do 3 f_equal. lia. Qed.

(** A successful [fread] of [n >= 0] elements: the file held them, they are
    its first [n] elements, and the handle moved past them. *)
Lemma fread_Return n t fid l fid' :
  0 <= n -> fread n t fid = Return l fid' ->
  List.length l = Z.to_nat n
  /\ (forall k d, (k < Z.to_nat n)%nat -> nth k l d = item t fid k)
  /\ fid' = skipn (Z.to_nat (nbytes t * n)) fid
  /\ nbytes t * n <= Z.of_nat (List.length fid).
Proof.
  intros Hn H. pose proof (nbytes_pos t) as Hb.
  unfold fread, bind, fid_read in H.
  destruct (Z.ltb_spec (nbytes t * n) 0) as [Hneg|_]; [nia|].
  unfold struct_unpack in H.
  destruct (Z.eqb_spec (Z.of_nat (List.length (firstn (Z.to_nat (nbytes t * n)) fid)))
              (nbytes t * Z.max n 0)) as [Hlen|Hlen]; [|discriminate].
  unfold ret in H. injection H as <- <-.
  rewrite Z.max_l in Hlen by lia. rewrite length_firstn in Hlen.
  assert (Hfit : (Z.to_nat (nbytes t * n) <= List.length fid)%nat) by lia.
  split; [apply unpack_items_length|]. split; [|split; [reflexivity|lia]].
  intros k d Hk. rewrite nth_unpack_items by exact Hk.
  apply item_firstn. nia.
Qed.

(** The converse: enough bytes make [fread] succeed. *)
Lemma fread_enough n t fid :
  0 <= n -> nbytes t * n <= Z.of_nat (List.length fid) ->
  fread n t fid
  = Return (unpack_items t (Z.to_nat n) (firstn (Z.to_nat (nbytes t * n)) fid))
           (skipn (Z.to_nat (nbytes t * n)) fid).
Proof.
  intros Hn Hlen. pose proof (nbytes_pos t) as Hb.
  unfold fread, bind, fid_read.
  destruct (Z.ltb_spec (nbytes t * n) 0) as [Hneg|_]; [nia|].
  unfold struct_unpack.
  rewrite length_firstn, Z.max_l by lia.
  rewrite Nat.min_l by lia. rewrite Z2Nat.id by nia.
  rewrite Z.eqb_refl. reflexivity.
Qed.

(** Too few bytes make it raise [struct.error], with the file exhausted. *)
Lemma fread_short n t fid :
  0 <= n -> Z.of_nat (List.length fid) < nbytes t * n ->
  fread n t fid = Raise StructError [].
Proof.
  intros Hn Hlen. pose proof (nbytes_pos t) as Hb.
  unfold fread, bind, fid_read.
  destruct (Z.ltb_spec (nbytes t * n) 0) as [Hneg|_]; [nia|].
  unfold struct_unpack.
  rewrite length_firstn, Z.max_l by lia.
  rewrite Nat.min_r by lia.
  destruct (Z.eqb_spec (Z.of_nat (List.length fid)) (nbytes t * n)); [lia|].
  unfold raise. f_equal. apply skipn_all2. lia.
Qed.

(** A negative count reads to the end and succeeds on an exhausted file only. *)
Lemma fread_negative n t fid l fid' :
  n < 0 -> fread n t fid = Return l fid' -> fid = [] /\ l = [] /\ fid' = [].
Proof.
  intros Hn H. pose proof (nbytes_pos t) as Hb.
  unfold fread, bind, fid_read in H.
  destruct (Z.ltb_spec (nbytes t * n) 0) as [_|Hpos]; [|nia].
  unfold struct_unpack in H. rewrite Z.max_r, Z.mul_0_r in H by lia.
  destruct fid as [|b fid]; [|discriminate].
  cbn in H. unfold ret in H. injection H as <- <-.
  replace (Z.to_nat n) with 0%nat by lia. repeat split; reflexivity.
Qed.

Lemma item0_Return {A} (l : list A) a fid fid' :
  item0 l fid = Return a fid' -> fid' = fid /\ exists l', l = a :: l'.
Proof.
  destruct l as [|x l']; cbn; unfold raise, ret; intros H; [discriminate|].
  injection H as <- <-. split; [reflexivity|]. exists l'. reflexivity.
Qed.

(** ** What a successfully read header holds *)

Lemma length_one {A} (l : list A) : List.length l = 1%nat -> exists x, l = [x].
Proof.
  destruct l as [|x [|y l]]; cbn; intros H; try discriminate.
  exists x. reflexivity.
Qed.

Lemma fread_one_Return t fid l fid' :
  fread 1 t fid = Return l fid' -> exists x, l = [x].
Proof.
  intros H. apply fread_Return in H; [|lia].
  destruct H as (Hlen & _). apply length_one. exact Hlen.
Qed.

Lemma np_full_Return x r c fid a fid' :
  np_full x r c fid = Return a fid' ->
  fid' = fid /\ 0 <= r /\ 0 <= c
  /\ a = {| ncols := Z.to_nat c; rows := repeat (repeat x (Z.to_nat c)) (Z.to_nat r) |}.
Proof.
  unfold np_full.
  destruct (Z.ltb_spec r 0) as [Hr|Hr]; destruct (Z.ltb_spec c 0) as [Hc|Hc];
    cbn [orb]; unfold raise, ret; intros H; try discriminate.
  injection H as <- <-. repeat split; lia.
Qed.

Lemma map_repeat {A B} (f : A -> B) x n : map f (repeat x n) = repeat (f x) n.
Proof. induction n as [|n IH]; cbn; [reflexivity|]. rewrite IH. reflexivity. Qed.

Lemma np_column_Return x n fid c fid' :
  np_column x n fid = Return c fid' ->
  fid' = fid /\ 0 <= n /\ c = ColumnCoef (repeat x (Z.to_nat n)).
Proof.
  unfold np_column. intros H. inv_bind H as a f Ha.
  apply np_full_Return in Ha. destruct Ha as (-> & Hn & _ & ->).
  inv_ret H. cbn [rows]. rewrite map_repeat. cbn. repeat split; assumption.
Qed.

Lemma read_header_Return content h region :
  read_header content = Return h region -> header_shape h.
Proof.
  unfold read_header. intros H.
  inv_bind H as l0 f0 Hl0. inv_bind H as id f1 Hid0.
  destruct (existsb (Z.eqb id) _) eqn:Hid; cbn [negb] in H; [|discriminate].
  inv_bind H as len f2 Hlen.
  inv_bind H as l1 f3 Hl1. inv_bind H as chans f4 Hchans0.
  inv_bind H as l2 f5 Hl2. inv_bind H as nt f6 Hnt.
  inv_bind H as tenc f7 Htime.
  inv_bind H as coefs f8 Hcoef. destruct coefs as [scl off].
  inv_bind H as l3 f9 Hdesc1. inv_bind H as lendesc f10 Hdesc2.
  inv_bind H as desc f11 Hdesc3. inv_ret H.
  unfold header_shape. cbn [FileID NumOutChans LenName TimeEnc ColScl ColOff].
  assert (Hin : In id [1; 2; 3; 4]).
  { apply existsb_exists in Hid. destruct Hid as (x & Hx & Heq).
    apply Z.eqb_eq in Heq. subst x. exact Hx. }
  split; [exact Hin|].
  assert (Hcoef' :
    0 <= chans /\
    if id =? FileFmtID_NoCompressWithoutTime
    then scl = ColumnCoef (repeat 1%float (Z.to_nat chans))
         /\ off = ColumnCoef (repeat 0%float (Z.to_nat chans))
    else exists s o, scl = TupleCoef s /\ off = TupleCoef o
                     /\ List.length s = Z.to_nat chans
                     /\ List.length o = Z.to_nat chans).
  { destruct (id =? FileFmtID_NoCompressWithoutTime).
    - inv_bind Hcoef as s fs Hs. inv_bind Hcoef as o fo Ho. inv_ret Hcoef.
      apply np_column_Return in Hs, Ho.
      destruct Hs as (_ & Hn & ->). destruct Ho as (_ & _ & ->).
      split; [exact Hn|split; reflexivity].
    - inv_bind Hcoef as s fs Hs. inv_bind Hcoef as o fo Ho. inv_ret Hcoef.
      destruct (Z.ltb_spec chans 0) as [Hneg|Hpos].
      + apply (fread_negative _ _ _ _ _ Hneg) in Hs, Ho.
        destruct Ho as (_ & _ & ->).
        cbv in Hdesc1. discriminate.
      + apply (fread_Return _ _ _ _ _ Hpos) in Hs, Ho.
        destruct Hs as (Hls & _). destruct Ho as (Hlo & _).
        split; [exact Hpos|]. exists s, o. repeat split; assumption. }
  destruct Hcoef' as (Hchans & Hcoef').
  split; [exact Hchans|]. split.
  - intros Hne. destruct (Z.eqb_spec id FileFmtID_ChanLen_In); [contradiction|].
    inv_ret Hlen. reflexivity.
  - split; [|exact Hcoef'].
    destruct (id =? FileFmtID_WithTime).
    + inv_bind Htime as s fs Hs. inv_bind Htime as o fo Ho. inv_ret Htime.
      apply fread_one_Return in Hs, Ho.
      destruct Hs as (s' & ->). destruct Ho as (o' & ->).
      exists s', o'. reflexivity.
    + inv_bind Htime as s fs Hs. inv_bind Htime as o fo Ho. inv_ret Htime.
      apply fread_one_Return in Hs, Ho.
      destruct Hs as (s' & ->). destruct Ho as (o' & ->).
      exists s', o'. reflexivity.
Qed.

(** ** Channel names and units *)

Lemma unpack_items_uint8 buf :
  unpack_items uint8 (List.length buf) buf = codes buf.
Proof.
  induction buf as [|b buf IH]; [reflexivity|].
  cbn [List.length unpack_items codes map].
  change (Z.to_nat (nbytes uint8)) with 1%nat. cbn [firstn skipn]. f_equal.
  - unfold decode, le_unsigned. cbn [fold_right]. lia.
  - exact IH.
Qed.

Lemma fread_uint8_Return n fid l fid' :
  fread n uint8 fid = Return l fid' ->
  l = codes (firstn (Z.to_nat n) fid) /\ fid' = skipn (Z.to_nat n) fid.
Proof.
  intros H. destruct (Z.ltb_spec n 0) as [Hneg|Hpos].
  - apply (fread_negative _ _ _ _ _ Hneg) in H. destruct H as (-> & -> & ->).
    rewrite firstn_nil, skipn_nil. split; reflexivity.
  - unfold fread, bind, fid_read in H. cbn [nbytes] in H. rewrite Z.mul_1_l in H.
    destruct (Z.ltb_spec n 0) as [|_]; [lia|].
    unfold struct_unpack in H. cbn [nbytes] in H.
    rewrite Z.mul_1_l, Z.max_l in H by lia.
    destruct (Z.eqb_spec (Z.of_nat (List.length (firstn (Z.to_nat n) fid))) n)
      as [Hlen|]; [|discriminate].
    unfold ret in H. injection H as <- <-. split; [|reflexivity].
    rewrite <- Hlen at 1. rewrite Nat2Z.id. apply unpack_items_uint8.
Qed.

Lemma read_fields_Return count L post fid l fid' :
  read_fields count L post fid = Return l fid' ->
  List.length l = count
  /\ (forall k d, (k < count)%nat -> nth k l d = post (join_chr (codes (field L fid k))))
  /\ fid' = skipn (count * Z.to_nat L) fid.
Proof.
  revert fid l fid'. induction count as [|count IH]; intros fid l fid' H.
  - cbn in H. inv_ret H. repeat split. intros k d Hk. lia.
  - cbn [read_fields] in H.
    inv_bind H as c f Hc. inv_bind H as rest f' Hrest. inv_ret H.
    apply fread_uint8_Return in Hc. destruct Hc as (-> & ->).
    apply IH in Hrest. destruct Hrest as (Hlen & Hnth & ->).
    split; [cbn; lia|]. split.
    + intros k d Hk. destruct k as [|k]; cbn [nth].
      * reflexivity.
      * rewrite Hnth by lia. unfold field. rewrite skipn_skipn.
        replace (k * Z.to_nat L + Z.to_nat L)%nat with (S k * Z.to_nat L)%nat by lia.
        reflexivity.
    + rewrite skipn_skipn. f_equal. lia.
Qed.

Lemma py_slice_inner {A} (a z : A) (mid : list A) :
  py_slice (a :: mid ++ [z]) 1 (-1) = mid.
Proof.
  unfold py_slice, slice_range, slice_bound.
  cbn [List.length]. rewrite length_app. cbn [List.length].
  destruct (Z.ltb_spec 1 0); [lia|]. destruct (Z.ltb_spec (-1) 0); [|lia].
  replace (Z.to_nat (Z.min 1 (Z.of_nat (S (List.length mid + 1))))) with 1%nat by lia.
  replace (Z.to_nat _) with (List.length mid) by lia.
  cbn [skipn]. rewrite firstn_app, Nat.sub_diag, firstn_all. cbn. apply app_nil_r.
Qed.

Lemma py_slice_short {A} (l : list A) :
  (List.length l < 2)%nat -> py_slice l 1 (-1) = [].
Proof.
  intros Hl. unfold py_slice, slice_range, slice_bound.
  destruct (Z.ltb_spec 1 0); [lia|]. destruct (Z.ltb_spec (-1) 0); [|lia].
  replace (Z.to_nat (Z.max _ _ - _)) with 0%nat by lia. reflexivity.
Qed.

(** ** The steps of a successful read *)

Lemma ReadFASTbinary_Return fuel filename content use_buffer tbl inf fid' :
  ReadFASTbinary fuel filename content use_buffer = Return (tbl, inf) fid' ->
  exists h region names units body PackedTime data fid1 time fid2 fid3,
    read_header content = Return h region
    /\ read_channel_names h region = Return (names, units) body
    /\ read_series fuel h use_buffer body = Return (PackedTime, data) fid1
    /\ reconstruct_time h PackedTime fid1 = Return time fid2
    /\ scale_data h use_buffer data time fid2 = Return tbl fid3
    /\ inf = make_info filename h names units.
Proof.
  unfold ReadFASTbinary. intros H.
  inv_bind H as h region Hh.
  inv_bind H as nu body Hnu. destruct nu as [names units].
  inv_bind H as pd fid1 Hpd. destruct pd as [PackedTime data].
  inv_bind H as time fid2 Htime.
  inv_bind H as data' fid3 Hscale.
  inv_ret H.
  exists h, region, names, units, body, PackedTime, data, fid1, time, fid2, fid'.
  repeat split; assumption.
Qed.

Lemma read_channel_names_Return h region names units body :
  read_channel_names h region = Return (names, units) body ->
  let count := Z.to_nat (NumOutChans h + 1) in
  List.length names = count /\ List.length units = count
  /\ (forall k d, (k < count)%nat ->
        nth k names d = name_of_field (join_chr (codes (field (LenName h) region k))))
  /\ (forall k d, (k < count)%nat ->
        nth k units d
        = unit_of_field (join_chr (codes (field (LenName h) region (count + k)))))
  /\ body = skipn (2 * count * Z.to_nat (LenName h)) region.
Proof.
  intros H count. unfold read_channel_names in H.
  inv_bind H as n f Hn. inv_bind H as u f' Hu. inv_ret H.
  apply read_fields_Return in Hn, Hu. fold count in Hn, Hu.
  destruct Hn as (Hln & Hnn & ->). destruct Hu as (Hlu & Hnu & ->).
  split; [exact Hln|]. split; [exact Hlu|]. split; [exact Hnn|]. split.
  - intros k d Hk. rewrite Hnu by exact Hk. unfold field.
    rewrite skipn_skipn.
    replace (k * Z.to_nat (LenName h) + count * Z.to_nat (LenName h))%nat
      with ((count + k) * Z.to_nat (LenName h))%nat by lia.
    reflexivity.
  - rewrite skipn_skipn. f_equal. lia.
Qed.

(** C8. After a successful read the lists of channel names and of channel
    units have [NumOutChans + 1] entries each, in file order: entry [k] of
    the names is field [k] of the region after the description, entry [k] of
    the units is field [NumOutChans + 1 + k]; entry 0 belongs to the time
    column.  A name is its field decoded byte by byte as character codes and
    stripped of surrounding whitespace; a unit is stripped likewise and then
    loses its first and its last character ([[1:-1]]), which leaves nothing
    of a unit shorter than two characters. *)
Theorem channel_names_and_units :
  forall fuel filename content use_buffer tbl inf fid',
    ReadFASTbinary fuel filename content use_buffer = Return (tbl, inf) fid' ->
    exists h region,
      read_header content = Return h region
      /\ Z.of_nat (List.length (attribute_names inf)) = NumOutChans h + 1
      /\ Z.of_nat (List.length (attribute_units inf)) = NumOutChans h + 1
      /\ forall k, Z.of_nat k < NumOutChans h + 1 ->
           let name_field := join_chr (codes (field (LenName h) region k)) in
           let unit_field :=
             join_chr (codes (field (LenName h) region (Z.to_nat (NumOutChans h + 1) + k))) in
           nth k (attribute_names inf) [] = strip name_field
           /\ nth k (attribute_units inf) [] = py_slice (strip unit_field) 1 (-1)
           /\ (forall a mid z, strip unit_field = a :: mid ++ [z] ->
                 nth k (attribute_units inf) [] = mid)
           /\ ((List.length (strip unit_field) < 2)%nat ->
                 nth k (attribute_units inf) [] = []).
Proof.
  intros fuel filename content use_buffer tbl inf fid' H.
  apply ReadFASTbinary_Return in H.
  destruct H as (h & region & names & units & body & PackedTime & data & fid1 & time
                 & fid2 & fid3 & Hh & Hnu & _ & _ & _ & ->).
  exists h, region. split; [exact Hh|].
  pose proof (read_header_Return _ _ _ Hh) as (_ & Hchans & _).
  apply read_channel_names_Return in Hnu. cbv zeta in Hnu.
  destruct Hnu as (Hln & Hlu & Hnn & Hnu & _).
  cbn [make_info attribute_names attribute_units].
  split; [lia|]. split; [lia|].
  intros k Hk.
  set (unit_field :=
         join_chr (codes (field (LenName h) region (Z.to_nat (NumOutChans h + 1) + k)))).
  assert (Hk' : (k < Z.to_nat (NumOutChans h + 1))%nat) by lia.
  assert (Hunit : nth k units [] = py_slice (strip unit_field) 1 (-1)).
  { rewrite Hnu by exact Hk'. reflexivity. }
  split; [rewrite Hnn by exact Hk'; reflexivity|].
  split; [exact Hunit|]. split.
  - intros a mid z Hs. rewrite Hunit, Hs. apply py_slice_inner.
  - intros Hs. rewrite Hunit. apply py_slice_short. exact Hs.
Qed.

(** ** Arrays: shapes and entries *)

Lemma chunk_length {A} R C (l : list A) : List.length (chunk R C l) = R.
Proof.
  revert l. induction R as [|R IH]; intros l; cbn; [reflexivity|].
  rewrite IH. reflexivity.
Qed.

Lemma nth_chunk {A} R C (l : list A) i j d :
  (i < R)%nat -> (j < C)%nat ->
  nth j (nth i (chunk R C l) []) d = nth (i * C + j) l d.
Proof.
  revert l i. induction R as [|R IH]; intros l i Hi Hj; [lia|].
  destruct i as [|i]; cbn [chunk nth].
  - rewrite nth_firstn. destruct (Nat.ltb_spec j C); [reflexivity|lia].
  - rewrite IH by lia. rewrite nth_skipn. f_equal. lia.
Qed.

Lemma chunk_rows {A} R C (l : list A) :
  (R * C <= List.length l)%nat ->
  Forall (fun row => List.length row = C) (chunk R C l).
Proof.
  revert l. induction R as [|R IH]; intros l Hl; cbn [chunk]; constructor.
  - rewrite length_firstn. cbn in Hl. lia.
  - apply IH. rewrite length_skipn. cbn in Hl. lia.
Qed.

Lemma map_seq_nth {A B} (g : A -> B) (a : list A) d :
  map (fun i => g (nth i a d)) (seq 0 (List.length a)) = map g a.
Proof.
  induction a as [|x a IH]; [reflexivity|].
  cbn [List.length seq map nth]. f_equal.
  rewrite <- seq_shift, map_map. exact IH.
Qed.

Lemma broadcast_dim_one_r n : broadcast_dim n 1 = Some n.
Proof.
  unfold broadcast_dim. destruct (Nat.eqb_spec n 1) as [->|]; reflexivity.
Qed.

Lemma broadcast_dim_one_l n : broadcast_dim 1 n = Some n.
Proof.
  unfold broadcast_dim. destruct (Nat.eqb_spec 1 n) as [<-|]; reflexivity.
Qed.

Lemma broadcast_dim_refl n : broadcast_dim n n = Some n.
Proof. unfold broadcast_dim. rewrite Nat.eqb_refl. reflexivity. Qed.

Lemma bidx_lt dim i : (i < dim)%nat -> bidx dim i = i.
Proof. unfold bidx. destruct (Nat.eqb_spec dim 1); lia. Qed.

(** An array against a one-element array (or a scalar), on either side. *)
Lemma np_binop1_scalar_r f a y fid :
  np_binop1 f a [y] fid = Return (map (fun x => f x y) a) fid.
Proof.
  unfold np_binop1. cbn [List.length]. rewrite broadcast_dim_one_r.
  unfold ret. f_equal.
  rewrite <- (map_seq_nth (fun x => f x y) a 0%float).
  apply map_ext_in. intros i Hi. apply in_seq in Hi.
  rewrite bidx_lt by lia. reflexivity.
Qed.

Lemma np_binop1_scalar_l f x b fid :
  np_binop1 f [x] b fid = Return (map (fun y => f x y) b) fid.
Proof.
  unfold np_binop1. cbn [List.length]. rewrite broadcast_dim_one_l.
  unfold ret. f_equal.
  rewrite <- (map_seq_nth (fun y => f x y) b 0%float).
  apply map_ext_in. intros i Hi. apply in_seq in Hi.
  rewrite (bidx_lt (List.length b)) by lia. reflexivity.
Qed.

(** ** Time reconstruction *)

Lemma reconstruct_time_eq h PackedTime fid :
  header_shape h ->
  reconstruct_time h PackedTime fid
  = Return
      match TimeEnc h with
      | PackedTimeEnc TimeScl TimeOff =>
          map (fun p => (float_of_Z p - get1 TimeOff 0) / get1 TimeScl 0)%float PackedTime
      | ComputedTimeEnc TimeOut1 TimeIncr =>
          map (fun i => get1 TimeOut1 0 + get1 TimeIncr 0 * float_of_Z (Z.of_nat i))%float
              (seq 0 (Z.to_nat (NT h)))
      end
      fid.
Proof.
  intros (_ & _ & _ & Htime & _). unfold reconstruct_time.
  destruct (FileID h =? FileFmtID_WithTime).
  - destruct Htime as (s & o & ->).
    rewrite (bind_Return_eq _ _ _ _ _ (np_binop1_scalar_r _ _ _ _)).
    rewrite np_binop1_scalar_r, !map_map. reflexivity.
  - destruct Htime as (t0 & dt & ->).
    rewrite (bind_Return_eq _ _ _ _ _ (np_binop1_scalar_l _ _ _ _)).
    rewrite np_binop1_scalar_l. unfold np_arange. rewrite !map_map. reflexivity.
Qed.

Lemma reshape2_infer_rows l C k fid :
  (0 < C)%nat -> List.length l = (k * C)%nat ->
  reshape2 l (-1) (Z.of_nat C) fid = Return {| ncols := C; rows := chunk k C l |} fid.
Proof.
  intros HC Hl. unfold reshape2. rewrite Hl, Nat2Z.inj_mul.
  destruct (Z.ltb_spec (Z.of_nat C) (-1)); [lia|].
  destruct (Z.eqb_spec (Z.of_nat C) (-1)); [lia|].
  destruct (Z.eqb_spec (Z.of_nat C) 0); [lia|].
  cbn -[Z.modulo Z.div Z.mul Z.of_nat].
  rewrite Z.mod_mul, Z.div_mul by lia. cbn [Z.eqb negb].
  rewrite !Nat2Z.id. reflexivity.
Qed.

Lemma reshape2_exact l R C fid :
  List.length l = (R * C)%nat ->
  reshape2 l (Z.of_nat R) (Z.of_nat C) fid = Return {| ncols := C; rows := chunk R C l |} fid.
Proof.
  intros Hl. unfold reshape2. rewrite Hl, Nat2Z.inj_mul.
  destruct (Z.ltb_spec (Z.of_nat R) (-1)); [lia|].
  destruct (Z.ltb_spec (Z.of_nat C) (-1)); [lia|].
  destruct (Z.eqb_spec (Z.of_nat R) (-1)); [lia|].
  destruct (Z.eqb_spec (Z.of_nat C) (-1)); [lia|].
  cbn [orb andb]. rewrite Z.eqb_refl, !Nat2Z.id. reflexivity.
Qed.

Lemma Forall_mapi_from {A B} (P : A -> Prop) (Q : B -> Prop) (f : nat -> A -> B) l k :
  (forall i x, P x -> Q (f i x)) -> Forall P l -> Forall Q (mapi_from k f l).
Proof.
  intros Hf Hl. revert k. induction Hl as [|x l Hx Hl IH]; intros k; cbn; constructor.
  - apply Hf. exact Hx.
  - apply IH.
Qed.

Lemma wf_update_entries F a : wf a -> wf (update_entries F a).
Proof.
  unfold wf, update_entries, mapi. cbn [rows ncols]. intros H.
  apply (Forall_mapi_from _ _ _ _ _ (fun i row Hrow =>
           eq_trans (mapi_from_length _ row 0) Hrow) H).
Qed.

Lemma nrows_update_entries F a : nrows (update_entries F a) = nrows a.
Proof. unfold nrows, update_entries. cbn [rows]. apply mapi_length. Qed.

Lemma wf_row_length a i : wf a -> (i < nrows a)%nat -> List.length (nth i (rows a) []) = ncols a.
Proof.
  unfold wf, nrows. intros H Hi.
  apply (proj1 (Forall_forall _ _) H). apply nth_In. exact Hi.
Qed.

Lemma get2_update_entries F a i j :
  wf a -> (i < nrows a)%nat -> (j < ncols a)%nat ->
  get2 (update_entries F a) i j = F i j (get2 a i j).
Proof.
  intros Hwf Hi Hj. unfold get2, update_entries. cbn [rows].
  rewrite (nth_mapi _ (rows a) i [] []) by exact Hi.
  rewrite (nth_mapi _ _ j 0%float 0%float); [reflexivity|].
  rewrite wf_row_length by assumption. exact Hj.
Qed.

(** Outside its shape an array reads as zero. *)
Lemma get2_outside a i j :
  wf a -> (nrows a <= i)%nat \/ (ncols a <= j)%nat -> get2 a i j = 0%float.
Proof.
  intros Hwf Hij. unfold get2.
  destruct (Nat.lt_ge_cases i (nrows a)) as [Hi|Hi].
  - apply nth_overflow. rewrite wf_row_length by assumption. lia.
  - rewrite (nth_overflow (rows a)) by exact Hi. destruct j; reflexivity.
Qed.

(** The block assignment of line 53 when the block fits the table. *)
Lemma assign_block_fits data done k C B fid :
  (done + k <= nrows data)%nat -> ncols data = (C + 1)%nat ->
  nrows B = k -> ncols B = C ->
  assign_block data (Z.of_nat done) (Z.of_nat done + Z.of_nat k) 1 (1 + Z.of_nat C) B fid
  = Return (update_entries (fun i j x =>
              if in_range done k i && in_range 1 C j
              then get2 B (bidx k (i - done)) (bidx C (j - 1))
              else x) data) fid.
Proof.
  intros Hrows Hcols HBr HBc. unfold assign_block, slice_range, slice_bound.
  destruct (Z.ltb_spec (Z.of_nat done) 0); [lia|].
  destruct (Z.ltb_spec (Z.of_nat done + Z.of_nat k) 0); [lia|].
  destruct (Z.ltb_spec 1 0); [lia|].
  destruct (Z.ltb_spec (1 + Z.of_nat C) 0); [lia|].
  rewrite Hcols, HBr, HBc.
  replace (Z.to_nat (Z.min (Z.of_nat done) (Z.of_nat (nrows data)))) with done by lia.
  replace (Z.to_nat (Z.min (Z.of_nat done + Z.of_nat k) (Z.of_nat (nrows data))
                     - Z.min (Z.of_nat done) (Z.of_nat (nrows data)))) with k by lia.
  replace (Z.to_nat (Z.min 1 (Z.of_nat (C + 1)))) with 1%nat by lia.
  replace (Z.to_nat (Z.min (1 + Z.of_nat C) (Z.of_nat (C + 1))
                     - Z.min 1 (Z.of_nat (C + 1)))) with C by lia.
  unfold can_broadcast_to. rewrite !Nat.eqb_refl. cbn [orb andb].
  unfold ret, update_entries. rewrite Hcols. reflexivity.
Qed.

Lemma nth_map_lt {A B} (f : A -> B) l n da db :
  (n < List.length l)%nat -> nth n (map f l) db = f (nth n l da).
Proof.
  intros Hn. rewrite (nth_indep _ db (f da)) by (rewrite length_map; exact Hn).
  apply map_nth.
Qed.

Lemma nbytes_nat t : nbytes t = Z.of_nat (Z.to_nat (nbytes t)).
Proof. destruct t; reflexivity. Qed.

(** ** The buffered loop fills the table row by row *)

Section BufferedLoop.

Variable t : dtype.
Variables C Lb R : nat.
Hypothesis HC : (0 < C)%nat.
Hypothesis HL : (0 < Lb)%nat.

Lemma buffered_loop_Return :
  forall fuel data dn fid data' fid',
    (dn <= R)%nat -> wf data -> ncols data = (C + 1)%nat -> nrows data = R ->
    buffered_loop fuel (Z.of_nat R * Z.of_nat C) t (Z.of_nat C) 1
      (Z.of_nat C * Z.of_nat Lb) data (Z.of_nat dn * Z.of_nat C) (Z.of_nat dn) fid
    = Return data' fid' ->
    wf data' /\ ncols data' = (C + 1)%nat /\ nrows data' = R
    /\ (forall i j, (i < dn)%nat \/ j = 0%nat -> get2 data' i j = get2 data i j)
    /\ (forall i j, (dn <= i < R)%nat -> (j < C)%nat ->
          get2 data' i (j + 1) = to_float64 t (item t fid ((i - dn) * C + j)))
    /\ fid' = skipn ((R - dn) * C * Z.to_nat (nbytes t)) fid
    /\ ((R - dn) * C * Z.to_nat (nbytes t) <= List.length fid)%nat.
Proof.
  set (nb := Z.to_nat (nbytes t)).
  induction fuel as [|fuel IH]; intros data dn fid data' fid' Hdn Hwf Hcols Hrows H.
  - discriminate H.
  - cbn [buffered_loop] in H.
    destruct (Z.ltb_spec (Z.of_nat dn * Z.of_nat C) (Z.of_nat R * Z.of_nat C)) as [Hlt|Hge].
    + assert (Hdn' : (dn < R)%nat) by nia.
      set (k := Nat.min (R - dn) Lb).
      assert (Hk : (0 < k)%nat /\ (dn + k <= R)%nat) by (subst k; lia).
      assert (Hmin : Z.min (Z.of_nat R * Z.of_nat C - Z.of_nat dn * Z.of_nat C)
                           (Z.of_nat C * Z.of_nat Lb) = Z.of_nat (k * C)).
      { subst k. destruct (Nat.min_spec (R - dn) Lb) as [[Hm ->]|[Hm ->]]; nia. }
      rewrite Hmin in H.
      rewrite (bind_Return_eq _ _ _ _ _
                 (int_div_Return (Z.of_nat (k * C)) (Z.of_nat C) fid ltac:(lia))) in H.
      assert (Hq : Z.quot (Z.of_nat (k * C)) (Z.of_nat C) = Z.of_nat k).
      { rewrite Nat2Z.inj_mul. apply Z.quot_mul. lia. }
      rewrite Hq in H.
      inv_bind H as items fid1 Hread.
      apply fread_Return in Hread; [|lia].
      rewrite Nat2Z.id in Hread. destruct Hread as (Hlen & Hitems & -> & Hfit).
      assert (Hskip : Z.to_nat (nbytes t * Z.of_nat (k * C)) = (k * C * nb)%nat).
      { rewrite (nbytes_nat t), <- Nat2Z.inj_mul, Nat2Z.id. fold nb. lia. }
      rewrite Hskip in H.
      assert (Hfit' : (k * C * nb <= List.length fid)%nat) by lia.
      rewrite (bind_Return_eq _ _ _ _ _
                 (reshape2_infer_rows (map (to_float64 t) items) C k _ HC
                    ltac:(rewrite length_map; exact Hlen))) in H.
      set (B := {| ncols := C; rows := chunk k C (map (to_float64 t) items) |}) in H.
      rewrite (bind_Return_eq _ _ _ _ _
                 (assign_block_fits data dn k C B _ ltac:(lia) Hcols
                    (chunk_length k C _) eq_refl)) in H.
      set (F := fun i j x =>
                  if in_range dn k i && in_range 1 C j
                  then get2 B (bidx k (i - dn)) (bidx C (j - 1)) else x) in H.
      replace (Z.of_nat dn * Z.of_nat C + Z.of_nat (k * C))
        with (Z.of_nat (dn + k) * Z.of_nat C) in H by lia.
      replace (Z.of_nat dn + Z.of_nat k) with (Z.of_nat (dn + k)) in H by lia.
      apply IH in H; [|lia|apply wf_update_entries; exact Hwf|exact Hcols
                       |rewrite nrows_update_entries; exact Hrows].
      destruct H as (Hwf' & Hc' & Hr' & Hkeep & Hnew & -> & Hrest).
      rewrite length_skipn in Hrest.
      assert (HF : forall i j, get2 (update_entries F data) i j = F i j (get2 data i j)).
      { intros i j.
        destruct (Nat.lt_ge_cases i (nrows data)) as [Hi|Hi];
          [destruct (Nat.lt_ge_cases j (ncols data)) as [Hj|Hj]|].
        - apply get2_update_entries; assumption.
        - rewrite !get2_outside;
            [|exact Hwf|right; exact Hj|apply wf_update_entries; exact Hwf|right; exact Hj].
          unfold F, in_range.
          destruct (Nat.ltb_spec j (1 + C)); [lia|].
          rewrite !andb_false_r. reflexivity.
        - rewrite !get2_outside;
            [|exact Hwf|left; exact Hi|apply wf_update_entries; exact Hwf
             |left; rewrite nrows_update_entries; exact Hi].
          unfold F, in_range.
          destruct (Nat.ltb_spec i (dn + k)); [lia|].
          rewrite andb_false_r. reflexivity. }
      split; [exact Hwf'|]. split; [exact Hc'|]. split; [exact Hr'|].
      split; [|split; [|split]].
      * intros i j Hij. rewrite Hkeep by lia. rewrite HF. unfold F, in_range.
        destruct Hij as [Hi| ->].
        -- destruct (Nat.leb_spec dn i); [lia|]. reflexivity.
        -- cbn [Nat.leb]. rewrite andb_false_r. reflexivity.
      * intros i j Hi Hj.
        destruct (Nat.lt_ge_cases i (dn + k)) as [Hin|Hout].
        -- rewrite Hkeep by lia. rewrite HF. unfold F, in_range.
           destruct (Nat.leb_spec dn i); [|lia].
           destruct (Nat.ltb_spec i (dn + k)); [|lia].
           destruct (Nat.leb_spec 1 (j + 1)); [|lia].
           destruct (Nat.ltb_spec (j + 1) (1 + C)); [|lia].
           cbn [andb]. rewrite !bidx_lt by lia.
           unfold get2, B. cbn [rows].
           replace (j + 1 - 1)%nat with j by lia.
           rewrite nth_chunk by lia.
           assert (Hpos : ((i - dn) * C + j < k * C)%nat) by nia.
           rewrite (nth_map_lt _ _ _ (item t fid 0)) by lia.
           rewrite Hitems by lia. reflexivity.
        -- rewrite Hnew by lia.
           replace (k * C * nb)%nat with ((k * C) * nb)%nat by lia.
           unfold nb. rewrite item_skipn. do 2 f_equal.
           replace (i - dn)%nat with (k + (i - (dn + k)))%nat by lia.
           lia.
      * rewrite skipn_skipn. f_equal.
        replace (R - dn)%nat with ((R - (dn + k)) + k)%nat by lia. lia.
      * replace (R - dn)%nat with ((R - (dn + k)) + k)%nat by lia. lia.
    + assert (dn = R) by nia. subst dn. inv_ret H.
      split; [exact Hwf|]. split; [exact Hcols|]. split; [reflexivity|].
      split; [reflexivity|]. split; [|split].
      * intros i j Hi. lia.
      * rewrite Nat.sub_diag. reflexivity.
      * rewrite Nat.sub_diag. cbn. lia.
Qed.

End BufferedLoop.

Lemma wf_repeat x r c : wf {| ncols := c; rows := repeat (repeat x c) r |}.
Proof.
  unfold wf. cbn [rows ncols]. apply Forall_forall. intros row Hrow.
  apply repeat_spec in Hrow. subst row. apply repeat_length.
Qed.

(** A successful buffered read: the channel count is between 1 and the
    buffer size, and the table holds the payload in columns 1 and up. *)
Lemma freadRowOrderTableBuffered_Return fuel t nCols nLines fid data fid' :
  0 <= nCols ->
  freadRowOrderTableBuffered fuel (nLines * nCols) t nCols 1 fid = Return data fid' ->
  0 < nCols <= GoodBufferSize /\ 0 <= nLines
  /\ wf data /\ ncols data = (Z.to_nat nCols + 1)%nat /\ nrows data = Z.to_nat nLines
  /\ (forall i j, (i < Z.to_nat nLines)%nat -> (j < Z.to_nat nCols)%nat ->
        get2 data i (j + 1) = to_float64 t (item t fid (i * Z.to_nat nCols + j)))
  /\ fid' = skipn (Z.to_nat nLines * Z.to_nat nCols * Z.to_nat (nbytes t)) fid
  /\ (Z.to_nat nLines * Z.to_nat nCols * Z.to_nat (nbytes t) <= List.length fid)%nat.
Proof.
  intros Hc H. unfold freadRowOrderTableBuffered in H.
  destruct (Z.eq_dec nCols 0) as [->|Hne]; [rewrite Z.mul_0_r in H; discriminate H|].
  rewrite (bind_Return_eq _ _ _ _ _ (int_div_Return _ _ _ Hne)) in H.
  rewrite (bind_Return_eq _ _ _ _ _ (int_div_Return _ _ _ Hne)) in H.
  rewrite Z.quot_mul in H by exact Hne.
  set (L := Z.quot GoodBufferSize nCols) in H.
  assert (HL0 : 0 <= L) by (apply Z.quot_pos; unfold GoodBufferSize; lia).
  destruct (Z.eq_dec L 0) as [HLz|HLnz].
  { rewrite HLz, Z.mul_0_r in H. discriminate H. }
  assert (Hbs : nCols * L <> 0) by nia.
  rewrite (bind_Return_eq _ _ _ _ _ (int_div_Return _ _ _ Hbs)) in H.
  inv_bind H as data0 fid0 Hzeros.
  apply np_full_Return in Hzeros. destruct Hzeros as (-> & Hlines & _ & ->).
  unfold try_except in H.
  destruct (buffered_loop _ _ _ _ _ _ _ _ _ fid) as [d f|e f|] eqn:Hloop;
    try discriminate H.
  injection H as -> ->.
  assert (Hbound : nCols <= GoodBufferSize).
  { destruct (Z.le_gt_cases nCols GoodBufferSize) as [Hle|Hgt]; [exact Hle|].
    exfalso. apply HLnz. apply Z.quot_small. unfold GoodBufferSize in *. lia. }
  split; [lia|]. split; [exact Hlines|].
  assert (Hloop' :
    buffered_loop fuel (Z.of_nat (Z.to_nat nLines) * Z.of_nat (Z.to_nat nCols)) t
      (Z.of_nat (Z.to_nat nCols)) 1 (Z.of_nat (Z.to_nat nCols) * Z.of_nat (Z.to_nat L))
      {| ncols := Z.to_nat (nCols + 1);
         rows := repeat (repeat 0%float (Z.to_nat (nCols + 1))) (Z.to_nat nLines) |}
      (Z.of_nat 0 * Z.of_nat (Z.to_nat nCols)) (Z.of_nat 0) fid = Return data fid').
  { rewrite !Z2Nat.id by lia. cbn [Z.of_nat]. rewrite Z.mul_0_l. exact Hloop. }
  clear Hloop. rename Hloop' into Hloop.
  apply (buffered_loop_Return t (Z.to_nat nCols) (Z.to_nat L) (Z.to_nat nLines)
           ltac:(lia) ltac:(lia)) in Hloop.
  - destruct Hloop as (Hwf & Hcols & Hrows & _ & Hnew & -> & Hfit).
    rewrite Nat.sub_0_r in Hfit.
    split; [exact Hwf|]. split; [exact Hcols|]. split; [exact Hrows|]. split; [|split].
    + intros i j Hi Hj. rewrite Hnew by lia. rewrite Nat.sub_0_r. reflexivity.
    + rewrite Nat.sub_0_r. reflexivity.
    + exact Hfit.
  - lia.
  - replace (Z.to_nat (nCols + 1)) with (Z.to_nat nCols + 1)%nat by lia. apply wf_repeat.
  - cbn [ncols]. lia.
  - unfold nrows. cbn [rows]. apply repeat_length.
Qed.

(** ** The payload as stored in the file *)

Lemma read_series_Return fuel h use_buffer body PackedTime data fid1 :
  header_shape h -> 0 <= NT h ->
  read_series fuel h use_buffer body = Return (PackedTime, data) fid1 ->
  (FileID h = FileFmtID_WithTime ->
     List.length PackedTime = Z.to_nat (NT h)
     /\ forall k d, (k < Z.to_nat (NT h))%nat -> nth k PackedTime d = item int32 body k)
  /\ wf data
  /\ nrows data = Z.to_nat (NT h)
  /\ ncols data = (Z.to_nat (NumOutChans h) + time_column use_buffer)%nat
  /\ (forall i j, (i < Z.to_nat (NT h))%nat -> (j < Z.to_nat (NumOutChans h))%nat ->
        get2 data i (j + time_column use_buffer)
        = stored h body (i * Z.to_nat (NumOutChans h) + j))
  /\ (use_buffer = true -> 0 < NumOutChans h <= GoodBufferSize)
  /\ (FileID h = FileFmtID_WithTime -> 4 * NT h <= Z.of_nat (List.length body))
  /\ nbytes (payload_type h) * (NT h * NumOutChans h)
     <= Z.of_nat (List.length (payload h body)).
Proof.
  intros Hshape HNT H. pose proof Hshape as (_ & Hchans & _).
  unfold read_series in H.
  inv_bind H as PT f HPT. inv_bind H as d f' Hdata. inv_ret H.
  assert (Htime :
    f = payload h body
    /\ (FileID h = FileFmtID_WithTime ->
          List.length PackedTime = Z.to_nat (NT h)
          /\ forall k d, (k < Z.to_nat (NT h))%nat -> nth k PackedTime d = item int32 body k)
    /\ (FileID h = FileFmtID_WithTime -> 4 * NT h <= Z.of_nat (List.length body))).
  { unfold payload. destruct (Z.eqb_spec (FileID h) FileFmtID_WithTime) as [Hid|Hid].
    - inv_bind HPT as l f0 Hl.
      destruct (Z.of_nat (List.length l) <? NT h); [discriminate HPT|]. inv_ret HPT.
      apply fread_Return in Hl; [|exact HNT].
      destruct Hl as (Hlen & Hitems & -> & Hfit).
      split; [reflexivity|]. split; [intros _; split; assumption|].
      intros _. exact Hfit.
    - inv_ret HPT. split; [reflexivity|]. split; intros Hid'; contradiction. }
  destruct Htime as (-> & Htime & Htfit). split; [exact Htime|].
  cut ((wf data
        /\ nrows data = Z.to_nat (NT h)
        /\ ncols data = (Z.to_nat (NumOutChans h) + time_column use_buffer)%nat
        /\ (forall i j, (i < Z.to_nat (NT h))%nat -> (j < Z.to_nat (NumOutChans h))%nat ->
              get2 data i (j + time_column use_buffer)
              = stored h body (i * Z.to_nat (NumOutChans h) + j))
        /\ (use_buffer = true -> 0 < NumOutChans h <= GoodBufferSize))
       /\ nbytes (payload_type h) * (NT h * NumOutChans h)
          <= Z.of_nat (List.length (payload h body))).
  { intros ((H1 & H2 & H3 & H4 & H5) & H6).
    split; [exact H1|]. split; [exact H2|]. split; [exact H3|]. split; [exact H4|].
    split; [exact H5|]. split; [exact Htfit|exact H6]. }
  unfold stored, payload_type. set (fid := payload h body) in *.
  destruct use_buffer; cbn [time_column].
  - assert (Hbuf : exists t,
             t = (if FileID h =? FileFmtID_NoCompressWithoutTime then float64 else int16)
             /\ freadRowOrderTableBuffered fuel (NT h * NumOutChans h) t (NumOutChans h) 1 fid
                = Return data fid1).
    { destruct (FileID h =? FileFmtID_NoCompressWithoutTime);
        eexists; (split; [reflexivity|exact Hdata]). }
    destruct Hbuf as (t & <- & Hbuf).
    apply freadRowOrderTableBuffered_Return in Hbuf; [|exact Hchans].
    destruct Hbuf as (Hrange & _ & Hwf & Hcols & Hrows & Hent & _ & Hfit).
    split; [repeat split; try assumption; lia|].
    rewrite (nbytes_nat t). nia.
  - inv_bind Hdata as PackedData f2 HPD.
    destruct (Z.of_nat (List.length PackedData) <? NT h * NumOutChans h);
      [discriminate Hdata|].
    assert (Hraw : exists t l,
             t = (if FileID h =? FileFmtID_NoCompressWithoutTime then float64 else int16)
             /\ fread (NT h * NumOutChans h) t fid = Return l f2
             /\ PackedData = map (to_float64 t) l).
    { destruct (FileID h =? FileFmtID_NoCompressWithoutTime);
        inv_bind HPD as l f3 Hl; inv_ret HPD; eexists; exists l;
        (split; [reflexivity|split; [exact Hl|reflexivity]]). }
    destruct Hraw as (t & l & <- & Hl & ->).
    apply fread_Return in Hl; [|nia]. destruct Hl as (Hlen & Hitems & _ & Hfit).
    assert (Hlen' : List.length (map (to_float64 t) l)
                    = (Z.to_nat (NT h) * Z.to_nat (NumOutChans h))%nat).
    { rewrite length_map, Hlen. nia. }
    assert (Hre : reshape2 (map (to_float64 t) l) (Z.of_nat (Z.to_nat (NT h)))
                    (Z.of_nat (Z.to_nat (NumOutChans h))) f2 = Return data fid1).
    { rewrite !Z2Nat.id by lia. exact Hdata. }
    rewrite (reshape2_exact _ _ _ _ Hlen') in Hre. injection Hre as <- <-.
    split; [|exact Hfit].
    split; [|split; [|split; [|split]]].
    + unfold wf. cbn [rows ncols]. apply chunk_rows. lia.
    + unfold nrows. cbn [rows]. apply chunk_length.
    + cbn [ncols]. lia.
    + intros i j Hi Hj. rewrite Nat.add_0_r. unfold get2. cbn [rows].
      rewrite nth_chunk by assumption.
      assert (Hpos : (i * Z.to_nat (NumOutChans h) + j
                      < Z.to_nat (NT h * NumOutChans h))%nat) by nia.
      rewrite (nth_map_lt _ _ _ (item t fid 0)) by lia.
      rewrite Hitems by exact Hpos. reflexivity.
    + intros Hfalse. discriminate Hfalse.
Qed.

Lemma reconstruct_time_Return h body (PackedTime : list Z) fid time fid' :
  header_shape h -> 0 <= NT h ->
  (FileID h = FileFmtID_WithTime ->
     List.length PackedTime = Z.to_nat (NT h)
     /\ forall k (d : Z), (k < Z.to_nat (NT h))%nat ->
          nth k PackedTime d = item int32 body k) ->
  reconstruct_time h PackedTime fid = Return time fid' ->
  fid' = fid /\ List.length time = Z.to_nat (NT h)
  /\ forall i, (i < Z.to_nat (NT h))%nat -> nth i time 0%float = time_at h body i.
Proof.
  intros Hshape HNT HPT H. rewrite (reconstruct_time_eq _ _ _ Hshape) in H.
  injection H as <- <-. split; [reflexivity|].
  destruct Hshape as (_ & _ & _ & Htime & _). unfold time_at.
  destruct (Z.eqb_spec (FileID h) FileFmtID_WithTime) as [Hid|Hid].
  - destruct Htime as (s & o & ->). destruct (HPT Hid) as (Hlen & Hitems).
    split; [rewrite length_map; exact Hlen|].
    intros i Hi. rewrite (nth_map_lt _ _ _ 0) by lia.
    rewrite Hitems by exact Hi. reflexivity.
  - destruct Htime as (t0 & dt & ->).
    split; [rewrite length_map, length_seq; reflexivity|].
    intros i Hi. rewrite (nth_map_lt _ _ _ 0%nat) by (rewrite length_seq; exact Hi).
    rewrite seq_nth by exact Hi. reflexivity.
Qed.

(** ** Scaling in the buffered mode *)

Lemma coef_item_Return c k fid v fid' :
  coef_item c k fid = Return v fid' ->
  fid' = fid /\ v = [nth k (coef_list c) 0%float].
Proof.
  unfold coef_item. destruct (nth_error (coef_list c) k) as [x|] eqn:Hx;
    unfold ret, raise; intros H; [|discriminate H].
  injection H as <- <-. split; [reflexivity|].
  rewrite (nth_error_nth _ _ _ Hx). reflexivity.
Qed.

Lemma set_col_Return data j v fid data' fid' :
  set_col data j v fid = Return data' fid' ->
  fid' = fid /\ (j < ncols data)%nat
  /\ (List.length v = nrows data \/ List.length v = 1%nat)
  /\ data' = update_entries (fun i k x =>
               if (k =? j)%nat then get1 v (bidx (List.length v) i) else x) data.
Proof.
  unfold set_col, can_broadcast_to.
  destruct (Nat.ltb_spec j (ncols data)) as [Hj|Hj]; unfold raise; [|discriminate].
  destruct (Nat.eqb_spec (List.length v) (nrows data)) as [Hv|Hv]; cbn [orb].
  - unfold ret. intros H. injection H as <- <-. repeat split; [exact Hj|left; exact Hv].
  - destruct (Nat.eqb_spec (List.length v) 1) as [Hv1|Hv1]; [|discriminate].
    unfold ret. intros H. injection H as <- <-. repeat split; [exact Hj|right; exact Hv1].
Qed.

Lemma scale_column_Return h c data fid data' fid' :
  wf data ->
  scale_column h c data fid = Return data' fid' ->
  fid' = fid /\ wf data' /\ nrows data' = nrows data /\ ncols data' = ncols data
  /\ forall i j, (i < nrows data)%nat -> (j < ncols data)%nat ->
       get2 data' i j
       = if (j =? c + 1)%nat then dequantize h c (get2 data i j) else get2 data i j.
Proof.
  intros Hwf H. unfold scale_column in H.
  inv_bind H as scl f1 Hscl. inv_bind H as off f2 Hoff.
  apply coef_item_Return in Hscl, Hoff.
  destruct Hscl as (-> & ->). destruct Hoff as (-> & ->).
  unfold isnan1, get1 in H. cbn [nth] in H.
  assert (Hset : exists v,
    set_col data (c + 1) v fid = Return data' fid'
    /\ forall i, (i < nrows data)%nat ->
         get1 v (bidx (List.length v) i) = dequantize h c (get2 data i (c + 1))).
  { unfold dequantize.
    destruct (is_nan (nth c (coef_list (ColScl h)) 0%float)
              && is_nan (nth c (coef_list (ColOff h)) 0%float)).
    - exists [0%float]. split; [exact H|]. intros i Hi. reflexivity.
    - inv_bind H as col f3 Hcol. unfold get_col in Hcol.
      destruct (c + 1 <? ncols data)%nat; [|discriminate Hcol]. inv_ret Hcol.
      rewrite (bind_Return_eq _ _ _ _ _ (np_binop1_scalar_r _ _ _ _)) in H.
      rewrite (bind_Return_eq _ _ _ _ _ (np_binop1_scalar_r _ _ _ _)) in H.
      rewrite !map_map in H.
      eexists. split; [exact H|].
      intros i Hi. rewrite length_map. fold (nrows data). rewrite bidx_lt by exact Hi.
      unfold get1. rewrite (nth_map_lt _ _ _ []) by exact Hi. reflexivity. }
  destruct Hset as (v & Hset & Hv).
  apply set_col_Return in Hset. destruct Hset as (-> & Hj & _ & ->).
  split; [reflexivity|]. split; [apply wf_update_entries; exact Hwf|].
  split; [apply nrows_update_entries|]. split; [reflexivity|].
  intros i j Hi Hjj. rewrite get2_update_entries by assumption.
  destruct (Nat.eqb_spec j (c + 1)) as [->|_]; [|reflexivity].
  apply Hv. exact Hi.
Qed.

Lemma scale_columns_Return h n :
  forall a data fid data' fid',
    wf data ->
    for_each (seq a n) (scale_column h) data fid = Return data' fid' ->
    fid' = fid /\ wf data' /\ nrows data' = nrows data /\ ncols data' = ncols data
    /\ forall i j, (i < nrows data)%nat -> (j < ncols data)%nat ->
         get2 data' i j
         = if ((a + 1 <=? j) && (j <? a + 1 + n))%nat
           then dequantize h (j - 1) (get2 data i j) else get2 data i j.
Proof.
  induction n as [|n IH]; intros a data fid data' fid' Hwf H; cbn [seq for_each] in H.
  - inv_ret H. repeat split; try assumption.
    intros i j Hi Hj. rewrite Nat.add_0_r.
    destruct (Nat.leb_spec (a + 1) j); destruct (Nat.ltb_spec j (a + 1));
      cbn [andb]; try reflexivity; lia.
  - inv_bind H as d1 f1 Hcol.
    apply scale_column_Return in Hcol; [|exact Hwf].
    destruct Hcol as (-> & Hwf1 & Hr1 & Hc1 & Hent1).
    apply IH in H; [|exact Hwf1].
    destruct H as (-> & Hwf' & Hr' & Hc' & Hent').
    split; [reflexivity|]. split; [exact Hwf'|].
    split; [congruence|]. split; [congruence|].
    intros i j Hi Hj. rewrite Hent' by congruence. rewrite Hent1 by assumption.
    destruct (Nat.eqb_spec j (a + 1)) as [->|Hne].
    + replace (a + 1 - 1)%nat with a by lia.
      destruct (Nat.leb_spec (S a + 1) (a + 1)); [lia|].
      destruct (Nat.leb_spec (a + 1) (a + 1)); [|lia].
      destruct (Nat.ltb_spec (a + 1) (a + 1 + S n)); [|lia]. reflexivity.
    + destruct (Nat.leb_spec (S a + 1) j); destruct (Nat.ltb_spec j (S a + 1 + n));
        destruct (Nat.leb_spec (a + 1) j); destruct (Nat.ltb_spec j (a + 1 + S n));
        cbn [andb]; try reflexivity; lia.
Qed.

(** ** Scaling in the unbuffered mode *)

Lemma broadcast_dim_Some a b n :
  broadcast_dim a b = Some n ->
  (a = b /\ n = a) \/ (a = 1%nat /\ n = b) \/ (b = 1%nat /\ n = a).
Proof.
  unfold broadcast_dim.
  destruct (Nat.eqb_spec a b); [intros H; injection H as <-; left; split; congruence|].
  destruct (Nat.eqb_spec a 1); [intros H; injection H as <-; right; left; split; congruence|].
  destruct (Nat.eqb_spec b 1); [intros H; injection H as <-; right; right; split; congruence|].
  discriminate.
Qed.

Lemma np_binop2_Return f a b fid r fid' :
  np_binop2 f a b fid = Return r fid' ->
  fid' = fid
  /\ broadcast_dim (nrows a) (nrows b) = Some (nrows r)
  /\ broadcast_dim (ncols a) (ncols b) = Some (ncols r)
  /\ wf r
  /\ forall i j, (i < nrows r)%nat -> (j < ncols r)%nat ->
       get2 r i j = f (get2 a (bidx (nrows a) i) (bidx (ncols a) j))
                      (get2 b (bidx (nrows b) i) (bidx (ncols b) j)).
Proof.
  unfold np_binop2.
  destruct (broadcast_dim (nrows a) (nrows b)) as [R|]; [|discriminate].
  destruct (broadcast_dim (ncols a) (ncols b)) as [C|]; [|discriminate].
  unfold ret. intros H. injection H as <- <-.
  match goal with |- context [nrows ?x] =>
    match x with mk_array2 _ _ =>
      assert (Hnr : nrows x = R)
        by (unfold nrows; cbn [rows]; rewrite length_map, length_seq; reflexivity);
      rewrite !Hnr
    end
  end.
  cbn [ncols]. repeat split.
  - unfold wf. cbn [rows ncols]. apply Forall_forall. intros row Hrow.
    apply in_map_iff in Hrow. destruct Hrow as (i & <- & _).
    rewrite length_map, length_seq. reflexivity.
  - intros i j Hi Hj. unfold get2 at 1. cbn [rows].
    rewrite (nth_map_lt _ _ _ 0%nat) by (rewrite length_seq; exact Hi).
    rewrite (nth_map_lt _ _ _ 0%nat) by (rewrite length_seq; exact Hj).
    rewrite !seq_nth by assumption. reflexivity.
Qed.

Lemma np_concatenate1_Return a b fid r fid' :
  np_concatenate1 a b fid = Return r fid' ->
  fid' = fid /\ nrows a = nrows b /\ nrows r = nrows a
  /\ ncols r = (ncols a + ncols b)%nat
  /\ (wf a -> wf b -> wf r)
  /\ forall i, (i < nrows a)%nat ->
       nth i (rows r) [] = nth i (rows a) [] ++ nth i (rows b) [].
Proof.
  unfold np_concatenate1.
  destruct (Nat.eqb_spec (nrows a) (nrows b)) as [Hr|Hr]; [|discriminate].
  unfold ret. intros H. injection H as <- <-.
  assert (Hwf : wf a -> wf b ->
                wf {| ncols := ncols a + ncols b;
                      rows := map (fun i => nth i (rows a) [] ++ nth i (rows b) [])
                                  (seq 0 (nrows a)) |}).
  { intros Ha Hb. unfold wf. cbn [rows ncols]. apply Forall_forall. intros row Hrow.
    apply in_map_iff in Hrow. destruct Hrow as (i & <- & Hi). apply in_seq in Hi.
    rewrite length_app, !wf_row_length by (try assumption; lia). reflexivity. }
  match goal with |- context [nrows ?x] =>
    match x with mk_array2 _ _ =>
      assert (Hnr : nrows x = nrows a)
        by (unfold nrows; cbn [rows]; rewrite length_map, length_seq; reflexivity);
      rewrite !Hnr
    end
  end.
  cbn [rows ncols]. repeat split; try assumption.
  intros i Hi. rewrite (nth_map_lt _ _ _ 0%nat) by (rewrite length_seq; exact Hi).
  rewrite seq_nth by exact Hi. reflexivity.
Qed.

(** The unbuffered scaling of lines 162-163: when it succeeds, the table has
    the time in column 0 and, after it, every stored value minus the offset
    of its channel, over the scale of its channel. *)
Lemma scale_unbuffered_Return h data time fid tbl fid' :
  header_shape h -> 0 <= NT h ->
  wf data -> nrows data = Z.to_nat (NT h) -> ncols data = Z.to_nat (NumOutChans h) ->
  List.length time = Z.to_nat (NT h) ->
  scale_data h false data time fid = Return tbl fid' ->
  wf tbl /\ nrows tbl = Z.to_nat (NT h) /\ ncols tbl = (Z.to_nat (NumOutChans h) + 1)%nat
  /\ forall i, (i < Z.to_nat (NT h))%nat ->
       get2 tbl i 0 = nth i time 0%float
       /\ forall c, (c < Z.to_nat (NumOutChans h))%nat ->
            get2 tbl i (c + 1)
            = ((get2 data i c - nth c (coef_list (ColOff h)) 0) /
               nth c (coef_list (ColScl h)) 0)%float.
Proof.
  intros Hshape HNT Hwf Hrows Hcols Htime H.
  destruct Hshape as (_ & Hchans & _ & _ & Hcoef).
  unfold scale_data in H.
  inv_bind H as d f1 Hd. inv_bind H as q f2 Hq.
  inv_bind H as t f3 Ht. 
  apply np_binop2_Return in Hd. destruct Hd as (-> & Hdr & Hdc & Hdwf & Hdent).
  apply np_binop2_Return in Hq. destruct Hq as (-> & Hqr & Hqc & Hqwf & Hqent).
  assert (Hre : reshape2 time (Z.of_nat (Z.to_nat (NT h))) (Z.of_nat 1) fid = Return t f3).
  { rewrite Z2Nat.id by exact HNT. exact Ht. }
  rewrite (reshape2_exact time (Z.to_nat (NT h)) 1 fid ltac:(lia)) in Hre.
  injection Hre as <- <-.
  apply np_concatenate1_Return in H.
  destruct H as (-> & Hsame & Hr & Hc & Hwft & Hent).
  assert (Hwftbl : wf tbl).
  { apply Hwft; [|exact Hqwf]. unfold wf. cbn [rows ncols]. apply chunk_rows. lia. }
  clear Hwft.
  unfold nrows at 1 in Hsame. unfold nrows at 2 in Hr. cbn [rows ncols] in Hsame, Hr, Hc, Hent.
  rewrite chunk_length in Hsame, Hr.
  set (R := Z.to_nat (NT h)) in *. set (C := Z.to_nat (NumOutChans h)) in *.
  (* the shapes after the two broadcasts *)
  assert (Hshapes :
    nrows d = R /\ ncols d = C /\ ncols q = C
    /\ forall i c, (i < R)%nat -> (c < C)%nat ->
         get2 (coef_array (ColOff h)) (bidx (nrows (coef_array (ColOff h))) i)
                                      (bidx (ncols (coef_array (ColOff h))) c)
         = nth c (coef_list (ColOff h)) 0%float
         /\ get2 (coef_array (ColScl h)) (bidx (nrows (coef_array (ColScl h))) i)
                                         (bidx (ncols (coef_array (ColScl h))) c)
            = nth c (coef_list (ColScl h)) 0%float).
  { destruct (FileID h =? FileFmtID_NoCompressWithoutTime).
    - destruct Hcoef as (Hs & Ho). rewrite Hs, Ho in *. fold C in Hdr, Hdc, Hqr, Hqc |- *.
      cbn [coef_array ncols coef_list] in *.
      assert (Hnc : forall x,
                nrows {| ncols := 1; rows := map (fun y : float => [y]) (repeat x C) |} = C).
      { intros x. unfold nrows. cbn [rows]. rewrite length_map, repeat_length. reflexivity. }
      rewrite !Hnc in *.
      rewrite Hrows in Hdr. rewrite Hcols in Hdc. rewrite <- Hsame in Hqr.
      rewrite broadcast_dim_one_r in Hdc. injection Hdc as Hdc.
      rewrite <- Hdc, broadcast_dim_one_r in Hqc. injection Hqc as Hqc.
      apply broadcast_dim_Some in Hdr, Hqr.
      assert (Hnd : nrows d = R /\ (C = 1%nat \/ R = C)) by lia.
      destruct Hnd as (Hnd & HRC).
      split; [exact Hnd|]. split; [congruence|]. split; [congruence|].
      intros i c Hi Hc'.
      assert (Hbi : (bidx C i < C)%nat).
      { unfold bidx. destruct (Nat.eqb_spec C 1); lia. }
      unfold get2. cbn [rows].
      rewrite !(nth_map_lt _ _ _ 0%float) by (rewrite repeat_length; exact Hbi).
      cbn [bidx Nat.eqb nth].
      rewrite !nth_repeat_lt by assumption. split; reflexivity.
    - destruct Hcoef as (s & o & Hs & Ho & Hls & Hlo). rewrite Hs, Ho in *.
      fold C in Hls, Hlo.
      unfold nrows at 2 in Hdr. unfold nrows at 2 in Hqr.
      cbn [coef_array rows ncols coef_list List.length] in *.
      rewrite Hrows in Hdr. rewrite Hcols, Hlo in Hdc.
      rewrite broadcast_dim_one_r in Hdr. injection Hdr as Hdr.
      rewrite broadcast_dim_refl in Hdc. injection Hdc as Hdc.
      rewrite <- Hdc, Hls, broadcast_dim_refl in Hqc. injection Hqc as Hqc.
      split; [congruence|]. split; [congruence|]. split; [congruence|].
      intros i c Hi Hc'. rewrite Hlo, Hls.
      rewrite !(bidx_lt C c) by exact Hc'. split; reflexivity. }
  destruct Hshapes as (Hnd & Hcd & Hcq & Hcoefs).
  split; [exact Hwftbl|]. split; [lia|]. split; [lia|].
  intros i Hi.
  assert (Hrow : nth i (rows tbl) []
                 = nth i (chunk R 1 time) [] ++ nth i (rows q) [])
    by (apply Hent; unfold nrows; cbn [rows]; rewrite chunk_length; exact Hi).
  assert (Hfirst : nth i (chunk R 1 time) [] = [nth i time 0%float]).
  { apply (nth_ext _ _ 0%float 0%float).
    - pose proof (chunk_rows R 1 time ltac:(lia)) as Hall.
      apply (proj1 (Forall_forall _ _) Hall). apply nth_In. rewrite chunk_length. exact Hi.
    - intros n Hn.
      assert (n = 0)%nat.
      { pose proof (chunk_rows R 1 time ltac:(lia)) as Hall.
        assert (Hl : List.length (nth i (chunk R 1 time) []) = 1%nat).
        { apply (proj1 (Forall_forall _ _) Hall). apply nth_In.
          rewrite chunk_length. exact Hi. }
        lia. }
      subst n. rewrite nth_chunk by lia. cbn [nth]. f_equal. lia. }
  unfold get2. rewrite Hrow, Hfirst. cbn [app nth]. split; [reflexivity|].
  intros c Hc'. replace (c + 1)%nat with (S c) by lia. cbn [nth].
  fold (get2 q i c).
  rewrite Hqent by lia. rewrite Hnd, Hcd. rewrite (bidx_lt R i), (bidx_lt C c) by assumption.
  rewrite Hdent by lia. rewrite Hrows, Hcols.
  rewrite (bidx_lt R i), (bidx_lt C c) by assumption.
  destruct (Hcoefs i c Hi Hc') as (Hoff & Hscl). rewrite Hoff, Hscl. reflexivity.
Qed.

Lemma scale_buffered_Return h data time fid tbl fid' :
  wf data -> nrows data = Z.to_nat (NT h) ->
  ncols data = (Z.to_nat (NumOutChans h) + 1)%nat ->
  List.length time = Z.to_nat (NT h) ->
  scale_data h true data time fid = Return tbl fid' ->
  wf tbl /\ nrows tbl = Z.to_nat (NT h) /\ ncols tbl = (Z.to_nat (NumOutChans h) + 1)%nat
  /\ forall i, (i < Z.to_nat (NT h))%nat ->
       get2 tbl i 0 = nth i time 0%float
       /\ forall c, (c < Z.to_nat (NumOutChans h))%nat ->
            get2 tbl i (c + 1) = dequantize h c (get2 data i (c + 1)).
Proof.
  intros Hwf Hrows Hcols Htime H. unfold scale_data in H.
  inv_bind H as d1 f1 Hscale.
  apply scale_columns_Return in Hscale; [|exact Hwf].
  destruct Hscale as (-> & Hwf1 & Hr1 & Hc1 & Hent1).
  apply set_col_Return in H. destruct H as (-> & Hj & _ & ->).
  split; [apply wf_update_entries; exact Hwf1|].
  split; [rewrite nrows_update_entries; congruence|].
  split; [cbn [update_entries ncols]; congruence|].
  intros i Hi. split.
  - rewrite get2_update_entries by (try assumption; lia).
    cbn [Nat.eqb]. rewrite bidx_lt by lia. reflexivity.
  - intros c Hc. rewrite get2_update_entries by (try assumption; lia).
    destruct (Nat.eqb_spec (c + 1) 0); [lia|].
    rewrite Hent1 by lia.
    destruct (Nat.leb_spec (0 + 1) (c + 1)); [|lia].
    destruct (Nat.ltb_spec (c + 1) (0 + 1 + Z.to_nat (NumOutChans h))); [|lia].
    cbn [andb]. replace (c + 1 - 1)%nat with c by lia. reflexivity.
Qed.

(** ** The table of a successful read *)

Lemma ReadFASTbinary_table fuel filename content use_buffer tbl inf fid' :
  ReadFASTbinary fuel filename content use_buffer = Return (tbl, inf) fid' ->
  exists h region names units body,
    read_header content = Return h region
    /\ read_channel_names h region = Return (names, units) body
    /\ header_shape h
    /\ inf = make_info filename h names units
    /\ (0 <= NT h ->
        (use_buffer = true -> 0 < NumOutChans h <= GoodBufferSize)
        /\ (FileID h = FileFmtID_WithTime -> 4 * NT h <= Z.of_nat (List.length body))
        /\ nbytes (payload_type h) * (NT h * NumOutChans h)
           <= Z.of_nat (List.length (payload h body))
        /\ wf tbl
        /\ nrows tbl = Z.to_nat (NT h)
        /\ ncols tbl = (Z.to_nat (NumOutChans h) + 1)%nat
        /\ forall i, (i < Z.to_nat (NT h))%nat ->
             get2 tbl i 0 = time_at h body i
             /\ forall c, (c < Z.to_nat (NumOutChans h))%nat ->
                  get2 tbl i (c + 1)
                  = table_entry use_buffer h c
                      (stored h body (i * Z.to_nat (NumOutChans h) + c))).
Proof.
  intros H. apply ReadFASTbinary_Return in H.
  destruct H as (h & region & names & units & body & PackedTime & data & fid1 & time
                 & fid2 & fid3 & Hh & Hnu & Hseries & Htime & Hscale & ->).
  exists h, region, names, units, body.
  pose proof (read_header_Return _ _ _ Hh) as Hshape.
  split; [exact Hh|]. split; [exact Hnu|]. split; [exact Hshape|]. split; [reflexivity|].
  intros HNT.
  apply read_series_Return in Hseries; [|exact Hshape|exact HNT].
  destruct Hseries as (HPT & Hwf & Hrows & Hcols & Hent & Hbuf & Htfit & Hpfit).
  apply (reconstruct_time_Return h body) in Htime; [|exact Hshape|exact HNT|exact HPT].
  destruct Htime as (-> & Hlen & Htimes).
  split; [exact Hbuf|]. split; [exact Htfit|]. split; [exact Hpfit|].
  destruct use_buffer; cbn [time_column table_entry] in *.
  - apply scale_buffered_Return in Hscale; try assumption.
    destruct Hscale as (Hwft & Hr & Hc & Hentries).
    split; [exact Hwft|]. split; [exact Hr|]. split; [exact Hc|].
    intros i Hi. destruct (Hentries i Hi) as (Ht0 & Hchan).
    split; [rewrite Ht0; apply Htimes; exact Hi|].
    intros c Hc'. rewrite Hchan by exact Hc'. rewrite Hent by assumption. reflexivity.
  - apply scale_unbuffered_Return in Hscale; try assumption; [|lia].
    destruct Hscale as (Hwft & Hr & Hc & Hentries).
    split; [exact Hwft|]. split; [exact Hr|]. split; [exact Hc|].
    intros i Hi. destruct (Hentries i Hi) as (Ht0 & Hchan).
    split; [rewrite Ht0; apply Htimes; exact Hi|].
    intros c Hc'. rewrite Hchan by exact Hc'.
    rewrite <- (Nat.add_0_r c) at 1. rewrite Hent by assumption. reflexivity.
Qed.

(** ** Time column *)

(** C5, as the code has it. After a successful read, column 0 of the table
    is, for the packed-time format 1, the packed time minus the time offset
    over the time scale, and for formats 2, 3 and 4 the first time plus [i]
    increments, every operation rounding to binary64.  With format 2, first
    time 0.0, increment 0.0125 and five steps the column is
    0.0, 0.0125, 0.025, 0.037500000000000006, 0.05: entry 3 is the rounded
    product [0.0125 * 3], one unit in the last place above 0.0375. *)
Theorem time_column_values :
  forall fuel filename content use_buffer tbl inf fid',
    ReadFASTbinary fuel filename content use_buffer = Return (tbl, inf) fid' ->
    exists h region names units body,
      read_header content = Return h region
      /\ read_channel_names h region = Return (names, units) body
      /\ (FileID h = FileFmtID_WithTime ->
          exists time_scale time_offset,
            TimeEnc h = PackedTimeEnc [time_scale] [time_offset]
            /\ forall i, Z.of_nat i < NT h ->
                 get2 tbl i 0
                 = ((float_of_Z (item int32 body i) - time_offset) / time_scale)%float)
      /\ (FileID h <> FileFmtID_WithTime ->
          exists start increment,
            TimeEnc h = ComputedTimeEnc [start] [increment]
            /\ forall i, Z.of_nat i < NT h ->
                 get2 tbl i 0 = (start + increment * float_of_Z (Z.of_nat i))%float)
      /\ (FileID h = FileFmtID_WithoutTime ->
          TimeEnc h = ComputedTimeEnc [0%float] [0.0125%float] ->
          NT h = 5 ->
          map (fun i => get2 tbl i 0) (seq 0 5)
          = [0; 0.0125; 0.025; 0.037500000000000006; 0.05]%float).
Proof.
  intros fuel filename content use_buffer tbl inf fid' H.
  apply ReadFASTbinary_table in H.
  destruct H as (h & region & names & units & body & Hh & Hnu & Hshape & _ & Htbl).
  exists h, region, names, units, body.
  split; [exact Hh|]. split; [exact Hnu|].
  destruct Hshape as (_ & _ & _ & Htime & _).
  assert (Hcol : forall i, Z.of_nat i < NT h -> get2 tbl i 0 = time_at h body i).
  { intros i Hi. destruct Htbl as (_ & _ & _ & _ & _ & _ & Hent); [lia|].
    apply Hent. lia. }
  split; [|split].
  - intros Hid. rewrite Hid in Htime. cbn in Htime.
    destruct Htime as (s & o & Henc). exists s, o. split; [exact Henc|].
    intros i Hi. rewrite (Hcol i Hi). unfold time_at. rewrite Henc. reflexivity.
  - intros Hid. apply Z.eqb_neq in Hid. rewrite Hid in Htime.
    destruct Htime as (t0 & dt & Henc). exists t0, dt. split; [exact Henc|].
    intros i Hi. rewrite (Hcol i Hi). unfold time_at. rewrite Henc. reflexivity.
  - intros _ Henc HNT.
    assert (Hfive : forall i, In i (seq 0 5) -> get2 tbl i 0 = time_at h body i).
    { intros i Hi. apply in_seq in Hi. apply Hcol. lia. }
    rewrite (map_ext_in _ _ _ Hfive). unfold time_at. rewrite Henc. reflexivity.
Qed.

Lemma time_column_values_witness :
  exists h region names units body,
    read_header sample_fmt2 = Return h region
    /\ read_channel_names h region = Return (names, units) body
    /\ (FileID h = FileFmtID_WithTime ->
        exists time_scale time_offset,
          TimeEnc h = PackedTimeEnc [time_scale] [time_offset]
          /\ forall i, Z.of_nat i < NT h ->
               get2 (sample_fmt2_table 0) i 0
               = ((float_of_Z (item int32 body i) - time_offset) / time_scale)%float)
    /\ (FileID h <> FileFmtID_WithTime ->
        exists start increment,
          TimeEnc h = ComputedTimeEnc [start] [increment]
          /\ forall i, Z.of_nat i < NT h ->
               get2 (sample_fmt2_table 0) i 0
               = (start + increment * float_of_Z (Z.of_nat i))%float)
    /\ (FileID h = FileFmtID_WithoutTime ->
        TimeEnc h = ComputedTimeEnc [0%float] [0.0125%float] ->
        NT h = 5 ->
        map (fun i => get2 (sample_fmt2_table 0) i 0) (seq 0 5)
        = [0; 0.0125; 0.025; 0.037500000000000006; 0.05]%float).
Proof.
  apply (time_column_values 10 sample_name sample_fmt2 true
           (sample_fmt2_table 0) sample_fmt2_info []).
  vm_compute. reflexivity.
Defined.

(** The claim as worded fails on the sample of format 2 with first time 0.0,
    increment 0.0125 and five steps: in both modes entry 3 of the time column
    is 0.037500000000000006, which is not the binary64 value of 0.0375. *)
Lemma time_column_sample :
  exists h region tbl_buffered tbl_unbuffered,
    read_header sample_fmt2 = Return h region
    /\ FileID h = 2 /\ NT h = 5
    /\ TimeEnc h = ComputedTimeEnc [0%float] [0.0125%float]
    /\ ReadFASTbinary 10 sample_name sample_fmt2 true
       = Return (tbl_buffered, sample_fmt2_info) []
    /\ ReadFASTbinary 10 sample_name sample_fmt2 false
       = Return (tbl_unbuffered, sample_fmt2_info) []
    /\ map (fun i => get2 tbl_buffered i 0) (seq 0 5)
       = [0; 0.0125; 0.025; 0.037500000000000006; 0.05]%float
    /\ map (fun i => get2 tbl_unbuffered i 0) (seq 0 5)
       = [0; 0.0125; 0.025; 0.037500000000000006; 0.05]%float
    /\ PrimFloat.eqb (get2 tbl_buffered 3 0) 0.0375 = false
    /\ PrimFloat.eqb (get2 tbl_unbuffered 3 0) 0.0375 = false.
Proof.
  eexists. eexists. exists (sample_fmt2_table 0), (sample_fmt2_table nan).
  split; [vm_compute; reflexivity|]. vm_compute. repeat split.
Qed.

(** ** Dequantization *)

(** C6. After a successful read, in either mode, every entry of a channel
    whose scale and offset are not both not-a-number is the stored value
    minus the offset of the channel, over its scale.  In particular, in
    format 1 a stored 1000 with scale 2.0 and offset 100.0 gives 450.0. *)
Theorem dequantized_entries :
  forall fuel filename content use_buffer tbl inf fid',
    ReadFASTbinary fuel filename content use_buffer = Return (tbl, inf) fid' ->
    exists h region names units body,
      read_header content = Return h region
      /\ read_channel_names h region = Return (names, units) body
      /\ forall i c,
           Z.of_nat i < NT h -> Z.of_nat c < NumOutChans h ->
           let scale := nth c (coef_list (ColScl h)) 0%float in
           let offset := nth c (coef_list (ColOff h)) 0%float in
           let k := (i * Z.to_nat (NumOutChans h) + c)%nat in
           is_nan scale && is_nan offset = false ->
           get2 tbl i (c + 1) = ((stored h body k - offset) / scale)%float
           /\ (FileID h = FileFmtID_WithTime ->
               item int16 (payload h body) k = 1000 ->
               scale = 2%float -> offset = 100%float ->
               get2 tbl i (c + 1) = 450%float).
Proof.
  intros fuel filename content use_buffer tbl inf fid' H.
  apply ReadFASTbinary_table in H.
  destruct H as (h & region & names & units & body & Hh & Hnu & _ & _ & Htbl).
  exists h, region, names, units, body.
  split; [exact Hh|]. split; [exact Hnu|].
  intros i c Hi Hc scale offset k Hnan.
  destruct Htbl as (_ & _ & _ & _ & _ & _ & Hent); [lia|].
  destruct (Hent i ltac:(lia)) as (_ & Hchan).
  assert (Hval : get2 tbl i (c + 1) = ((stored h body k - offset) / scale)%float).
  { rewrite Hchan by lia. fold k. unfold table_entry, dequantize.
    fold scale offset. rewrite Hnan. destruct use_buffer; reflexivity. }
  split; [exact Hval|].
  intros Hid Hraw Hscale Hoffset. rewrite Hval, Hscale, Hoffset.
  unfold stored, payload_type. rewrite Hid. cbn [Z.eqb FileFmtID_WithTime
    FileFmtID_NoCompressWithoutTime Pos.eqb to_float64].
  rewrite Hraw. reflexivity.
Qed.

Lemma dequantized_entries_witness :
  exists h region names units body,
    read_header sample_fmt1 = Return h region
    /\ read_channel_names h region = Return (names, units) body
    /\ forall i c,
         Z.of_nat i < NT h -> Z.of_nat c < NumOutChans h ->
         let scale := nth c (coef_list (ColScl h)) 0%float in
         let offset := nth c (coef_list (ColOff h)) 0%float in
         let k := (i * Z.to_nat (NumOutChans h) + c)%nat in
         is_nan scale && is_nan offset = false ->
         get2 {| ncols := 2; rows := [[0; 450]; [1; 500]]%float |} i (c + 1)
         = ((stored h body k - offset) / scale)%float
         /\ (FileID h = FileFmtID_WithTime ->
             item int16 (payload h body) k = 1000 ->
             scale = 2%float -> offset = 100%float ->
             get2 {| ncols := 2; rows := [[0; 450]; [1; 500]]%float |} i (c + 1)
             = 450%float).
Proof.
  apply (dequantized_entries 10 sample_name sample_fmt1 false
           {| ncols := 2; rows := [[0; 450]; [1; 500]]%float |}
           {| name := pystr "run.1"; description := [];
              fileID := 1;
              attribute_names := [pystr "Time"; pystr "RotSpeed"];
              attribute_units := [pystr "s"; pystr "rpm"] |} []).
  vm_compute. reflexivity.
Defined.

(** ** Channel names and units: a sample *)

Lemma channel_names_and_units_witness :
  exists h region,
    read_header sample_fmt2 = Return h region
    /\ Z.of_nat (List.length (attribute_names sample_fmt2_info)) = NumOutChans h + 1
    /\ Z.of_nat (List.length (attribute_units sample_fmt2_info)) = NumOutChans h + 1
    /\ forall k, Z.of_nat k < NumOutChans h + 1 ->
         let name_field := join_chr (codes (field (LenName h) region k)) in
         let unit_field :=
           join_chr (codes (field (LenName h) region (Z.to_nat (NumOutChans h + 1) + k))) in
         nth k (attribute_names sample_fmt2_info) [] = strip name_field
         /\ nth k (attribute_units sample_fmt2_info) [] = py_slice (strip unit_field) 1 (-1)
         /\ (forall a mid z, strip unit_field = a :: mid ++ [z] ->
               nth k (attribute_units sample_fmt2_info) [] = mid)
         /\ ((List.length (strip unit_field) < 2)%nat ->
               nth k (attribute_units sample_fmt2_info) [] = []).
Proof.
  apply (channel_names_and_units 10 sample_name sample_fmt2 true
           (sample_fmt2_table 0) sample_fmt2_info []).
  vm_compute. reflexivity.
Defined.

(** ** Wide tables: a sample *)

Lemma buffered_read_wide_table_witness :
  163841 * Z.quot GoodBufferSize 163841 = 0
  /\ freadRowOrderTableBuffered 3 (1 * 163841) int16 163841 1 wide_payload
     = Raise ZeroDivisionError wide_payload
  /\ (forall data nIntRead nLinesRead,
        0 <= 1 -> Z.of_nat (ncols data) = 163841 + 1 -> nIntRead < 1 * 163841 ->
        buffered_loop 3 (1 * 163841) int16 163841 1 0 data nIntRead nLinesRead wide_payload
        = Diverge).
Proof.
  apply (buffered_read_wide_table 3 (1 * 163841) int16 163841 1 wide_payload).
  vm_compute. reflexivity.
Defined.

(** The claim as worded fails on a table of 163841 columns with values left
    to read: whatever the fuel, the call ends, by raising
    [ZeroDivisionError] with the payload unread. *)
Lemma wide_table_read_ends :
  freadRowOrderTableBuffered 0 (1 * 163841) int16 163841 1 wide_payload
  = Raise ZeroDivisionError wide_payload
  /\ freadRowOrderTableBuffered 1000 (1 * 163841) int16 163841 1 wide_payload
     = Raise ZeroDivisionError wide_payload.
Proof. split; vm_compute; reflexivity. Qed.

(** ** The unbuffered read of a compressed file is total *)

Lemma read_packed_time_enough h body :
  0 <= NT h ->
  (FileID h = FileFmtID_WithTime -> 4 * NT h <= Z.of_nat (List.length body)) ->
  exists PackedTime : list Z,
    (if FileID h =? FileFmtID_WithTime
     then PackedTime <- fread (NT h) int32 ;;
          let cnt := Z.of_nat (List.length PackedTime) in
          if cnt <? NT h then raise (CouldNotReadTime cnt (NT h))
          else ret PackedTime
     else ret []) body
    = Return PackedTime (payload h body).
Proof.
  intros HNT Hfit. unfold payload.
  destruct (Z.eqb_spec (FileID h) FileFmtID_WithTime) as [Hid|Hid].
  - eexists. rewrite (bind_Return_eq _ _ _ _ _ (fread_enough _ int32 _ HNT (Hfit Hid))).
    rewrite unpack_items_length, Z2Nat.id, Z.ltb_irrefl by exact HNT. reflexivity.
  - exists []. reflexivity.
Qed.

Lemma read_series_unbuffered_total fuel h body :
  0 <= NT h -> 0 <= NumOutChans h ->
  (FileID h = FileFmtID_WithTime -> 4 * NT h <= Z.of_nat (List.length body)) ->
  nbytes (payload_type h) * (NT h * NumOutChans h)
  <= Z.of_nat (List.length (payload h body)) ->
  exists PackedTime data fid1,
    read_series fuel h false body = Return (PackedTime, data) fid1.
Proof.
  intros HNT Hchans Htfit Hpfit. unfold read_series.
  destruct (read_packed_time_enough h body HNT Htfit) as (PackedTime & HPT).
  rewrite (bind_Return_eq _ _ _ _ _ HPT).
  assert (Hn : 0 <= NT h * NumOutChans h) by nia.
  assert (Hraw : exists floats,
    (if FileID h =? FileFmtID_NoCompressWithoutTime
     then l <- fread (NT h * NumOutChans h) float64 ;; ret (map (to_float64 float64) l)
     else l <- fread (NT h * NumOutChans h) int16 ;; ret (map (to_float64 int16) l))
      (payload h body)
    = Return floats (skipn (Z.to_nat (nbytes (payload_type h) * (NT h * NumOutChans h)))
                           (payload h body))
    /\ List.length floats = (Z.to_nat (NT h) * Z.to_nat (NumOutChans h))%nat).
  { unfold payload_type in *.
    destruct (FileID h =? FileFmtID_NoCompressWithoutTime);
      eexists; rewrite (bind_Return_eq _ _ _ _ _ (fread_enough _ _ _ Hn Hpfit));
      (split; [reflexivity|]); rewrite length_map, unpack_items_length; nia. }
  destruct Hraw as (floats & Hraw & Hlen).
  cbv iota. rewrite bind_assoc, (bind_Return_eq _ _ _ _ _ Hraw). cbv zeta.
  replace (Z.of_nat (List.length floats) <? NT h * NumOutChans h) with false
    by (symmetry; apply Z.ltb_ge; rewrite Hlen; nia).
  pose proof (reshape2_exact floats _ _
                (skipn (Z.to_nat (nbytes (payload_type h) * (NT h * NumOutChans h)))
                       (payload h body)) Hlen) as Hre.
  rewrite !Z2Nat.id in Hre by assumption.
  rewrite (bind_Return_eq _ _ _ _ _ Hre).
  eexists. eexists. eexists. reflexivity.
Qed.

Lemma np_binop2_total f a b R C fid :
  broadcast_dim (nrows a) (nrows b) = Some R ->
  broadcast_dim (ncols a) (ncols b) = Some C ->
  exists r, np_binop2 f a b fid = Return r fid /\ nrows r = R /\ ncols r = C.
Proof.
  intros HR HC. unfold np_binop2. rewrite HR, HC.
  eexists. split; [reflexivity|]. split; [|reflexivity].
  unfold nrows. cbn [rows]. rewrite length_map, length_seq. reflexivity.
Qed.

Lemma scale_unbuffered_total h data time fid :
  header_shape h -> FileID h <> FileFmtID_NoCompressWithoutTime -> 0 <= NT h ->
  nrows data = Z.to_nat (NT h) -> ncols data = Z.to_nat (NumOutChans h) ->
  List.length time = Z.to_nat (NT h) ->
  exists tbl, scale_data h false data time fid = Return tbl fid.
Proof.
  intros (_ & _ & _ & _ & Hcoef) Hid HNT Hrows Hcols Htime.
  apply Z.eqb_neq in Hid. rewrite Hid in Hcoef.
  destruct Hcoef as (s & o & Hs & Ho & Hls & Hlo).
  unfold scale_data. rewrite Hs, Ho.
  destruct (np_binop2_total PrimFloat.sub data (coef_array (TupleCoef o))
              (Z.to_nat (NT h)) (Z.to_nat (NumOutChans h)) fid) as (d & Hd & Hdr & Hdc).
  { unfold nrows at 2. cbn [coef_array rows List.length].
    rewrite Hrows. apply broadcast_dim_one_r. }
  { cbn [coef_array ncols]. rewrite Hcols, Hlo. apply broadcast_dim_refl. }
  rewrite (bind_Return_eq _ _ _ _ _ Hd).
  destruct (np_binop2_total PrimFloat.div d (coef_array (TupleCoef s))
              (Z.to_nat (NT h)) (Z.to_nat (NumOutChans h)) fid) as (q & Hq & Hqr & Hqc).
  { unfold nrows at 2. cbn [coef_array rows List.length].
    rewrite Hdr. apply broadcast_dim_one_r. }
  { cbn [coef_array ncols]. rewrite Hdc, Hls. apply broadcast_dim_refl. }
  rewrite (bind_Return_eq _ _ _ _ _ Hq).
  pose proof (reshape2_exact time (Z.to_nat (NT h)) 1 fid ltac:(lia)) as Hre.
  rewrite Z2Nat.id in Hre by exact HNT. change (Z.of_nat 1) with 1 in Hre.
  rewrite (bind_Return_eq _ _ _ _ _ Hre).
  unfold np_concatenate1. unfold nrows at 1. cbn [rows]. rewrite chunk_length, Hqr.
  rewrite Nat.eqb_refl. eexists. reflexivity.
Qed.

Lemma ReadFASTbinary_unbuffered_total fuel filename content h region names units body :
  read_header content = Return h region ->
  read_channel_names h region = Return (names, units) body ->
  FileID h <> FileFmtID_NoCompressWithoutTime -> 0 <= NT h ->
  (FileID h = FileFmtID_WithTime -> 4 * NT h <= Z.of_nat (List.length body)) ->
  nbytes (payload_type h) * (NT h * NumOutChans h)
  <= Z.of_nat (List.length (payload h body)) ->
  exists tbl fid',
    ReadFASTbinary fuel filename content false
    = Return (tbl, make_info filename h names units) fid'.
Proof.
  intros Hh Hnu Hid HNT Htfit Hpfit.
  pose proof (read_header_Return _ _ _ Hh) as Hshape.
  pose proof Hshape as (_ & Hchans & _).
  destruct (read_series_unbuffered_total fuel h body HNT Hchans Htfit Hpfit)
    as (PackedTime & data & fid1 & Hseries).
  pose proof (read_series_Return _ _ _ _ _ _ _ Hshape HNT Hseries)
    as (HPT & Hwf & Hrows & Hcols & _).
  pose proof (reconstruct_time_eq h PackedTime fid1 Hshape) as Htime.
  pose proof (reconstruct_time_Return h body _ _ _ _ Hshape HNT HPT Htime)
    as (_ & Hlen & _).
  cbn [time_column] in Hcols. rewrite Nat.add_0_r in Hcols.
  destruct (scale_unbuffered_total h data _ fid1 Hshape Hid HNT Hrows Hcols Hlen)
    as (tbl & Hscale).
  exists tbl, fid1. unfold ReadFASTbinary.
  rewrite (bind_Return_eq _ _ _ _ _ Hh), (bind_Return_eq _ _ _ _ _ Hnu).
  rewrite (bind_Return_eq _ _ _ _ _ Hseries), (bind_Return_eq _ _ _ _ _ Htime).
  rewrite (bind_Return_eq _ _ _ _ _ Hscale). reflexivity.
Qed.

(** ** Files without channels *)

Lemma read_series_no_channel_buffered fuel h body :
  NumOutChans h = 0 -> 0 <= NT h ->
  (FileID h = FileFmtID_WithTime -> 4 * NT h <= Z.of_nat (List.length body)) ->
  read_series fuel h true body = Raise ZeroDivisionError (payload h body).
Proof.
  intros Hzero HNT Htfit. unfold read_series.
  destruct (read_packed_time_enough h body HNT Htfit) as (PackedTime & HPT).
  rewrite (bind_Return_eq _ _ _ _ _ HPT). cbv iota.
  apply bind_Raise_eq. rewrite Hzero.
  destruct (FileID h =? FileFmtID_NoCompressWithoutTime);
    unfold freadRowOrderTableBuffered;
    apply bind_Raise_eq; apply int_div_zero.
Qed.

(** The same division by zero one level up: with more than 163840 channels
    the buffered payload read raises at line 41, the payload unread. *)
Lemma read_series_wide_buffered fuel h body :
  GoodBufferSize < NumOutChans h -> 0 <= NT h ->
  (FileID h = FileFmtID_WithTime -> 4 * NT h <= Z.of_nat (List.length body)) ->
  read_series fuel h true body = Raise ZeroDivisionError (payload h body).
Proof.
  intros Hwide HNT Htfit. unfold read_series.
  destruct (read_packed_time_enough h body HNT Htfit) as (PackedTime & HPT).
  rewrite (bind_Return_eq _ _ _ _ _ HPT). cbv iota.
  apply bind_Raise_eq.
  destruct (FileID h =? FileFmtID_NoCompressWithoutTime);
    apply zero_buffer_size_raises; exact Hwide.
Qed.

(** C10, as the code has it. With a header that declares no channel (a step
    count that is not negative and, in format 1, the packed time present in
    the file), the buffered mode raises [ZeroDivisionError] at line 37, with
    the handle at the payload, whatever the format.  The unbuffered mode, in
    formats 1, 2 and 4, returns a table of [NT] rows and one column, which
    holds the time. *)
Theorem zero_channel_file :
  forall fuel filename content h region names units body,
    read_header content = Return h region ->
    read_channel_names h region = Return (names, units) body ->
    NumOutChans h = 0 ->
    0 <= NT h ->
    (FileID h = FileFmtID_WithTime -> 4 * NT h <= Z.of_nat (List.length body)) ->
    ReadFASTbinary fuel filename content true = Raise ZeroDivisionError (payload h body)
    /\ (FileID h <> FileFmtID_NoCompressWithoutTime ->
        exists tbl fid',
          ReadFASTbinary fuel filename content false
          = Return (tbl, make_info filename h names units) fid'
          /\ wf tbl /\ nrows tbl = Z.to_nat (NT h) /\ ncols tbl = 1%nat
          /\ forall i, Z.of_nat i < NT h -> get2 tbl i 0 = time_at h body i).
Proof.
  intros fuel filename content h region names units body Hh Hnu Hzero HNT Htfit.
  split.
  - unfold ReadFASTbinary.
    rewrite (bind_Return_eq _ _ _ _ _ Hh), (bind_Return_eq _ _ _ _ _ Hnu).
    apply bind_Raise_eq. apply read_series_no_channel_buffered; assumption.
  - intros Hid.
    destruct (ReadFASTbinary_unbuffered_total fuel filename content h region names units
                body Hh Hnu Hid HNT Htfit) as (tbl & fid' & Hread).
    { rewrite Hzero, Z.mul_0_r, Z.mul_0_r. lia. }
    exists tbl, fid'. split; [exact Hread|].
    apply ReadFASTbinary_table in Hread.
    destruct Hread as (h' & region' & names' & units' & body' & Hh' & Hnu' & _ & _ & Htbl).
    rewrite Hh in Hh'. injection Hh' as <- <-.
    rewrite Hnu in Hnu'. injection Hnu' as <- <- <-.
    destruct (Htbl HNT) as (_ & _ & _ & Hwf & Hrows & Hcols & Hent).
    rewrite Hzero in Hcols. split; [exact Hwf|]. split; [exact Hrows|].
    split; [exact Hcols|].
    intros i Hi. apply Hent. lia.
Qed.

Lemma zero_channel_file_witness :
  ReadFASTbinary 10 sample_name sample_fmt2_no_channel true
  = Raise ZeroDivisionError (payload sample_no_channel_header [])
  /\ (FileID sample_no_channel_header <> FileFmtID_NoCompressWithoutTime ->
      exists tbl fid',
        ReadFASTbinary 10 sample_name sample_fmt2_no_channel false
        = Return (tbl, make_info sample_name sample_no_channel_header
                         [pystr "Time"] [pystr "s"]) fid'
        /\ wf tbl /\ nrows tbl = Z.to_nat (NT sample_no_channel_header)
        /\ ncols tbl = 1%nat
        /\ forall i, Z.of_nat i < NT sample_no_channel_header ->
             get2 tbl i 0 = time_at sample_no_channel_header [] i).
Proof.
  apply (zero_channel_file 10 sample_name sample_fmt2_no_channel
           sample_no_channel_header (text "Time      " ++ text "(s)       ")
           [pystr "Time"] [pystr "s"] []).
  - vm_compute. reflexivity.
  - vm_compute. reflexivity.
  - reflexivity.
  - vm_compute. discriminate.
  - vm_compute. discriminate.
Defined.

(** The claim as worded fails on a file of format 3 with no channel and one
    step: the unbuffered mode does not return a table, the broadcast of a
    [(1, 0)] array against the [(0, 1)] array of offsets leaves no row to
    put next to the time. *)
Lemma zero_channel_uncompressed_sample :
  exists h region,
    read_header sample_fmt3_no_channel = Return h region
    /\ FileID h = 3 /\ NumOutChans h = 0 /\ NT h = 1
    /\ ReadFASTbinary 10 sample_name sample_fmt3_no_channel true
       = Raise ZeroDivisionError []
    /\ ReadFASTbinary 10 sample_name sample_fmt3_no_channel false
       = Raise ValueError [].
Proof.
  eexists. eexists. split; [vm_compute; reflexivity|].
  vm_compute. repeat split.
Qed.

(** ** Where the two modes part *)

(** C1. On the sample of format 2 both modes return a table and the same
    metadata, but the tables differ: the channel whose scale and offset are
    not-a-number is all zero in the buffered mode and all not-a-number in
    the unbuffered mode. *)
Theorem modes_disagree_on_sentinel_channel :
  ReadFASTbinary 10 sample_name sample_fmt2 true
  = Return (sample_fmt2_table 0, sample_fmt2_info) []
  /\ ReadFASTbinary 10 sample_name sample_fmt2 false
     = Return (sample_fmt2_table nan, sample_fmt2_info) [].
Proof. split; vm_compute; reflexivity. Qed.

(** C2. In the sample of format 2 the second channel has the not-a-number
    scale and offset.  The buffered mode returns its column as zeros; the
    unbuffered mode returns it as not-a-number, for lines 162-163 have no
    test of the sentinel. *)
Theorem sentinel_column_unbuffered :
  exists h region tbl_buffered tbl_unbuffered inf,
    read_header sample_fmt2 = Return h region
    /\ map is_nan (coef_list (ColScl h)) = [false; true]
    /\ map is_nan (coef_list (ColOff h)) = [false; true]
    /\ ReadFASTbinary 10 sample_name sample_fmt2 true = Return (tbl_buffered, inf) []
    /\ ReadFASTbinary 10 sample_name sample_fmt2 false = Return (tbl_unbuffered, inf) []
    /\ map (fun i => get2 tbl_buffered i 2) (seq 0 5) = [0; 0; 0; 0; 0]%float
    /\ map (fun i => is_nan (get2 tbl_unbuffered i 2)) (seq 0 5)
       = [true; true; true; true; true].
Proof.
  eexists. eexists. exists (sample_fmt2_table 0), (sample_fmt2_table nan), sample_fmt2_info.
  split; [vm_compute; reflexivity|]. vm_compute. repeat split.
Qed.

(** X12. In the buffered mode the sentinel is honoured by every file: the
    column of a channel whose scale and offset are both not-a-number is zero
    in every row of every table the buffered read returns. *)
Lemma sentinel_column_buffered_zero fuel filename content tbl inf fid' :
  ReadFASTbinary fuel filename content true = Return (tbl, inf) fid' ->
  exists h region,
    read_header content = Return h region
    /\ forall i c,
         Z.of_nat i < NT h -> Z.of_nat c < NumOutChans h ->
         is_nan (nth c (coef_list (ColScl h)) 0%float) = true ->
         is_nan (nth c (coef_list (ColOff h)) 0%float) = true ->
         get2 tbl i (c + 1) = 0%float.
Proof.
  intros H. apply ReadFASTbinary_table in H.
  destruct H as (h & region & names & units & body & Hh & _ & _ & _ & Htbl).
  exists h, region. split; [exact Hh|].
  intros i c Hi Hc Hscl Hoff.
  destruct Htbl as (_ & _ & _ & _ & _ & _ & Hent); [lia|].
  destruct (Hent i ltac:(lia)) as (_ & Hchan).
  rewrite Hchan by lia. unfold table_entry, dequantize. rewrite Hscl, Hoff. reflexivity.
Qed.

(** C3. A payload that misses its last byte makes both modes fail, but not
    with the messages of lines 57 and 139: the buffered mode raises the
    [TypeError] of the ill-formed message of line 57, the unbuffered mode the
    [struct.error] of [fread], before the count of line 138 is taken.  A
    short packed time raises [struct.error] too, before the count of line
    121.  No exception carries the counts read and expected. *)
Theorem truncated_file_errors :
  ReadFASTbinary 10 sample_name sample_fmt2_truncated true = Raise TypeError []
  /\ ReadFASTbinary 10 sample_name sample_fmt2_truncated false = Raise StructError []
  /\ ReadFASTbinary 10 sample_name sample_fmt1_short_time true = Raise StructError []
  /\ ReadFASTbinary 10 sample_name sample_fmt1_short_time false = Raise StructError [].
Proof. repeat split; vm_compute; reflexivity. Qed.

(** A file that holds less than the payload its header declares never gives
    a table, in either mode. *)
Lemma truncated_payload_no_table fuel filename content use_buffer h region names units body :
  read_header content = Return h region ->
  read_channel_names h region = Return (names, units) body ->
  0 <= NT h ->
  Z.of_nat (List.length (payload h body))
  < nbytes (payload_type h) * (NT h * NumOutChans h) ->
  forall tbl inf fid',
    ReadFASTbinary fuel filename content use_buffer <> Return (tbl, inf) fid'.
Proof.
  intros Hh Hnu HNT Hshort tbl inf fid' H.
  apply ReadFASTbinary_table in H.
  destruct H as (h' & region' & names' & units' & body' & Hh' & Hnu' & _ & _ & Htbl).
  rewrite Hh in Hh'. injection Hh' as <- <-.
  rewrite Hnu in Hnu'. injection Hnu' as <- <- <-.
  destruct (Htbl HNT) as (_ & _ & Hfit & _). lia.
Qed.

(** C7. On the sample of format 3 (three channels, two steps) the buffered
    mode returns the stored 64-bit floats as they are, after the time; the
    unbuffered mode raises [ValueError]: the scale and offset that lines
    92-93 build have shape [(3, 1)] and do not broadcast against the
    [(2, 3)] payload at line 162. *)
Theorem uncompressed_unbuffered_fails :
  exists h region inf,
    read_header sample_fmt3 = Return h region
    /\ FileID h = 3 /\ NumOutChans h = 3 /\ NT h = 2
    /\ ColScl h = ColumnCoef [1; 1; 1]%float /\ ColOff h = ColumnCoef [0; 0; 0]%float
    /\ map (stored h (skipn 80 region)) (seq 0 6) = [1.5; 2; 0.1; -3; 0; 1.5]%float
    /\ ReadFASTbinary 10 sample_name sample_fmt3 true = Return (sample_fmt3_table, inf) []
    /\ ReadFASTbinary 10 sample_name sample_fmt3 false = Raise ValueError [].
Proof.
  eexists. eexists. eexists. split; [vm_compute; reflexivity|].
  vm_compute. repeat split.
Qed.

(** ** Where the two modes agree *)

Lemma array2_ext a b :
  wf a -> wf b -> ncols a = ncols b -> nrows a = nrows b ->
  (forall i j, (i < nrows a)%nat -> (j < ncols a)%nat -> get2 a i j = get2 b i j) ->
  a = b.
Proof.
  intros Ha Hb Hc Hr Hent.
  rewrite <- (array2_eta a), <- (array2_eta b). rewrite Hc. f_equal.
  apply (nth_ext _ _ [] []); [exact Hr|].
  intros i Hi. fold (nrows a) in Hi.
  apply (nth_ext _ _ 0%float 0%float).
  - rewrite !wf_row_length by (try assumption; lia). exact Hc.
  - intros j Hj. rewrite wf_row_length in Hj by assumption.
    apply (Hent i j Hi Hj).
Qed.

Lemma read_series_buffered_steps fuel h body PackedTime data fid1 :
  0 <= NumOutChans h ->
  read_series fuel h true body = Return (PackedTime, data) fid1 -> 0 <= NT h.
Proof.
  intros Hchans H. unfold read_series in H.
  inv_bind H as PT f HPT. inv_bind H as d f' Hdata. inv_ret H.
  destruct (FileID h =? FileFmtID_NoCompressWithoutTime);
    apply freadRowOrderTableBuffered_Return in Hdata; try exact Hchans;
    destruct Hdata as (_ & HNT & _); exact HNT.
Qed.

(** Two successful reads of one file, one in each mode, give the same
    metadata, and the same table when no channel has the not-a-number scale
    and offset together. *)
Lemma modes_agree_without_sentinel fuel filename content tb ib fb tu iu fu :
  ReadFASTbinary fuel filename content true = Return (tb, ib) fb ->
  ReadFASTbinary fuel filename content false = Return (tu, iu) fu ->
  exists h region,
    read_header content = Return h region
    /\ ib = iu
    /\ ((forall c, Z.of_nat c < NumOutChans h ->
           is_nan (nth c (coef_list (ColScl h)) 0%float)
           && is_nan (nth c (coef_list (ColOff h)) 0%float) = false) ->
        tb = tu).
Proof.
  intros Hb Hu.
  assert (HNT : forall h region, read_header content = Return h region -> 0 <= NT h).
  { intros h region Hh. pose proof Hb as Hb'.
    apply ReadFASTbinary_Return in Hb'.
    destruct Hb' as (h' & region' & names & units & body & PackedTime & data & fid1 & time
                     & fid2 & fid3 & Hh' & _ & Hseries & _).
    rewrite Hh in Hh'. injection Hh' as <- <-.
    pose proof (read_header_Return _ _ _ Hh) as (_ & Hchans & _).
    apply (read_series_buffered_steps _ _ _ _ _ _ Hchans Hseries). }
  apply ReadFASTbinary_table in Hb, Hu.
  destruct Hb as (h & region & names & units & body & Hh & Hnu & _ & -> & Hb).
  destruct Hu as (h' & region' & names' & units' & body' & Hh' & Hnu' & _ & -> & Hu).
  rewrite Hh in Hh'. injection Hh' as <- <-.
  rewrite Hnu in Hnu'. injection Hnu' as <- <- <-.
  exists h, region. split; [exact Hh|]. split; [reflexivity|].
  intros Hplain.
  destruct (Hb (HNT _ _ Hh)) as (_ & _ & _ & Hwfb & Hrb & Hcb & Hentb).
  destruct (Hu (HNT _ _ Hh)) as (_ & _ & _ & Hwfu & Hru & Hcu & Hentu).
  apply array2_ext; try assumption; try congruence.
  intros i j Hi Hj. rewrite Hrb in Hi. rewrite Hcb in Hj.
  destruct (Hentb i Hi) as (Htb & Hchb). destruct (Hentu i Hi) as (Htu & Hchu).
  destruct j as [|c].
  - rewrite Htb, Htu. reflexivity.
  - replace (S c) with (c + 1)%nat by lia.
    rewrite Hchb, Hchu by lia. unfold table_entry, dequantize.
    rewrite Hplain by lia. reflexivity.
Qed.

(** For a compressed format (1, 2 or 4) without such a channel, the
    unbuffered mode returns whatever the buffered mode returns. *)
Lemma unbuffered_follows_buffered fuel filename content tbl inf fid' :
  ReadFASTbinary fuel filename content true = Return (tbl, inf) fid' ->
  exists h region,
    read_header content = Return h region
    /\ (FileID h <> FileFmtID_NoCompressWithoutTime ->
        (forall c, Z.of_nat c < NumOutChans h ->
           is_nan (nth c (coef_list (ColScl h)) 0%float)
           && is_nan (nth c (coef_list (ColOff h)) 0%float) = false) ->
        exists fid'', ReadFASTbinary fuel filename content false = Return (tbl, inf) fid'').
Proof.
  intros Hb. pose proof Hb as Hb'.
  apply ReadFASTbinary_Return in Hb'.
  destruct Hb' as (h & region & names & units & body & PackedTime & data & fid1 & time
                   & fid2 & fid3 & Hh & Hnu & Hseries & _ & _ & Hinf).
  exists h, region. split; [exact Hh|]. intros Hid Hplain.
  pose proof (read_header_Return _ _ _ Hh) as Hshape.
  pose proof Hshape as (_ & Hchans & _).
  pose proof (read_series_buffered_steps _ _ _ _ _ _ Hchans Hseries) as HNT.
  pose proof (read_series_Return _ _ _ _ _ _ _ Hshape HNT Hseries)
    as (_ & _ & _ & _ & _ & _ & Htfit & Hpfit).
  destruct (ReadFASTbinary_unbuffered_total fuel filename content h region names units
              body Hh Hnu Hid HNT Htfit Hpfit) as (tu & fu & Hu).
  exists fu. rewrite Hu.
  destruct (modes_agree_without_sentinel _ _ _ _ _ _ _ _ _ Hb Hu)
    as (h' & region' & Hh' & Hi & Ht).
  rewrite Hh in Hh'. injection Hh' as <- <-.
  rewrite (Ht Hplain), Hi. reflexivity.
Qed.

(** ** The uncompressed format *)

(** Binary64 arithmetic: subtracting zero and dividing by one change nothing. *)
Lemma float_sub_zero (x : float) : (x - 0)%float = x.
Proof.
  apply Prim2SF_inj. rewrite sub_spec.
  change (Prim2SF 0) with (S754_zero false).
  destruct (Prim2SF x) as [[|]|[|]| |s m e]; reflexivity.
Qed.

Lemma div_eucl_exact a b : 0 < b -> Z.div_eucl (a * b) b = (a, 0).
Proof.
  intros Hb. pose proof (Z_div_mult a b ltac:(lia)) as Hq.
  pose proof (Z_mod_mult a b) as Hr.
  unfold Z.div in Hq. unfold Z.modulo in Hr.
  destruct (Z.div_eucl (a * b) b) as [q r]. subst. reflexivity.
Qed.

Lemma round_exact s m e :
  let d := Zpos (digits2_pos m) in
  Z.max (d + e - 53) (3 - 1024 - 53) = e -> e <= 1024 - 53 ->
  binary_round_aux 53 1024 s (Zpos m) e loc_Exact = S754_finite s m e.
Proof.
  intros d Hc Hb. unfold binary_round_aux, shr_fexp, fexp, SpecFloat.emin.
  cbn [Zdigits2 shr_record_of_loc]. fold d.
  replace (Z.max (d + e - 53) (3 - 1024 - 53) - e) with 0 by lia.
  cbn [shr shr_m loc_of_shr_record round_nearest_even Zdigits2]. fold d.
  replace (Z.max (d + e - 53) (3 - 1024 - 53) - e) with 0 by lia.
  cbn [shr shr_m].
  destruct (Z.leb_spec e (1024 - 53)); [reflexivity|lia].
Qed.

Lemma round_exact_shifted s m e :
  let d := Zpos (digits2_pos m) in
  Z.max (d + e - 53) (3 - 1024 - 53) = e -> e <= 1024 - 53 ->
  binary_round_aux 53 1024 s (Zpos m~0) (e - 1) loc_Exact = S754_finite s m e.
Proof.
  intros d Hc Hb. unfold binary_round_aux, shr_fexp, fexp, SpecFloat.emin.
  cbn [Zdigits2 shr_record_of_loc digits2_pos]. rewrite Pos2Z.inj_succ. fold d.
  replace (Z.max (Z.succ d + (e - 1) - 53) (3 - 1024 - 53) - (e - 1)) with 1 by lia.
  cbn [shr iter_pos shr_1 orb shr_m loc_of_shr_record round_nearest_even Zdigits2].
  fold d.
  replace (e - 1 + 1) with e by lia.
  replace (Z.max (d + e - 53) (3 - 1024 - 53) - e) with 0 by lia.
  cbn [shr shr_m].
  destruct (Z.leb_spec e (1024 - 53)); [reflexivity|lia].
Qed.

Lemma SFdiv_one s m e :
  valid_binary (S754_finite s m e) = true ->
  SF64div (S754_finite s m e) (S754_finite false 4503599627370496 (-52))
  = S754_finite s m e.
Proof.
  unfold SpecFloat.valid_binary, bounded, canonical_mantissa. intros H.
  apply andb_prop in H. destruct H as [Hc Hb].
  apply Z.eqb_eq in Hc. apply Z.leb_le in Hb.
  unfold SF64div, SFdiv, SFdiv_core_binary. cbn [Zdigits2].
  change (Zpos (digits2_pos 4503599627370496)) with 53.
  unfold fexp, SpecFloat.emin, prec, emax in *.
  rewrite xorb_false_r.
  set (d := Zpos (digits2_pos m)) in *.
  assert (Hd : 0 < d) by (subst d; lia).
  set (e' := Z.min (Z.max (d + e - (53 + -52) - 53) (3 - 1024 - 53)) (e - -52)).
  assert (He' : (e' = e - 1 /\ e - -52 - e' = 53) \/ (e' = e /\ e - -52 - e' = 52))
    by (subst e'; lia).
  destruct He' as [[He1 He2]|[He1 He2]]; rewrite He2, He1.
  - rewrite Z.shiftl_mul_pow2 by lia.
    replace (Zpos m * 2 ^ 53) with (Zpos m~0 * 4503599627370496) by lia.
    rewrite div_eucl_exact by lia.
    change (new_location 4503599627370496 0) with loc_Exact.
    apply round_exact_shifted; assumption.
  - rewrite Z.shiftl_mul_pow2 by lia.
    change (2 ^ 52) with 4503599627370496.
    rewrite div_eucl_exact by lia.
    change (new_location 4503599627370496 0) with loc_Exact.
    apply round_exact; assumption.
Qed.

Lemma float_div_one (x : float) : (x / 1)%float = x.
Proof.
  apply Prim2SF_inj. rewrite div_spec.
  change (Prim2SF 1) with (S754_finite false 4503599627370496 (-52)).
  pose proof (Prim2SF_valid x) as Hv.
  destruct (Prim2SF x) as [s|s| |s m e].
  - cbn. rewrite xorb_false_r. reflexivity.
  - cbn. rewrite xorb_false_r. reflexivity.
  - reflexivity.
  - apply SFdiv_one. exact Hv.
Qed.

(** X13. Whenever a read of a file of format 3 returns a table, in either mode,
    the scale is one and the offset zero for every channel, and the entries
    of the table are the 64-bit floats of the payload, unchanged. *)
Lemma uncompressed_entries_are_stored fuel filename content use_buffer tbl inf fid' :
  ReadFASTbinary fuel filename content use_buffer = Return (tbl, inf) fid' ->
  exists h region names units body,
    read_header content = Return h region
    /\ read_channel_names h region = Return (names, units) body
    /\ (FileID h = FileFmtID_NoCompressWithoutTime ->
        ColScl h = ColumnCoef (repeat 1%float (Z.to_nat (NumOutChans h)))
        /\ ColOff h = ColumnCoef (repeat 0%float (Z.to_nat (NumOutChans h)))
        /\ forall i c,
             Z.of_nat i < NT h -> Z.of_nat c < NumOutChans h ->
             get2 tbl i (c + 1)
             = item float64 (payload h body) (i * Z.to_nat (NumOutChans h) + c)).
Proof.
  intros H. apply ReadFASTbinary_table in H.
  destruct H as (h & region & names & units & body & Hh & Hnu & Hshape & _ & Htbl).
  exists h, region, names, units, body.
  split; [exact Hh|]. split; [exact Hnu|]. intros Hid.
  destruct Hshape as (_ & _ & _ & _ & Hcoef). rewrite Hid in Hcoef. cbn in Hcoef.
  destruct Hcoef as (Hs & Ho). split; [exact Hs|]. split; [exact Ho|].
  intros i c Hi Hc.
  destruct Htbl as (_ & _ & _ & _ & _ & _ & Hent); [lia|].
  destruct (Hent i ltac:(lia)) as (_ & Hchan). rewrite Hchan by lia.
  unfold table_entry, dequantize, stored, payload_type.
  rewrite Hs, Ho, Hid. cbn [coef_list Z.eqb FileFmtID_NoCompressWithoutTime Pos.eqb to_float64].
  rewrite !nth_repeat_lt by lia. cbn [is_nan andb].
  assert (Hnan : is_nan 1 && is_nan 0 = false) by reflexivity.
  rewrite Hnan.
  destruct use_buffer; rewrite float_sub_zero, float_div_one; reflexivity.
Qed.

(** ** The buffered read returns when the file holds the payload *)

Section BufferedLoopTotal.

Variable t : dtype.
Variables C Lb R : nat.
Hypothesis HC : (0 < C)%nat.
Hypothesis HL : (0 < Lb)%nat.

(** Fuel above the number of rows left is enough: every iteration stores at
    least one row. *)
Lemma buffered_loop_total :
  forall fuel data dn fid,
    (dn <= R)%nat -> (R - dn < fuel)%nat ->
    ncols data = (C + 1)%nat -> nrows data = R ->
    ((R - dn) * C * Z.to_nat (nbytes t) <= List.length fid)%nat ->
    exists data' fid',
      buffered_loop fuel (Z.of_nat R * Z.of_nat C) t (Z.of_nat C) 1
        (Z.of_nat C * Z.of_nat Lb) data (Z.of_nat dn * Z.of_nat C) (Z.of_nat dn) fid
      = Return data' fid'.
Proof.
  set (nb := Z.to_nat (nbytes t)).
  induction fuel as [|fuel IH]; intros data dn fid Hdn Hfuel Hcols Hrows Hfit; [lia|].
  cbn [buffered_loop].
  destruct (Z.ltb_spec (Z.of_nat dn * Z.of_nat C) (Z.of_nat R * Z.of_nat C)) as [Hlt|Hge].
  - assert (Hdn' : (dn < R)%nat) by nia.
    set (k := Nat.min (R - dn) Lb).
    assert (Hk : (0 < k)%nat /\ (dn + k <= R)%nat) by (subst k; lia).
    assert (Hmin : Z.min (Z.of_nat R * Z.of_nat C - Z.of_nat dn * Z.of_nat C)
                         (Z.of_nat C * Z.of_nat Lb) = Z.of_nat (k * C)).
    { subst k. destruct (Nat.min_spec (R - dn) Lb) as [[Hm ->]|[Hm ->]]; nia. }
    rewrite Hmin.
    rewrite (bind_Return_eq _ _ _ _ _
               (int_div_Return (Z.of_nat (k * C)) (Z.of_nat C) fid ltac:(lia))).
    assert (Hq : Z.quot (Z.of_nat (k * C)) (Z.of_nat C) = Z.of_nat k).
    { rewrite Nat2Z.inj_mul. apply Z.quot_mul. lia. }
    rewrite Hq.
    assert (Hskip : Z.to_nat (nbytes t * Z.of_nat (k * C)) = (k * C * nb)%nat).
    { rewrite (nbytes_nat t), <- Nat2Z.inj_mul, Nat2Z.id. fold nb. lia. }
    assert (Hpart : (k * C * nb <= (R - dn) * C * nb)%nat).
    { apply Nat.mul_le_mono_r. apply Nat.mul_le_mono_r. lia. }
    assert (Henough : nbytes t * Z.of_nat (k * C) <= Z.of_nat (List.length fid)).
    { rewrite <- (Z2Nat.id (nbytes t * Z.of_nat (k * C))) by (pose proof (nbytes_pos t); lia).
      rewrite Hskip. lia. }
    rewrite (bind_Return_eq _ _ _ _ _
               (fread_enough (Z.of_nat (k * C)) t fid ltac:(lia) Henough)).
    rewrite Nat2Z.id, Hskip.
    set (items := unpack_items t (k * C) (firstn (k * C * nb) fid)).
    rewrite (bind_Return_eq _ _ _ _ _
               (reshape2_infer_rows (map (to_float64 t) items) C k _ HC
                  ltac:(rewrite length_map; apply unpack_items_length))).
    set (B := {| ncols := C; rows := chunk k C (map (to_float64 t) items) |}).
    rewrite (bind_Return_eq _ _ _ _ _
               (assign_block_fits data dn k C B _ ltac:(lia) Hcols
                  (chunk_length k C _) eq_refl)).
    replace (Z.of_nat dn * Z.of_nat C + Z.of_nat (k * C))
      with (Z.of_nat (dn + k) * Z.of_nat C) by lia.
    replace (Z.of_nat dn + Z.of_nat k) with (Z.of_nat (dn + k)) by lia.
    apply IH.
    + lia.
    + lia.
    + exact Hcols.
    + rewrite nrows_update_entries. exact Hrows.
    + rewrite length_skipn. fold nb.
      assert (Hsplit : ((R - dn) * C * nb = (R - (dn + k)) * C * nb + k * C * nb)%nat).
      { replace (R - dn)%nat with ((R - (dn + k)) + k)%nat by lia. lia. }
      lia.
  - exists data, fid. reflexivity.
Qed.

End BufferedLoopTotal.

Lemma freadRowOrderTableBuffered_total fuel t nCols nLines fid :
  0 < nCols <= GoodBufferSize -> 0 <= nLines -> (Z.to_nat nLines < fuel)%nat ->
  nbytes t * (nLines * nCols) <= Z.of_nat (List.length fid) ->
  exists data fid',
    freadRowOrderTableBuffered fuel (nLines * nCols) t nCols 1 fid = Return data fid'.
Proof.
  intros Hc Hl Hfuel Hfit. unfold freadRowOrderTableBuffered.
  assert (Hne : nCols <> 0) by lia.
  rewrite (bind_Return_eq _ _ _ _ _ (int_div_Return _ _ fid Hne)).
  rewrite (bind_Return_eq _ _ _ _ _ (int_div_Return _ _ fid Hne)).
  rewrite Z.quot_mul by lia.
  set (L := Z.quot GoodBufferSize nCols).
  assert (HL : 1 <= L) by (apply Z.quot_le_lower_bound; lia).
  assert (Hbs : nCols * L <> 0) by nia.
  rewrite (bind_Return_eq _ _ _ _ _ (int_div_Return _ _ fid Hbs)).
  assert (Hzeros : np_full 0%float nLines (nCols + 1) fid
                   = Return {| ncols := Z.to_nat (nCols + 1);
                               rows := repeat (repeat 0%float (Z.to_nat (nCols + 1)))
                                              (Z.to_nat nLines) |} fid).
  { unfold np_full. destruct (Z.ltb_spec nLines 0); [lia|].
    destruct (Z.ltb_spec (nCols + 1) 0); [lia|]. reflexivity. }
  rewrite (bind_Return_eq _ _ _ _ _ Hzeros).
  destruct (buffered_loop_total t (Z.to_nat nCols) (Z.to_nat L) (Z.to_nat nLines)
              ltac:(lia) ltac:(lia) fuel
              {| ncols := Z.to_nat (nCols + 1);
                 rows := repeat (repeat 0%float (Z.to_nat (nCols + 1))) (Z.to_nat nLines) |}
              0%nat fid) as (data & fid' & Hloop).
  - lia.
  - lia.
  - cbn [ncols]. lia.
  - unfold nrows. cbn [rows]. apply repeat_length.
  - rewrite Nat.sub_0_r. rewrite (nbytes_nat t) in Hfit. nia.
  - rewrite !Z2Nat.id in Hloop by lia. cbn [Z.of_nat] in Hloop.
    rewrite Z.mul_0_l in Hloop.
    exists data, fid'. unfold try_except. rewrite Hloop. reflexivity.
Qed.

Lemma read_series_buffered_total fuel h body :
  0 <= NT h -> 0 < NumOutChans h <= GoodBufferSize -> (Z.to_nat (NT h) < fuel)%nat ->
  (FileID h = FileFmtID_WithTime -> 4 * NT h <= Z.of_nat (List.length body)) ->
  nbytes (payload_type h) * (NT h * NumOutChans h)
  <= Z.of_nat (List.length (payload h body)) ->
  exists PackedTime data fid1,
    read_series fuel h true body = Return (PackedTime, data) fid1.
Proof.
  intros HNT Hchans Hfuel Htfit Hpfit. unfold read_series.
  destruct (read_packed_time_enough h body HNT Htfit) as (PackedTime & HPT).
  rewrite (bind_Return_eq _ _ _ _ _ HPT). cbv iota.
  unfold payload_type in Hpfit.
  destruct (FileID h =? FileFmtID_NoCompressWithoutTime);
    destruct (freadRowOrderTableBuffered_total fuel _ _ _ _ Hchans HNT Hfuel Hpfit)
      as (data & fid1 & Hdata);
    rewrite (bind_Return_eq _ _ _ _ _ Hdata);
    eexists; eexists; eexists; reflexivity.
Qed.

Lemma coef_item_total c k fid :
  (k < List.length (coef_list c))%nat ->
  coef_item c k fid = Return [nth k (coef_list c) 0%float] fid.
Proof.
  intros Hk. unfold coef_item.
  rewrite (nth_error_nth' _ 0%float Hk). reflexivity.
Qed.

Lemma set_col_total data j v fid :
  (j < ncols data)%nat -> (List.length v = nrows data \/ List.length v = 1%nat) ->
  exists data', set_col data j v fid = Return data' fid.
Proof.
  intros Hj Hv. unfold set_col, can_broadcast_to.
  destruct (Nat.ltb_spec j (ncols data)); [|lia].
  destruct (Nat.eqb_spec (List.length v) (nrows data)); cbn [orb].
  - eexists. reflexivity.
  - destruct (Nat.eqb_spec (List.length v) 1); [|lia]. eexists. reflexivity.
Qed.

Lemma scale_column_total h c data fid :
  (c < List.length (coef_list (ColScl h)))%nat ->
  (c < List.length (coef_list (ColOff h)))%nat ->
  (c + 1 < ncols data)%nat ->
  exists data', scale_column h c data fid = Return data' fid.
Proof.
  intros Hs Ho Hc. unfold scale_column.
  rewrite (bind_Return_eq _ _ _ _ _ (coef_item_total _ _ fid Hs)).
  rewrite (bind_Return_eq _ _ _ _ _ (coef_item_total _ _ fid Ho)).
  destruct (isnan1 _ && isnan1 _).
  - apply set_col_total; [exact Hc|right; reflexivity].
  - unfold get_col. destruct (Nat.ltb_spec (c + 1) (ncols data)); [|lia].
    unfold ret at 1. unfold bind at 1.
    rewrite (bind_Return_eq _ _ _ _ _ (np_binop1_scalar_r _ _ _ _)).
    rewrite (bind_Return_eq _ _ _ _ _ (np_binop1_scalar_r _ _ _ _)).
    apply set_col_total; [exact Hc|left]. rewrite !length_map. reflexivity.
Qed.

Lemma scale_columns_total h n :
  forall a data fid,
    wf data ->
    (a + n <= List.length (coef_list (ColScl h)))%nat ->
    (a + n <= List.length (coef_list (ColOff h)))%nat ->
    (a + n + 1 <= ncols data)%nat ->
    exists data', for_each (seq a n) (scale_column h) data fid = Return data' fid.
Proof.
  induction n as [|n IH]; intros a data fid Hwf Hs Ho Hc; cbn [seq for_each].
  - eexists. reflexivity.
  - destruct (scale_column_total h a data fid ltac:(lia) ltac:(lia) ltac:(lia))
      as (d1 & Hd1).
    rewrite (bind_Return_eq _ _ _ _ _ Hd1).
    apply scale_column_Return in Hd1; [|exact Hwf].
    destruct Hd1 as (_ & Hwf1 & _ & Hc1 & _).
    apply IH; [exact Hwf1|lia|lia|lia].
Qed.

Lemma scale_buffered_total h data time fid :
  header_shape h -> wf data ->
  nrows data = Z.to_nat (NT h) -> ncols data = (Z.to_nat (NumOutChans h) + 1)%nat ->
  List.length time = Z.to_nat (NT h) ->
  exists tbl, scale_data h true data time fid = Return tbl fid.
Proof.
  intros (_ & _ & _ & _ & Hcoef) Hwf Hrows Hcols Htime. unfold scale_data.
  assert (Hlen : List.length (coef_list (ColScl h)) = Z.to_nat (NumOutChans h)
                 /\ List.length (coef_list (ColOff h)) = Z.to_nat (NumOutChans h)).
  { destruct (FileID h =? FileFmtID_NoCompressWithoutTime).
    - destruct Hcoef as (-> & ->). cbn [coef_list]. rewrite !repeat_length. split; reflexivity.
    - destruct Hcoef as (s & o & -> & -> & Hs & Ho). cbn [coef_list]. split; assumption. }
  destruct Hlen as (Hs & Ho).
  destruct (scale_columns_total h (Z.to_nat (NumOutChans h)) 0 data fid Hwf
              ltac:(lia) ltac:(lia) ltac:(lia)) as (d1 & Hd1).
  rewrite (bind_Return_eq _ _ _ _ _ Hd1).
  apply scale_columns_Return in Hd1; [|exact Hwf].
  destruct Hd1 as (_ & _ & Hr1 & Hc1 & _).
  apply set_col_total; [lia|left; congruence].
Qed.

(** With between 1 and 163840 channels, a step count that is not negative,
    the packed time and the payload present in the file, and fuel above the
    step count, the buffered read returns. *)
Lemma ReadFASTbinary_buffered_total fuel filename content h region names units body :
  read_header content = Return h region ->
  read_channel_names h region = Return (names, units) body ->
  0 < NumOutChans h <= GoodBufferSize -> 0 <= NT h -> (Z.to_nat (NT h) < fuel)%nat ->
  (FileID h = FileFmtID_WithTime -> 4 * NT h <= Z.of_nat (List.length body)) ->
  nbytes (payload_type h) * (NT h * NumOutChans h)
  <= Z.of_nat (List.length (payload h body)) ->
  exists tbl fid',
    ReadFASTbinary fuel filename content true
    = Return (tbl, make_info filename h names units) fid'.
Proof.
  intros Hh Hnu Hchans HNT Hfuel Htfit Hpfit.
  pose proof (read_header_Return _ _ _ Hh) as Hshape.
  destruct (read_series_buffered_total fuel h body HNT Hchans Hfuel Htfit Hpfit)
    as (PackedTime & data & fid1 & Hseries).
  pose proof (read_series_Return _ _ _ _ _ _ _ Hshape HNT Hseries)
    as (HPT & Hwf & Hrows & Hcols & _).
  pose proof (reconstruct_time_eq h PackedTime fid1 Hshape) as Htime.
  pose proof (reconstruct_time_Return h body _ _ _ _ Hshape HNT HPT Htime)
    as (_ & Hlen & _).
  cbn [time_column] in Hcols.
  destruct (scale_buffered_total h data _ fid1 Hshape Hwf Hrows Hcols Hlen)
    as (tbl & Hscale).
  exists tbl, fid1. unfold ReadFASTbinary.
  rewrite (bind_Return_eq _ _ _ _ _ Hh), (bind_Return_eq _ _ _ _ _ Hnu).
  rewrite (bind_Return_eq _ _ _ _ _ Hseries), (bind_Return_eq _ _ _ _ _ Htime).
  rewrite (bind_Return_eq _ _ _ _ _ Hscale). reflexivity.
Qed.

(** The converse of [unbuffered_follows_buffered]: with between 1 and 163840
    channels, no sentinel channel and fuel above the step count, the
    buffered mode returns whatever the unbuffered mode returns. *)
Lemma buffered_follows_unbuffered fuel filename content tbl inf fid' :
  ReadFASTbinary fuel filename content false = Return (tbl, inf) fid' ->
  exists h region,
    read_header content = Return h region
    /\ (0 < NumOutChans h <= GoodBufferSize -> 0 <= NT h -> (Z.to_nat (NT h) < fuel)%nat ->
        (forall c, Z.of_nat c < NumOutChans h ->
           is_nan (nth c (coef_list (ColScl h)) 0%float)
           && is_nan (nth c (coef_list (ColOff h)) 0%float) = false) ->
        exists fid'', ReadFASTbinary fuel filename content true = Return (tbl, inf) fid'').
Proof.
  intros Hu. pose proof Hu as Hu'.
  apply ReadFASTbinary_table in Hu'.
  destruct Hu' as (h & region & names & units & body & Hh & Hnu & _ & Hinf & Htbl).
  exists h, region. split; [exact Hh|]. intros Hchans HNT Hfuel Hplain.
  destruct (Htbl HNT) as (_ & Htfit & Hpfit & _).
  destruct (ReadFASTbinary_buffered_total fuel filename content h region names units
              body Hh Hnu Hchans HNT Hfuel Htfit Hpfit) as (tb & fb & Hb).
  exists fb. rewrite Hb.
  destruct (modes_agree_without_sentinel _ _ _ _ _ _ _ _ _ Hb Hu)
    as (h' & region' & Hh' & Hi & Ht).
  rewrite Hh in Hh'. injection Hh' as <- <-.
  rewrite (Ht Hplain), Hi. reflexivity.
Qed.

(** ** A payload shorter than the header declares *)

Section BufferedLoopShort.

Variable t : dtype.
Variables C Lb R : nat.
Hypothesis HC : (0 < C)%nat.
Hypothesis HL : (0 < Lb)%nat.

(** The chunk that runs past the end of the file makes [struct.unpack]
    raise, with the file exhausted. *)
Lemma buffered_loop_short :
  forall fuel data dn fid,
    (dn <= R)%nat -> (R - dn < fuel)%nat ->
    ncols data = (C + 1)%nat -> nrows data = R ->
    (List.length fid < (R - dn) * C * Z.to_nat (nbytes t))%nat ->
    buffered_loop fuel (Z.of_nat R * Z.of_nat C) t (Z.of_nat C) 1
      (Z.of_nat C * Z.of_nat Lb) data (Z.of_nat dn * Z.of_nat C) (Z.of_nat dn) fid
    = Raise StructError [].
Proof.
  set (nb := Z.to_nat (nbytes t)).
  induction fuel as [|fuel IH]; intros data dn fid Hdn Hfuel Hcols Hrows Hshort; [lia|].
  assert (Hdn' : (dn < R)%nat).
  { destruct (Nat.eq_dec dn R) as [->|]; [rewrite Nat.sub_diag in Hshort; cbn in Hshort|]; lia. }
  cbn [buffered_loop].
  destruct (Z.ltb_spec (Z.of_nat dn * Z.of_nat C) (Z.of_nat R * Z.of_nat C)) as [Hlt|Hge];
    [|nia].
  set (k := Nat.min (R - dn) Lb).
  assert (Hk : (0 < k)%nat /\ (dn + k <= R)%nat) by (subst k; lia).
  assert (Hmin : Z.min (Z.of_nat R * Z.of_nat C - Z.of_nat dn * Z.of_nat C)
                       (Z.of_nat C * Z.of_nat Lb) = Z.of_nat (k * C)).
  { subst k. destruct (Nat.min_spec (R - dn) Lb) as [[Hm ->]|[Hm ->]]; nia. }
  rewrite Hmin.
  rewrite (bind_Return_eq _ _ _ _ _
             (int_div_Return (Z.of_nat (k * C)) (Z.of_nat C) fid ltac:(lia))).
  assert (Hq : Z.quot (Z.of_nat (k * C)) (Z.of_nat C) = Z.of_nat k).
  { rewrite Nat2Z.inj_mul. apply Z.quot_mul. lia. }
  rewrite Hq.
  assert (Hskip : Z.to_nat (nbytes t * Z.of_nat (k * C)) = (k * C * nb)%nat).
  { rewrite (nbytes_nat t), <- Nat2Z.inj_mul, Nat2Z.id. fold nb. lia. }
  assert (Hbytes : nbytes t * Z.of_nat (k * C) = Z.of_nat (k * C * nb)).
  { rewrite <- Hskip. rewrite Z2Nat.id; [reflexivity|]. pose proof (nbytes_pos t). lia. }
  destruct (Nat.le_gt_cases (k * C * nb) (List.length fid)) as [Henough|Hless].
  - rewrite (bind_Return_eq _ _ _ _ _
               (fread_enough (Z.of_nat (k * C)) t fid ltac:(lia) ltac:(lia))).
    rewrite Nat2Z.id, Hskip.
    set (items := unpack_items t (k * C) (firstn (k * C * nb) fid)).
    rewrite (bind_Return_eq _ _ _ _ _
               (reshape2_infer_rows (map (to_float64 t) items) C k _ HC
                  ltac:(rewrite length_map; apply unpack_items_length))).
    set (B := {| ncols := C; rows := chunk k C (map (to_float64 t) items) |}).
    rewrite (bind_Return_eq _ _ _ _ _
               (assign_block_fits data dn k C B _ ltac:(lia) Hcols
                  (chunk_length k C _) eq_refl)).
    replace (Z.of_nat dn * Z.of_nat C + Z.of_nat (k * C))
      with (Z.of_nat (dn + k) * Z.of_nat C) by lia.
    replace (Z.of_nat dn + Z.of_nat k) with (Z.of_nat (dn + k)) by lia.
    apply IH.
    + lia.
    + lia.
    + exact Hcols.
    + rewrite nrows_update_entries. exact Hrows.
    + rewrite length_skipn. fold nb.
      assert (Hsplit : ((R - dn) * C * nb = (R - (dn + k)) * C * nb + k * C * nb)%nat).
      { replace (R - dn)%nat with ((R - (dn + k)) + k)%nat by lia. lia. }
      lia.
  - apply bind_Raise_eq. apply fread_short; lia.
Qed.

End BufferedLoopShort.

Lemma freadRowOrderTableBuffered_short fuel t nCols nLines fid :
  0 < nCols <= GoodBufferSize -> 0 <= nLines -> (Z.to_nat nLines < fuel)%nat ->
  Z.of_nat (List.length fid) < nbytes t * (nLines * nCols) ->
  freadRowOrderTableBuffered fuel (nLines * nCols) t nCols 1 fid = Raise TypeError [].
Proof.
  intros Hc Hl Hfuel Hshort. unfold freadRowOrderTableBuffered.
  assert (Hne : nCols <> 0) by lia.
  rewrite (bind_Return_eq _ _ _ _ _ (int_div_Return _ _ fid Hne)).
  rewrite (bind_Return_eq _ _ _ _ _ (int_div_Return _ _ fid Hne)).
  rewrite Z.quot_mul by lia.
  set (L := Z.quot GoodBufferSize nCols).
  assert (HL : 1 <= L) by (apply Z.quot_le_lower_bound; lia).
  assert (Hbs : nCols * L <> 0) by nia.
  rewrite (bind_Return_eq _ _ _ _ _ (int_div_Return _ _ fid Hbs)).
  assert (Hzeros : np_full 0%float nLines (nCols + 1) fid
                   = Return {| ncols := Z.to_nat (nCols + 1);
                               rows := repeat (repeat 0%float (Z.to_nat (nCols + 1)))
                                              (Z.to_nat nLines) |} fid).
  { unfold np_full. destruct (Z.ltb_spec nLines 0); [lia|].
    destruct (Z.ltb_spec (nCols + 1) 0); [lia|]. reflexivity. }
  rewrite (bind_Return_eq _ _ _ _ _ Hzeros).
  pose proof (buffered_loop_short t (Z.to_nat nCols) (Z.to_nat L) (Z.to_nat nLines)
                ltac:(lia) ltac:(lia) fuel
                {| ncols := Z.to_nat (nCols + 1);
                   rows := repeat (repeat 0%float (Z.to_nat (nCols + 1))) (Z.to_nat nLines) |}
                0%nat fid) as Hloop.
  rewrite !Z2Nat.id in Hloop by lia. cbn [Z.of_nat] in Hloop. rewrite Z.mul_0_l in Hloop.
  unfold try_except. rewrite Hloop.
  - reflexivity.
  - lia.
  - lia.
  - cbn [ncols]. lia.
  - unfold nrows. cbn [rows]. apply repeat_length.
  - rewrite Nat.sub_0_r. rewrite (nbytes_nat t) in Hshort. nia.
Qed.

(** X15. Every file whose header and names are read and whose payload is shorter
    than declared fails in both modes, and in neither with the exceptions of
    lines 57 and 139: the buffered mode (between 1 and 163840 channels, fuel
    above the step count) raises [TypeError], the unbuffered mode
    [struct.error]. *)
Lemma truncated_payload_errors fuel filename content h region names units body :
  read_header content = Return h region ->
  read_channel_names h region = Return (names, units) body ->
  0 <= NT h ->
  (FileID h = FileFmtID_WithTime -> 4 * NT h <= Z.of_nat (List.length body)) ->
  Z.of_nat (List.length (payload h body))
  < nbytes (payload_type h) * (NT h * NumOutChans h) ->
  ReadFASTbinary fuel filename content false = Raise StructError []
  /\ (0 < NumOutChans h <= GoodBufferSize -> (Z.to_nat (NT h) < fuel)%nat ->
      ReadFASTbinary fuel filename content true = Raise TypeError []).
Proof.
  intros Hh Hnu HNT Htfit Hshort.
  pose proof (read_header_Return _ _ _ Hh) as (_ & Hchans & _).
  destruct (read_packed_time_enough h body HNT Htfit) as (PackedTime & HPT).
  unfold payload_type in Hshort.
  split; [|intros Hrange Hfuel]; unfold ReadFASTbinary;
    rewrite (bind_Return_eq _ _ _ _ _ Hh), (bind_Return_eq _ _ _ _ _ Hnu);
    apply bind_Raise_eq; unfold read_series;
    rewrite (bind_Return_eq _ _ _ _ _ HPT); cbv iota; apply bind_Raise_eq.
  - apply bind_Raise_eq.
    destruct (FileID h =? FileFmtID_NoCompressWithoutTime);
      apply bind_Raise_eq; apply fread_short; try exact Hshort; nia.
  - destruct (FileID h =? FileFmtID_NoCompressWithoutTime);
      apply freadRowOrderTableBuffered_short; assumption.
Qed.

(** ** What [fread] returns, for every file *)

Lemma unpack_items_firstn t c m fid :
  (c * Z.to_nat (nbytes t) <= m)%nat ->
  unpack_items t c (firstn m fid) = map (item t fid) (seq 0 c).
Proof.
  intros Hm. apply (nth_ext _ _ (item t fid 0) (item t fid 0)).
  - rewrite unpack_items_length, length_map, length_seq. reflexivity.
  - rewrite unpack_items_length. intros k Hk.
    rewrite nth_unpack_items by exact Hk.
    rewrite (nth_map_lt _ _ _ 0%nat) by (rewrite length_seq; exact Hk).
    rewrite seq_nth by exact Hk. cbn [Nat.add].
    apply item_firstn. nia.
Qed.

Lemma fread_enough_items n t fid :
  0 <= n -> nbytes t * n <= Z.of_nat (List.length fid) ->
  fread n t fid
  = Return (map (item t fid) (seq 0 (Z.to_nat n))) (skipn (Z.to_nat (nbytes t * n)) fid).
Proof.
  intros Hn Hlen. rewrite fread_enough by assumption. f_equal.
  apply unpack_items_firstn. pose proof (nbytes_pos t). nia.
Qed.

(** X1. [fread(fid, n, type)] with [n >= 0] takes exactly [nbytes * n] bytes:
    when the file holds them it returns the [n] consecutive values they
    encode and leaves the file right after them; when it holds fewer,
    [struct.unpack] raises [struct.error] and the file is left exhausted. *)
Theorem fread_reads_exactly n t fid :
  0 <= n ->
  (nbytes t * n <= Z.of_nat (List.length fid) ->
   fread n t fid
   = Return (map (item t fid) (seq 0 (Z.to_nat n))) (skipn (Z.to_nat (nbytes t * n)) fid))
  /\ (Z.of_nat (List.length fid) < nbytes t * n ->
      fread n t fid = Raise StructError []).
Proof.
  intros Hn. split; intros Hlen.
  - apply fread_enough_items; assumption.
  - apply fread_short; assumption.
Qed.

Lemma fread_reads_exactly_witness :
  (nbytes int16 * 2
   <= Z.of_nat (List.length (le_bytes 2 (-3) ++ le_bytes 2 517 ++ text "rest")) ->
   fread 2 int16 (le_bytes 2 (-3) ++ le_bytes 2 517 ++ text "rest")
   = Return (map (item int16 (le_bytes 2 (-3) ++ le_bytes 2 517 ++ text "rest"))
                 (seq 0 (Z.to_nat 2)))
            (skipn (Z.to_nat (nbytes int16 * 2))
                   (le_bytes 2 (-3) ++ le_bytes 2 517 ++ text "rest")))
  /\ (Z.of_nat (List.length (le_bytes 2 (-3) ++ le_bytes 2 517 ++ text "rest"))
      < nbytes int16 * 2 ->
      fread 2 int16 (le_bytes 2 (-3) ++ le_bytes 2 517 ++ text "rest")
      = Raise StructError []).
Proof.
  apply (fread_reads_exactly 2 int16 (le_bytes 2 (-3) ++ le_bytes 2 517 ++ text "rest")).
  lia.
Defined.



Lemma map_seq_shift {B} (f : nat -> B) a m :
  map f (seq a m) = map (fun k => f (a + k)%nat) (seq 0 m).
Proof.
  revert f a. induction m as [|m IH]; intros f a; [reflexivity|].
  cbn [seq map]. rewrite Nat.add_0_r. f_equal.
  rewrite (IH f (S a)), (IH (fun k => f (a + k)%nat) 1%nat).
  apply map_ext. intros k. f_equal. lia.
Qed.

(** X3. Reading in chunks is reading at once: [n] values and then [m] more
    give, joined, what one read of [n + m] values gives, leave the file at
    the same place, and fail the same way when the file is too short.  This
    is what lets the buffered loop read the payload piece by piece. *)
Theorem fread_chunks_compose n m t fid :
  0 <= n -> 0 <= m ->
  (a <- fread n t ;; b <- fread m t ;; ret (a ++ b)) fid = fread (n + m) t fid.
Proof.
  intros Hn Hm. pose proof (nbytes_pos t) as Hb.
  assert (Hnm : 0 <= n + m) by lia.
  destruct (Z.le_gt_cases (nbytes t * n) (Z.of_nat (List.length fid))) as [H1|H1].
  - rewrite (bind_Return_eq _ _ _ _ _ (fread_enough_items n t fid Hn H1)).
    set (rest := skipn (Z.to_nat (nbytes t * n)) fid).
    assert (Hrest : Z.of_nat (List.length rest) = Z.of_nat (List.length fid) - nbytes t * n).
    { unfold rest. rewrite length_skipn. lia. }
    destruct (Z.le_gt_cases (nbytes t * (n + m)) (Z.of_nat (List.length fid))) as [H2|H2].
    + assert (H3 : nbytes t * m <= Z.of_nat (List.length rest)) by lia.
      rewrite (bind_Return_eq _ _ _ _ _ (fread_enough_items m t rest Hm H3)).
      rewrite (fread_enough_items (n + m) t fid Hnm H2).
      unfold ret. f_equal.
      * replace (Z.to_nat (n + m)) with (Z.to_nat n + Z.to_nat m)%nat by lia.
        rewrite seq_app, map_app. f_equal. cbn [Nat.add].
        rewrite (map_seq_shift (item t fid)).
        apply map_ext. intros k. unfold rest.
        replace (Z.to_nat (nbytes t * n)) with (Z.to_nat n * Z.to_nat (nbytes t))%nat by nia.
        apply item_skipn.
      * unfold rest. rewrite skipn_skipn. f_equal. nia.
    + assert (H3 : Z.of_nat (List.length rest) < nbytes t * m) by lia.
      rewrite (bind_Raise_eq _ _ _ _ _ (fread_short m t rest Hm H3)).
      rewrite (fread_short (n + m) t fid Hnm H2). reflexivity.
  - assert (H2 : Z.of_nat (List.length fid) < nbytes t * (n + m)) by nia.
    rewrite (bind_Raise_eq _ _ _ _ _ (fread_short n t fid Hn H1)).
    rewrite (fread_short (n + m) t fid Hnm H2). reflexivity.
Qed.

Lemma fread_chunks_compose_witness :
  (a <- fread 1 int16 ;; b <- fread 2 int16 ;; ret (a ++ b))
    (le_bytes 2 (-3) ++ le_bytes 2 517 ++ text "rest")
  = fread (1 + 2) int16 (le_bytes 2 (-3) ++ le_bytes 2 517 ++ text "rest").
Proof.
  apply (fread_chunks_compose 1 2 int16 (le_bytes 2 (-3) ++ le_bytes 2 517 ++ text "rest"));
    lia.
Defined.

(** ** The layout of the header *)

Lemma value_at_skipn t content a b :
  value_at t (skipn a content) b = value_at t content (a + b).
Proof. unfold value_at. rewrite skipn_skipn. do 3 f_equal. lia. Qed.

Lemma item_value_at t fid k : item t fid k = value_at t fid (k * Z.to_nat (nbytes t)).
Proof. reflexivity. Qed.

(** The one-element tuple [fread(fid, 1, t)] at offset [a]. *)
Lemma fread_one_at t (a : nat) content l fid' :
  fread 1 t (skipn a content) = Return l fid' ->
  l = [value_at t content a]
  /\ fid' = skipn (a + Z.to_nat (nbytes t)) content
  /\ (a + Z.to_nat (nbytes t) <= List.length content)%nat.
Proof.
  intros Hr.
  pose proof (fread_one_Return _ _ _ _ Hr) as (v & ->).
  apply (fread_Return 1 t) in Hr; [|lia].
  destruct Hr as (_ & Hnth & -> & Hfit).
  specialize (Hnth 0%nat v ltac:(lia)). cbn [nth] in Hnth.
  rewrite item_value_at, value_at_skipn in Hnth. cbn [Nat.mul] in Hnth.
  rewrite Nat.add_0_r in Hnth. subst v.
  rewrite length_skipn in Hfit. rewrite skipn_skipn.
  pose proof (nbytes_pos t).
  split; [reflexivity|]. split; [f_equal; lia|lia].
Qed.

(** One value read, as [fread(fid, 1, t)[0]] does. *)
Lemma read_scalar_Return t (a : nat) content l x fid' fid'' :
  fread 1 t (skipn a content) = Return l fid' ->
  item0 l fid' = Return x fid'' ->
  x = value_at t content a
  /\ fid'' = skipn (a + Z.to_nat (nbytes t)) content
  /\ (a + Z.to_nat (nbytes t) <= List.length content)%nat.
Proof.
  intros Hr Hi. apply fread_one_at in Hr. destruct Hr as (-> & -> & Hfit).
  apply item0_Return in Hi. destruct Hi as (-> & l' & Hl). injection Hl as <- _.
  split; [reflexivity|]. split; [reflexivity|exact Hfit].
Qed.

(** X4. The byte layout of a header that was read.  The format id is the
    16-bit integer at offset 0; format 4 has the length of the names as a
    16-bit integer at offset 2; then come the channel count and the step
    count as 32-bit integers, two 64-bit floats (time scale and offset in
    format 1, first time and increment otherwise), unless the format is 3
    the 32-bit scales of all channels followed by their 32-bit offsets, the
    32-bit length of the description and the description itself, whose
    characters are kept with the whitespace at both ends removed.  The
    names start right after the description, and all of this lies within
    the file. *)
Theorem header_layout content h region :
  read_header content = Return h region ->
  let o := if FileID h =? FileFmtID_ChanLen_In then 4%nat else 2%nat in
  let C := Z.to_nat (NumOutChans h) in
  let d := (o + 24 + if (FileID h =? FileFmtID_NoCompressWithoutTime)%Z then 0 else 8 * C)%nat in
  let LenDesc := Z.to_nat (value_at int32 content d) in
  FileID h = value_at int16 content 0
  /\ (FileID h = FileFmtID_ChanLen_In -> LenName h = value_at int16 content 2)
  /\ NumOutChans h = value_at int32 content o
  /\ NT h = value_at int32 content (o + 4)
  /\ TimeEnc h
     = (if FileID h =? FileFmtID_WithTime
        then PackedTimeEnc [value_at float64 content (o + 8)]
                           [value_at float64 content (o + 16)]
        else ComputedTimeEnc [value_at float64 content (o + 8)]
                             [value_at float64 content (o + 16)])
  /\ (FileID h <> FileFmtID_NoCompressWithoutTime ->
      forall c, (c < C)%nat ->
        nth c (coef_list (ColScl h)) 0%float = value_at float32 content (o + 24 + 4 * c)
        /\ nth c (coef_list (ColOff h)) 0%float
           = value_at float32 content (o + 24 + 4 * C + 4 * c))
  /\ DescStr h = strip (join_chr (codes (firstn LenDesc (skipn (d + 4) content))))
  /\ region = skipn (d + 4 + LenDesc) content
  /\ (d + 4 + LenDesc <= List.length content)%nat.
Proof.
  intros H. pose proof (read_header_Return _ _ _ H) as Hshape.
  unfold read_header in H.
  change content with (skipn 0 content) in H at 1.
  inv_bind H as l0 f0 Hl0. inv_bind H as id f1 Hid0.
  destruct (read_scalar_Return _ _ _ _ _ _ _ Hl0 Hid0) as (Hid & -> & Hfit0).
  clear Hl0 Hid0.
  destruct (existsb (Z.eqb id) _) eqn:Hin; cbn [negb] in H; [|discriminate].
  inv_bind H as len f2 Hlen.
  set (o := if id =? FileFmtID_ChanLen_In then 4%nat else 2%nat).
  assert (Hf2 : f2 = skipn o content
                /\ (id = FileFmtID_ChanLen_In -> len = value_at int16 content 2)).
  { unfold o. destruct (Z.eqb_spec id FileFmtID_ChanLen_In) as [E|E].
    - inv_bind Hlen as l f Hl.
      destruct (read_scalar_Return _ _ _ _ _ _ _ Hl Hlen) as (Hv & -> & _).
      split; [reflexivity|]. intros _. exact Hv.
    - inv_ret Hlen. split; [reflexivity|]. intros E'. contradiction. }
  destruct Hf2 as (-> & Hlenv). clear Hlen.
  inv_bind H as l1 f3 Hl1. inv_bind H as chans f4 Hchans0.
  destruct (read_scalar_Return _ _ _ _ _ _ _ Hl1 Hchans0) as (Hchans & -> & _).
  clear Hl1 Hchans0.
  inv_bind H as l2 f5 Hl2. inv_bind H as nt f6 Hnt0.
  destruct (read_scalar_Return _ _ _ _ _ _ _ Hl2 Hnt0) as (Hnt & -> & _).
  clear Hl2 Hnt0.
  inv_bind H as tenc f7 Htime.
  assert (Ht : f7 = skipn (o + 24) content
               /\ tenc = (if id =? FileFmtID_WithTime
                          then PackedTimeEnc [value_at float64 content (o + 8)]
                                             [value_at float64 content (o + 16)]
                          else ComputedTimeEnc [value_at float64 content (o + 8)]
                                               [value_at float64 content (o + 16)])).
  { cbn [nbytes] in Htime.
    replace (o + Z.to_nat 4 + Z.to_nat 4)%nat with (o + 8)%nat in Htime by lia.
    destruct (id =? FileFmtID_WithTime).
    - inv_bind Htime as s fs Hs. apply fread_one_at in Hs. destruct Hs as (-> & -> & _).
      inv_bind Htime as t' ft Ho. apply fread_one_at in Ho. destruct Ho as (-> & -> & _).
      inv_ret Htime. cbn [nbytes].
      replace (o + 8 + Z.to_nat 8)%nat with (o + 16)%nat by lia.
      split; [f_equal; lia|reflexivity].
    - inv_bind Htime as s fs Hs. apply fread_one_at in Hs. destruct Hs as (-> & -> & _).
      inv_bind Htime as t' ft Ho. apply fread_one_at in Ho. destruct Ho as (-> & -> & _).
      inv_ret Htime. cbn [nbytes].
      replace (o + 8 + Z.to_nat 8)%nat with (o + 16)%nat by lia.
      split; [f_equal; lia|reflexivity]. }
  destruct Ht as (-> & Htenc). clear Htime.
  inv_bind H as coefs f8 Hcoef. destruct coefs as [scl off].
  inv_bind H as l3 f9 Hdesc1. inv_bind H as lendesc f10 Hdesc2.
  inv_bind H as desc f11 Hdesc3.
  apply ret_Return in H. destruct H as [<- <-].
  destruct Hshape as (_ & HC & _ & _ & _).
  cbn [FileID LenName NumOutChans NT TimeEnc ColScl ColOff DescStr] in *.
  set (C := Z.to_nat chans).
  set (cs := if id =? FileFmtID_NoCompressWithoutTime then 0%nat else (8 * C)%nat).
  assert (Hc : f8 = skipn (o + 24 + cs) content
               /\ (id <> FileFmtID_NoCompressWithoutTime ->
                   forall c, (c < C)%nat ->
                     nth c (coef_list scl) 0%float = value_at float32 content (o + 24 + 4 * c)
                     /\ nth c (coef_list off) 0%float
                        = value_at float32 content (o + 24 + 4 * C + 4 * c))).
  { unfold cs. destruct (Z.eqb_spec id FileFmtID_NoCompressWithoutTime) as [E|E].
    - inv_bind Hcoef as s fs Hs. inv_bind Hcoef as t' ft Ho. inv_ret Hcoef.
      apply np_column_Return in Hs, Ho.
      destruct Hs as (-> & _). destruct Ho as (-> & _).
      split; [f_equal; lia|]. intros E'. contradiction.
    - inv_bind Hcoef as s fs Hs. inv_bind Hcoef as t' ft Ho. inv_ret Hcoef.
      apply (fread_Return _ _ _ _ _ HC) in Hs. destruct Hs as (_ & Hsn & -> & _).
      rewrite skipn_skipn in Ho.
      apply (fread_Return _ _ _ _ _ HC) in Ho. destruct Ho as (_ & Hon & -> & _).
      rewrite skipn_skipn. cbn [nbytes coef_list].
      split; [f_equal; lia|]. intros _ c Hc.
      split.
      + etransitivity; [exact (Hsn c 0%float Hc)|].
        rewrite item_value_at, value_at_skipn. cbn [nbytes]. f_equal. lia.
      + etransitivity; [exact (Hon c 0%float Hc)|].
        rewrite item_value_at, value_at_skipn. cbn [nbytes]. f_equal. lia. }
  destruct Hc as (-> & Hcoefs). clear Hcoef.
  destruct (read_scalar_Return _ _ _ _ _ _ _ Hdesc1 Hdesc2) as (Hld & -> & Hfitd).
  clear Hdesc1 Hdesc2. cbn [nbytes] in *.
  apply fread_uint8_Return in Hdesc3 as Hdesc. destruct Hdesc as (-> & ->).
  assert (Hfit : (o + 24 + cs + 4 + Z.to_nat lendesc <= List.length content)%nat).
  { destruct (Z.ltb_spec lendesc 0) as [Hneg|Hpos]; [lia|].
    apply (fread_Return _ _ _ _ _ Hpos) in Hdesc3.
    destruct Hdesc3 as (_ & _ & _ & Hb). rewrite length_skipn in Hb.
    cbn [nbytes] in Hb. lia. }
  cbv zeta. fold o. fold C. fold cs.
  replace (o + 24 + cs + Z.to_nat 4)%nat with (o + 24 + cs + 4)%nat in * by lia.
  rewrite <- Hld.
  split; [exact Hid|]. split; [exact Hlenv|]. split; [exact Hchans|].
  split; [exact Hnt|]. split; [exact Htenc|]. split; [exact Hcoefs|].
  split; [reflexivity|]. split; [|exact Hfit].
  rewrite skipn_skipn. f_equal. lia.
Qed.

Lemma header_layout_witness :
  exists h region,
    read_header sample_fmt2 = Return h region
    /\ FileID h = value_at int16 sample_fmt2 0
    /\ NumOutChans h = value_at int32 sample_fmt2 2
    /\ NT h = value_at int32 sample_fmt2 6
    /\ DescStr h = strip (join_chr (codes (firstn 6 (skipn 46 sample_fmt2))))
    /\ region = skipn 52 sample_fmt2.
Proof.
  eexists. eexists. split; [vm_compute; reflexivity|].
  match goal with
  | |- context [NumOutChans ?h] =>
      pose proof (header_layout sample_fmt2 h
                    (skipn 52 sample_fmt2) ltac:(vm_compute; reflexivity)) as H
  end.
  cbv zeta in H. destruct H as (Hi & _ & Hc & Hn & _ & _ & Hd & Hr & _).
  split; [exact Hi|]. split; [exact Hc|]. split; [exact Hn|].
  split; [|vm_compute; reflexivity]. vm_compute. reflexivity.
Defined.

(** X5. What every header that was read satisfies: the format is 1, 2, 3 or
    4; the channel count is not negative (a negative count makes the read
    of the scales, or [np.ones], fail); names are ten bytes long unless the
    format is 4; the time encoding is a pair of one-element tuples; and
    there are as many scales and offsets as channels, all ones and all
    zeros in format 3. *)
Theorem header_is_well_formed content h region :
  read_header content = Return h region -> header_shape h.
Proof. apply read_header_Return. Qed.

Lemma header_is_well_formed_witness : header_shape sample_no_channel_header.
Proof.
  apply (header_is_well_formed sample_fmt2_no_channel sample_no_channel_header
           (text "Time      " ++ text "(s)       ")).
  vm_compute. reflexivity.
Defined.

(** ** Names and the description carry no outer whitespace *)

Lemma lstrip_split s :
  exists w, s = w ++ lstrip s /\ forallb isspace w = true.
Proof.
  induction s as [|c s IH]; [exists []; split; reflexivity|].
  cbn [lstrip]. destruct (isspace c) eqn:Hc.
  - destruct IH as (w & Hw & Hall). exists (c :: w). split.
    + cbn. f_equal. exact Hw.
    + cbn. rewrite Hc. exact Hall.
  - exists []. split; reflexivity.
Qed.

Lemma lstrip_head s c r : lstrip s = c :: r -> isspace c = false.
Proof.
  induction s as [|x s IH]; cbn [lstrip]; [discriminate|].
  destruct (isspace x) eqn:Hx; [exact IH|].
  intros H. injection H as <- <-. exact Hx.
Qed.

Lemma trimmed_strip s : trimmed (strip s) = true.
Proof.
  unfold strip, rstrip.
  destruct (lstrip_split (rev (lstrip s))) as (w & Hw & _).
  destruct (lstrip (rev (lstrip s))) as [|x r] eqn:Hb; [reflexivity|].
  pose proof (lstrip_head _ _ _ Hb) as Hx.
  assert (Ha : lstrip s = rev (x :: r) ++ rev w).
  { rewrite <- rev_app_distr, <- Hw, rev_involutive. reflexivity. }
  cbn [rev] in *.
  destruct (rev r ++ [x]) as [|c q] eqn:Hq.
  { destruct (rev r); discriminate. }
  unfold trimmed.
  rewrite <- Hq at 1. rewrite last_last, Hx.
  cbn [app] in Ha. rewrite (lstrip_head _ _ _ Ha). reflexivity.
Qed.

Lemma Forall_nth_lt {A} (P : A -> Prop) (l : list A) d :
  (forall k, (k < List.length l)%nat -> P (nth k l d)) -> Forall P l.
Proof.
  intros H. apply Forall_forall. intros x Hx.
  destruct (In_nth _ _ d Hx) as (k & Hk & <-). apply H. exact Hk.
Qed.

(** X6. The description and every channel name of the metadata went
    through [strip()]: none of them starts or ends with a whitespace
    character. *)
Theorem names_are_trimmed fuel filename content use_buffer tbl inf fid' :
  ReadFASTbinary fuel filename content use_buffer = Return (tbl, inf) fid' ->
  trimmed (description inf) = true
  /\ Forall (fun s => trimmed s = true) (attribute_names inf).
Proof.
  intros H. apply ReadFASTbinary_Return in H.
  destruct H as (h & region & names & units & body & PackedTime & data & fid1 & time
                 & fid2 & fid3 & Hh & Hnu & _ & _ & _ & ->).
  cbn [make_info description attribute_names]. split.
  - unfold read_header in Hh.
    inv_bind Hh as l0 f0 Hl0. inv_bind Hh as id f1 Hid0.
    destruct (negb _); [discriminate|].
    inv_bind Hh as len f2 Hlen.
    inv_bind Hh as l1 f3 Hl1. inv_bind Hh as chans f4 Hchans0.
    inv_bind Hh as l2 f5 Hl2. inv_bind Hh as nt f6 Hnt.
    inv_bind Hh as tenc f7 Htime.
    inv_bind Hh as coefs f8 Hcoef. destruct coefs as [scl off].
    inv_bind Hh as l3 f9 Hdesc1. inv_bind Hh as lendesc f10 Hdesc2.
    inv_bind Hh as desc f11 Hdesc3. inv_ret Hh.
    cbn [DescStr]. apply trimmed_strip.
  - apply read_channel_names_Return in Hnu.
    destruct Hnu as (Hlen & _ & Hnames & _).
    apply (Forall_nth_lt _ _ []). intros k Hk.
    rewrite Hnames by (rewrite <- Hlen; exact Hk).
    apply trimmed_strip.
Qed.

Lemma names_are_trimmed_witness :
  trimmed (description sample_fmt2_info) = true
  /\ Forall (fun s => trimmed s = true) (attribute_names sample_fmt2_info).
Proof.
  apply (names_are_trimmed 10 sample_name sample_fmt2 true
           (sample_fmt2_table 0) sample_fmt2_info []).
  vm_compute. reflexivity.
Defined.

(** ** The name of the file in the metadata *)

Lemma take_until_app c a b :
  has_char c a = false -> take_until c (a ++ c :: b) = a.
Proof.
  unfold has_char. induction a as [|x a IH]; cbn.
  - intros _. unfold is_char. rewrite Ascii.eqb_refl. reflexivity.
  - destruct (is_char c x); cbn; [discriminate|]. intros H. rewrite IH by exact H. reflexivity.
Qed.

Lemma take_until_none c a : has_char c a = false -> take_until c a = a.
Proof.
  unfold has_char. induction a as [|x a IH]; cbn; [reflexivity|].
  destruct (is_char c x); cbn; [discriminate|]. intros H. rewrite IH by exact H. reflexivity.
Qed.

Lemma drop_until_app c a b :
  has_char c a = false -> drop_until c (a ++ c :: b) = c :: b.
Proof.
  unfold has_char. induction a as [|x a IH]; cbn.
  - intros _. unfold is_char. rewrite Ascii.eqb_refl. reflexivity.
  - destruct (is_char c x); cbn; [discriminate|]. exact IH.
Qed.

Lemma has_char_rev c a : has_char c (rev a) = has_char c a.
Proof.
  unfold has_char. induction a as [|x a IH]; [reflexivity|].
  cbn [rev]. rewrite existsb_app, IH. cbn. rewrite orb_false_r. apply orb_comm.
Qed.

Lemma forallb_rev {A} (f : A -> bool) l : forallb f (rev l) = forallb f l.
Proof.
  induction l as [|x l IH]; [reflexivity|].
  cbn [rev]. rewrite forallb_app, IH. cbn. rewrite andb_true_r. apply andb_comm.
Qed.

Lemma basename_of_path dir b :
  has_char "/"%char b = false ->
  basename b = b /\ basename (dir ++ "/"%char :: b) = b.
Proof.
  intros Hb. unfold basename. split.
  - rewrite take_until_none by (rewrite has_char_rev; exact Hb). apply rev_involutive.
  - rewrite rev_app_distr. cbn [rev]. rewrite <- app_assoc. cbn [app].
    rewrite take_until_app by (rewrite has_char_rev; exact Hb). apply rev_involutive.
Qed.

Lemma splitext_root_of_name stem ext :
  has_char "."%char ext = false ->
  forallb (is_char "."%char) stem = false ->
  splitext_root (stem ++ "."%char :: ext) = stem.
Proof.
  intros Hext Hstem. unfold splitext_root.
  rewrite rev_app_distr. cbn [rev]. rewrite <- app_assoc. cbn [app].
  rewrite drop_until_app by (rewrite has_char_rev; exact Hext).
  rewrite forallb_rev, Hstem. apply rev_involutive.
Qed.

(** X7. Line 165 composes [os.path.basename] and [os.path.splitext]: for a
    path [dir/stem.ext] whose [stem] and [ext] hold no slash, whose [ext]
    holds no dot and whose [stem] is not made of dots only, the metadata of
    a successful read are named [stem], whatever the directory, the
    extension and the content of the file. *)
Theorem info_name_of_path fuel dir stem ext content use_buffer tbl inf fid' :
  has_char "/"%char stem = false ->
  has_char "/"%char ext = false ->
  has_char "."%char ext = false ->
  forallb (is_char "."%char) stem = false ->
  ReadFASTbinary fuel (dir ++ "/"%char :: stem ++ "."%char :: ext) content use_buffer
  = Return (tbl, inf) fid' ->
  name inf = stem.
Proof.
  intros Hs He Hdot Hstem H. apply ReadFASTbinary_Return in H.
  destruct H as (h & region & names & units & body & PackedTime & data & fid1 & time
                 & fid2 & fid3 & _ & _ & _ & _ & _ & ->).
  cbn [make_info name].
  assert (Hb : has_char "/"%char (stem ++ "."%char :: ext) = false).
  { unfold has_char in *. rewrite existsb_app, Hs. cbn. exact He. }
  destruct (basename_of_path dir _ Hb) as (_ & ->).
  apply splitext_root_of_name; assumption.
Qed.

Lemma info_name_of_path_witness : name sample_fmt2_info = pystr "run.1".
Proof.
  apply (info_name_of_path 10 (pystr "/sim/IEA15MW_03") (pystr "run.1") (pystr "outb")
           sample_fmt2 true (sample_fmt2_table 0) sample_fmt2_info []);
    vm_compute; reflexivity.
Defined.

(** ** The table and its metadata, for every file *)

(** X8. Whenever a read returns: the metadata carry the format id of the
    header and one name and one unit per column, time included; if the step
    count is not negative the table is rectangular, with as many rows as
    steps and as many columns as names; and the buffered mode returns only
    for a step count that is not negative and a channel count between 1 and
    163840. *)
Theorem table_columns_match_names fuel filename content use_buffer tbl inf fid' :
  ReadFASTbinary fuel filename content use_buffer = Return (tbl, inf) fid' ->
  exists h region,
    read_header content = Return h region
    /\ fileID inf = FileID h
    /\ List.length (attribute_names inf) = Z.to_nat (NumOutChans h + 1)
    /\ List.length (attribute_units inf) = Z.to_nat (NumOutChans h + 1)
    /\ (0 <= NT h ->
        wf tbl /\ nrows tbl = Z.to_nat (NT h)
        /\ ncols tbl = List.length (attribute_names inf))
    /\ (use_buffer = true -> 0 <= NT h /\ 0 < NumOutChans h <= GoodBufferSize).
Proof.
  intros H. pose proof H as H'.
  apply ReadFASTbinary_Return in H'.
  destruct H' as (h & region & names & units & body & PackedTime & data & fid1 & time
                  & fid2 & fid3 & Hh & Hnu & Hseries & _ & _ & Hinf).
  apply ReadFASTbinary_table in H.
  destruct H as (h' & region' & names' & units' & body' & Hh' & Hnu' & Hshape & _ & Htbl).
  rewrite Hh in Hh'. injection Hh' as <- <-.
  rewrite Hnu in Hnu'. injection Hnu' as <- <- <-.
  pose proof Hshape as (_ & Hchans & _).
  apply read_channel_names_Return in Hnu. cbv zeta in Hnu.
  destruct Hnu as (Hln & Hlu & _).
  exists h, region. subst inf. cbn [make_info fileID attribute_names attribute_units].
  split; [exact Hh|]. split; [reflexivity|]. split; [exact Hln|]. split; [exact Hlu|].
  split.
  - intros HNT. destruct (Htbl HNT) as (_ & _ & _ & Hwf & Hrows & Hcols & _).
    split; [exact Hwf|]. split; [exact Hrows|]. rewrite Hcols, Hln. lia.
  - intros ->.
    pose proof (read_series_buffered_steps _ _ _ _ _ _ Hchans Hseries) as HNT.
    split; [exact HNT|]. destruct (Htbl HNT) as (Hr & _). apply Hr. reflexivity.
Qed.

Lemma table_columns_match_names_witness :
  exists h region,
    read_header sample_fmt2 = Return h region
    /\ fileID sample_fmt2_info = FileID h
    /\ List.length (attribute_names sample_fmt2_info) = Z.to_nat (NumOutChans h + 1)
    /\ List.length (attribute_units sample_fmt2_info) = Z.to_nat (NumOutChans h + 1)
    /\ (0 <= NT h ->
        wf (sample_fmt2_table 0) /\ nrows (sample_fmt2_table 0) = Z.to_nat (NT h)
        /\ ncols (sample_fmt2_table 0) = List.length (attribute_names sample_fmt2_info))
    /\ (true = true -> 0 <= NT h /\ 0 < NumOutChans h <= GoodBufferSize).
Proof.
  apply (table_columns_match_names 10 sample_name sample_fmt2 true
           (sample_fmt2_table 0) sample_fmt2_info []).
  vm_compute. reflexivity.
Defined.

(** X9. A file that holds what its header declares is read.  Once the header
    and the names are read, with a step count that is not negative, the
    packed time present in format 1 and the payload complete, the
    unbuffered mode returns for the formats 1, 2 and 4, and the buffered
    mode for 1 to 163840 channels (the loop needing no more iterations than
    steps); the table has one row per step and one column per channel after
    the time, and the metadata are built from the header and the names. *)
Theorem complete_file_is_read
    fuel filename content h region names units body use_buffer :
  read_header content = Return h region ->
  read_channel_names h region = Return (names, units) body ->
  0 <= NT h ->
  (FileID h = FileFmtID_WithTime -> 4 * NT h <= Z.of_nat (List.length body)) ->
  nbytes (payload_type h) * (NT h * NumOutChans h)
  <= Z.of_nat (List.length (payload h body)) ->
  (use_buffer = true ->
   0 < NumOutChans h <= GoodBufferSize /\ (Z.to_nat (NT h) < fuel)%nat) ->
  (use_buffer = false -> FileID h <> FileFmtID_NoCompressWithoutTime) ->
  exists tbl fid',
    ReadFASTbinary fuel filename content use_buffer
    = Return (tbl, make_info filename h names units) fid'
    /\ wf tbl
    /\ nrows tbl = Z.to_nat (NT h)
    /\ ncols tbl = (Z.to_nat (NumOutChans h) + 1)%nat.
Proof.
  intros Hh Hnu HNT Htfit Hpfit Hbuf Hunbuf.
  assert (Hread : exists tbl fid',
            ReadFASTbinary fuel filename content use_buffer
            = Return (tbl, make_info filename h names units) fid').
  { destruct use_buffer.
    - destruct (Hbuf eq_refl) as (Hrange & Hfuel).
      eapply ReadFASTbinary_buffered_total; eassumption.
    - eapply ReadFASTbinary_unbuffered_total; try eassumption. exact (Hunbuf eq_refl). }
  destruct Hread as (tbl & fid' & Hread). exists tbl, fid'. split; [exact Hread|].
  apply ReadFASTbinary_table in Hread.
  destruct Hread as (h' & region' & names' & units' & body' & Hh' & _ & _ & _ & Htbl).
  rewrite Hh in Hh'. injection Hh' as <- <-.
  destruct (Htbl HNT) as (_ & _ & _ & Hwf & Hrows & Hcols & _).
  split; [exact Hwf|]. split; [exact Hrows|exact Hcols].
Qed.

Lemma complete_file_is_read_witness :
  exists h names units tbl fid',
    ReadFASTbinary 10 sample_name sample_fmt1 true
    = Return (tbl, make_info sample_name h names units) fid'
    /\ wf tbl
    /\ nrows tbl = Z.to_nat (NT h)
    /\ ncols tbl = (Z.to_nat (NumOutChans h) + 1)%nat.
Proof.
  eexists. eexists. eexists.
  eapply (complete_file_is_read 10 sample_name sample_fmt1).
  - vm_compute. reflexivity.
  - vm_compute. reflexivity.
  - vm_compute. discriminate.
  - intros _. vm_compute. discriminate.
  - vm_compute. discriminate.
  - intros _. vm_compute. split; [split; [reflexivity|discriminate]|lia].
  - discriminate.
Defined.


(** ** The two modes, for every file *)

(** X10. When both modes return for the same file they return the same
    metadata and the same time column; the entries of a channel are the same
    unless its scale and offset are both not-a-number, and the tables are
    equal when no channel is of that kind. *)
Theorem successful_modes_agree fuel filename content tb ib fb tu iu fu :
  ReadFASTbinary fuel filename content true = Return (tb, ib) fb ->
  ReadFASTbinary fuel filename content false = Return (tu, iu) fu ->
  ib = iu
  /\ exists h region,
       read_header content = Return h region
       /\ (no_sentinel h -> tb = tu)
       /\ forall i c, Z.of_nat i < NT h -> Z.of_nat c < NumOutChans h ->
            get2 tb i 0 = get2 tu i 0
            /\ (is_nan (nth c (coef_list (ColScl h)) 0%float)
                && is_nan (nth c (coef_list (ColOff h)) 0%float) = false ->
                get2 tb i (c + 1) = get2 tu i (c + 1)).
Proof.
  intros Hb Hu.
  destruct (modes_agree_without_sentinel _ _ _ _ _ _ _ _ _ Hb Hu)
    as (h & region & Hh & Hinf & Htbl).
  split; [exact Hinf|]. exists h, region. split; [exact Hh|]. split; [exact Htbl|].
  intros i c Hi Hc.
  apply ReadFASTbinary_table in Hb, Hu.
  destruct Hb as (h1 & region1 & names & units & body & Hh1 & Hnu & _ & _ & Hb).
  destruct Hu as (h2 & region2 & names' & units' & body' & Hh2 & Hnu' & _ & _ & Hu).
  rewrite Hh in Hh1, Hh2. injection Hh1 as <- <-. injection Hh2 as <- <-.
  rewrite Hnu in Hnu'. injection Hnu' as <- <- <-.
  destruct (Hb ltac:(lia)) as (_ & _ & _ & _ & _ & _ & Hentb).
  destruct (Hu ltac:(lia)) as (_ & _ & _ & _ & _ & _ & Hentu).
  destruct (Hentb i ltac:(lia)) as (Htb & Hchb).
  destruct (Hentu i ltac:(lia)) as (Htu & Hchu).
  split; [rewrite Htb, Htu; reflexivity|].
  intros Hplain. rewrite Hchb, Hchu by lia.
  unfold table_entry, dequantize. rewrite Hplain. reflexivity.
Qed.

Lemma successful_modes_agree_witness :
  sample_fmt2_info = sample_fmt2_info
  /\ exists h region,
       read_header sample_fmt2 = Return h region
       /\ (no_sentinel h -> sample_fmt2_table 0 = sample_fmt2_table nan)
       /\ forall i c, Z.of_nat i < NT h -> Z.of_nat c < NumOutChans h ->
            get2 (sample_fmt2_table 0) i 0 = get2 (sample_fmt2_table nan) i 0
            /\ (is_nan (nth c (coef_list (ColScl h)) 0%float)
                && is_nan (nth c (coef_list (ColOff h)) 0%float) = false ->
                get2 (sample_fmt2_table 0) i (c + 1) = get2 (sample_fmt2_table nan) i (c + 1)).
Proof.
  apply (successful_modes_agree 10 sample_name sample_fmt2
           (sample_fmt2_table 0) sample_fmt2_info []
           (sample_fmt2_table nan) sample_fmt2_info []);
    vm_compute; reflexivity.
Defined.

(** X11. For a compressed format (1, 2 or 4) with 1 to 163840 channels, none
    of which has both scale and offset not-a-number, a step count that is
    not negative and fuel above it, the buffered mode returns a table and
    metadata exactly when the unbuffered mode returns them. *)
Theorem compressed_modes_equivalent fuel filename content h region tbl inf :
  read_header content = Return h region ->
  FileID h <> FileFmtID_NoCompressWithoutTime ->
  0 < NumOutChans h <= GoodBufferSize ->
  0 <= NT h -> (Z.to_nat (NT h) < fuel)%nat ->
  no_sentinel h ->
  (exists fid', ReadFASTbinary fuel filename content true = Return (tbl, inf) fid')
  <-> (exists fid', ReadFASTbinary fuel filename content false = Return (tbl, inf) fid').
Proof.
  intros Hh Hid Hrange HNT Hfuel Hplain. split; intros (fid' & H).
  - destruct (unbuffered_follows_buffered _ _ _ _ _ _ H) as (h' & region' & Hh' & Hf).
    rewrite Hh in Hh'. injection Hh' as <- <-. exact (Hf Hid Hplain).
  - destruct (buffered_follows_unbuffered _ _ _ _ _ _ H) as (h' & region' & Hh' & Hf).
    rewrite Hh in Hh'. injection Hh' as <- <-. exact (Hf Hrange HNT Hfuel Hplain).
Qed.

Lemma compressed_modes_equivalent_witness :
  (exists fid', ReadFASTbinary 10 sample_name sample_fmt1 true
                = Return (sample_fmt1_table, sample_fmt1_info) fid')
  <-> (exists fid', ReadFASTbinary 10 sample_name sample_fmt1 false
                    = Return (sample_fmt1_table, sample_fmt1_info) fid').
Proof.
  eapply (compressed_modes_equivalent 10 sample_name sample_fmt1).
  - vm_compute. reflexivity.
  - vm_compute. discriminate.
  - vm_compute. split; [reflexivity|discriminate].
  - vm_compute. discriminate.
  - vm_compute. lia.
  - intros c Hc. cbn [NumOutChans] in Hc.
    destruct c as [|c]; [vm_compute; reflexivity|lia].
Defined.

Lemma sentinel_column_buffered_zero_witness :
  exists h region,
    read_header sample_fmt2 = Return h region
    /\ forall i c,
         Z.of_nat i < NT h -> Z.of_nat c < NumOutChans h ->
         is_nan (nth c (coef_list (ColScl h)) 0%float) = true ->
         is_nan (nth c (coef_list (ColOff h)) 0%float) = true ->
         get2 (sample_fmt2_table 0) i (c + 1) = 0%float.
Proof.
  apply (sentinel_column_buffered_zero 10 sample_name sample_fmt2
           (sample_fmt2_table 0) sample_fmt2_info []).
  vm_compute. reflexivity.
Defined.


(** ** The uncompressed format, for every file *)

Lemma uncompressed_entries_are_stored_witness :
  exists h region names units body,
    read_header sample_fmt3 = Return h region
    /\ read_channel_names h region = Return (names, units) body
    /\ (FileID h = FileFmtID_NoCompressWithoutTime ->
        ColScl h = ColumnCoef (repeat 1%float (Z.to_nat (NumOutChans h)))
        /\ ColOff h = ColumnCoef (repeat 0%float (Z.to_nat (NumOutChans h)))
        /\ forall i c,
             Z.of_nat i < NT h -> Z.of_nat c < NumOutChans h ->
             get2 sample_fmt3_table i (c + 1)
             = item float64 (payload h body) (i * Z.to_nat (NumOutChans h) + c)).
Proof.
  apply (uncompressed_entries_are_stored 10 sample_name sample_fmt3 true sample_fmt3_table
           {| name := pystr "run.1"; description := []; fileID := 3;
              attribute_names := [pystr "Time"; pystr "A"; pystr "B"; pystr "C"];
              attribute_units := [pystr "s"; pystr "-"; pystr "-"; pystr "-"] |} []).
  vm_compute. reflexivity.
Defined.


Lemma nrows_column_coef l : nrows (coef_array (ColumnCoef l)) = List.length l.
Proof. unfold nrows. cbn [coef_array rows]. apply length_map. Qed.

Lemma broadcast_dim_None a b :
  a <> b -> a <> 1%nat -> b <> 1%nat -> broadcast_dim a b = None.
Proof.
  intros Hab Ha Hb. unfold broadcast_dim.
  destruct (Nat.eqb_spec a b); [contradiction|].
  destruct (Nat.eqb_spec a 1); [contradiction|].
  destruct (Nat.eqb_spec b 1); [contradiction|]. reflexivity.
Qed.

(** Lines 162-163 with the coefficients of format 3, of shape
    [(NumOutChans, 1)]. *)
Lemma scale_uncompressed_unbuffered h data time fid :
  header_shape h -> FileID h = FileFmtID_NoCompressWithoutTime -> 0 <= NT h ->
  nrows data = Z.to_nat (NT h) -> ncols data = Z.to_nat (NumOutChans h) ->
  List.length time = Z.to_nat (NT h) ->
  (NT h = NumOutChans h \/ NumOutChans h = 1 ->
   exists tbl, scale_data h false data time fid = Return tbl fid)
  /\ (NT h <> NumOutChans h -> NumOutChans h <> 1 ->
      scale_data h false data time fid = Raise ValueError fid).
Proof.
  intros (_ & HC & _ & _ & Hcoef) Hid HNT Hrows Hcols Htime.
  rewrite Hid in Hcoef. cbn in Hcoef. destruct Hcoef as (Hs & Ho).
  unfold scale_data. rewrite Hs, Ho.
  set (R := Z.to_nat (NT h)) in *. set (C := Z.to_nat (NumOutChans h)) in *.
  pose proof (reshape2_exact time R 1 fid ltac:(lia)) as Hre.
  unfold R in Hre at 1. rewrite Z2Nat.id in Hre by exact HNT.
  change (Z.of_nat 1) with 1 in Hre.
  assert (Hstep : forall n,
            broadcast_dim R C = Some n ->
            exists q,
              (d <- np_binop2 PrimFloat.sub data
                      (coef_array (ColumnCoef (repeat 0%float C))) ;;
               np_binop2 PrimFloat.div d (coef_array (ColumnCoef (repeat 1%float C)))) fid
              = Return q fid /\ nrows q = n).
  { intros n Hn.
    destruct (np_binop2_total PrimFloat.sub data (coef_array (ColumnCoef (repeat 0%float C)))
                n C fid) as (d & Hd & Hdr & Hdc).
    { rewrite nrows_column_coef, repeat_length, Hrows. exact Hn. }
    { cbn [coef_array ncols]. rewrite Hcols. apply broadcast_dim_one_r. }
    rewrite (bind_Return_eq _ _ _ _ _ Hd).
    destruct (np_binop2_total PrimFloat.div d (coef_array (ColumnCoef (repeat 1%float C)))
                n C fid) as (q & Hq & Hqr & Hqc).
    { rewrite nrows_column_coef, repeat_length, Hdr.
      apply broadcast_dim_Some in Hn.
      destruct Hn as [(E & ->)|[(E & ->)|(E & ->)]].
      - rewrite E. apply broadcast_dim_refl.
      - apply broadcast_dim_refl.
      - rewrite E. apply broadcast_dim_one_r. }
    { cbn [coef_array ncols]. rewrite Hdc. apply broadcast_dim_one_r. }
    exists q. split; assumption. }
  split.
  - intros Hok.
    destruct (Hstep R) as (q & Hq & Hqr).
    { destruct Hok as [E|E].
      - replace C with R by (unfold R, C; rewrite E; reflexivity). apply broadcast_dim_refl.
      - replace C with 1%nat by (unfold C; rewrite E; reflexivity).
        apply broadcast_dim_one_r. }
    rewrite <- bind_assoc, (bind_Return_eq _ _ _ _ _ Hq).
    rewrite (bind_Return_eq _ _ _ _ _ Hre).
    unfold np_concatenate1. unfold nrows at 1. cbn [rows]. rewrite chunk_length, Hqr.
    rewrite Nat.eqb_refl. eexists. reflexivity.
  - intros Hne Hne1.
    assert (HRC : R <> C) by (unfold R, C; lia).
    assert (HC1 : C <> 1%nat) by (unfold C; lia).
    destruct (Nat.eq_dec R 1) as [HR1|HR1].
    + destruct (Hstep C) as (q & Hq & Hqr).
      { rewrite HR1. apply broadcast_dim_one_l. }
      rewrite <- bind_assoc, (bind_Return_eq _ _ _ _ _ Hq).
      rewrite (bind_Return_eq _ _ _ _ _ Hre).
      unfold np_concatenate1. unfold nrows at 1. cbn [rows]. rewrite chunk_length, Hqr.
      destruct (Nat.eqb_spec R C); [contradiction|]. reflexivity.
    + apply bind_Raise_eq. unfold np_binop2.
      rewrite nrows_column_coef, repeat_length, Hrows.
      rewrite (broadcast_dim_None R C) by assumption. reflexivity.
Qed.

(** X14. The unbuffered read of a complete file of format 3 returns exactly
    when the step count equals the channel count or there is one channel:
    the scale and offset that lines 92-93 build have shape
    [(NumOutChans, 1)], and with any other shape of the payload the
    arithmetic of line 162, or the concatenation of line 163, raises
    [ValueError]. *)
Theorem uncompressed_unbuffered_outcome fuel filename content h region names units body :
  read_header content = Return h region ->
  read_channel_names h region = Return (names, units) body ->
  FileID h = FileFmtID_NoCompressWithoutTime ->
  0 <= NT h ->
  8 * (NT h * NumOutChans h) <= Z.of_nat (List.length body) ->
  (NT h = NumOutChans h \/ NumOutChans h = 1 ->
   exists tbl fid',
     ReadFASTbinary fuel filename content false
     = Return (tbl, make_info filename h names units) fid')
  /\ (NT h <> NumOutChans h -> NumOutChans h <> 1 ->
      exists fid', ReadFASTbinary fuel filename content false = Raise ValueError fid').
Proof.
  intros Hh Hnu Hid HNT Hpfit.
  pose proof (read_header_Return _ _ _ Hh) as Hshape.
  pose proof Hshape as (_ & Hchans & _).
  assert (Hne : FileID h = FileFmtID_WithTime -> 4 * NT h <= Z.of_nat (List.length body)).
  { rewrite Hid. discriminate. }
  assert (Hpfit' : nbytes (payload_type h) * (NT h * NumOutChans h)
                   <= Z.of_nat (List.length (payload h body))).
  { unfold payload_type, payload. rewrite Hid. exact Hpfit. }
  destruct (read_series_unbuffered_total fuel h body HNT Hchans Hne Hpfit')
    as (PackedTime & data & fid1 & Hseries).
  pose proof (read_series_Return _ _ _ _ _ _ _ Hshape HNT Hseries)
    as (HPT & Hwf & Hrows & Hcols & _).
  pose proof (reconstruct_time_eq h PackedTime fid1 Hshape) as Htime.
  pose proof (reconstruct_time_Return h body _ _ _ _ Hshape HNT HPT Htime)
    as (_ & Hlen & _).
  cbn [time_column] in Hcols. rewrite Nat.add_0_r in Hcols.
  destruct (scale_uncompressed_unbuffered h data _ fid1 Hshape Hid HNT Hrows Hcols Hlen)
    as (Hok & Hbad).
  unfold ReadFASTbinary.
  rewrite (bind_Return_eq _ _ _ _ _ Hh), (bind_Return_eq _ _ _ _ _ Hnu).
  rewrite (bind_Return_eq _ _ _ _ _ Hseries), (bind_Return_eq _ _ _ _ _ Htime).
  split.
  - intros Hcase. destruct (Hok Hcase) as (tbl & Hscale).
    exists tbl, fid1. rewrite (bind_Return_eq _ _ _ _ _ Hscale). reflexivity.
  - intros H1 H2. exists fid1. apply bind_Raise_eq. apply Hbad; assumption.
Qed.

Lemma uncompressed_unbuffered_outcome_witness :
  exists h region names units,
    read_header sample_fmt3 = Return h region
    /\ (NT h = NumOutChans h \/ NumOutChans h = 1 ->
        exists tbl fid',
          ReadFASTbinary 0 sample_name sample_fmt3 false
          = Return (tbl, make_info sample_name h names units) fid')
    /\ (NT h <> NumOutChans h -> NumOutChans h <> 1 ->
        exists fid', ReadFASTbinary 0 sample_name sample_fmt3 false = Raise ValueError fid').
Proof.
  eexists. eexists. eexists. eexists. split; [vm_compute; reflexivity|].
  eapply (uncompressed_unbuffered_outcome 0 sample_name sample_fmt3).
  - vm_compute. reflexivity.
  - vm_compute. reflexivity.
  - reflexivity.
  - vm_compute. discriminate.
  - vm_compute. discriminate.
Defined.

(** ** Truncated payloads *)

Lemma truncated_payload_errors_witness :
  exists h region,
    read_header sample_fmt2_truncated = Return h region
    /\ ReadFASTbinary 10 sample_name sample_fmt2_truncated false = Raise StructError []
    /\ (0 < NumOutChans h <= GoodBufferSize -> (Z.to_nat (NT h) < 10)%nat ->
        ReadFASTbinary 10 sample_name sample_fmt2_truncated true = Raise TypeError []).
Proof.
  eexists. eexists. split; [vm_compute; reflexivity|].
  eapply (truncated_payload_errors 10 sample_name sample_fmt2_truncated).
  - vm_compute. reflexivity.
  - vm_compute. reflexivity.
  - vm_compute. discriminate.
  - intros E. vm_compute in E. discriminate E.
  - vm_compute. reflexivity.
Defined.

(** ** The buffered read of a table *)

Lemma get2_zeros r c i j :
  get2 {| ncols := c; rows := repeat (repeat 0%float c) r |} i j = 0%float.
Proof.
  unfold get2. cbn [rows].
  destruct (Nat.lt_ge_cases i r) as [Hi|Hi].
  - rewrite nth_repeat_lt by exact Hi.
    destruct (Nat.lt_ge_cases j c) as [Hj|Hj].
    + apply nth_repeat_lt. exact Hj.
    + apply nth_overflow. rewrite repeat_length. exact Hj.
  - rewrite (nth_overflow (repeat (repeat 0%float c) r) [])
      by (rewrite repeat_length; exact Hi).
    destruct j; reflexivity.
Qed.

(** The column that [nOff = 1] leaves before the payload stays zero. *)
Lemma freadRowOrderTableBuffered_offset_column fuel t nCols nLines fid data fid' :
  0 < nCols ->
  freadRowOrderTableBuffered fuel (nLines * nCols) t nCols 1 fid = Return data fid' ->
  forall i, get2 data i 0 = 0%float.
Proof.
  intros Hc H i. unfold freadRowOrderTableBuffered in H.
  assert (Hne : nCols <> 0) by lia.
  rewrite (bind_Return_eq _ _ _ _ _ (int_div_Return _ _ _ Hne)) in H.
  rewrite (bind_Return_eq _ _ _ _ _ (int_div_Return _ _ _ Hne)) in H.
  rewrite Z.quot_mul in H by exact Hne.
  set (L := Z.quot GoodBufferSize nCols) in H.
  assert (HL0 : 0 <= L) by (apply Z.quot_pos; unfold GoodBufferSize; lia).
  destruct (Z.eq_dec L 0) as [HLz|HLnz].
  { rewrite HLz, Z.mul_0_r in H. discriminate H. }
  assert (Hbs : nCols * L <> 0) by nia.
  rewrite (bind_Return_eq _ _ _ _ _ (int_div_Return _ _ _ Hbs)) in H.
  inv_bind H as data0 fid0 Hzeros.
  apply np_full_Return in Hzeros. destruct Hzeros as (-> & Hlines & _ & ->).
  unfold try_except in H.
  destruct (buffered_loop _ _ _ _ _ _ _ _ _ fid) as [d f|e f|] eqn:Hloop;
    try discriminate H.
  injection H as -> ->.
  assert (Hloop' :
    buffered_loop fuel (Z.of_nat (Z.to_nat nLines) * Z.of_nat (Z.to_nat nCols)) t
      (Z.of_nat (Z.to_nat nCols)) 1 (Z.of_nat (Z.to_nat nCols) * Z.of_nat (Z.to_nat L))
      {| ncols := Z.to_nat (nCols + 1);
         rows := repeat (repeat 0%float (Z.to_nat (nCols + 1))) (Z.to_nat nLines) |}
      (Z.of_nat 0 * Z.of_nat (Z.to_nat nCols)) (Z.of_nat 0) fid = Return data fid').
  { rewrite !Z2Nat.id by lia. cbn [Z.of_nat]. rewrite Z.mul_0_l. exact Hloop. }
  clear Hloop. rename Hloop' into Hloop.
  apply (buffered_loop_Return t (Z.to_nat nCols) (Z.to_nat L) (Z.to_nat nLines)
           ltac:(lia) ltac:(lia)) in Hloop.
  - destruct Hloop as (_ & _ & _ & Hold & _).
    rewrite (Hold i 0%nat) by (right; reflexivity). apply get2_zeros.
  - lia.
  - replace (Z.to_nat (nCols + 1)) with (Z.to_nat nCols + 1)%nat by lia. apply wf_repeat.
  - cbn [ncols]. lia.
  - unfold nrows. cbn [rows]. apply repeat_length.
Qed.

(** X16. [freadRowOrderTableBuffered] with [nOff = 1], 1 to 163840 columns, a
    row count that is not negative and fuel above it.  When the file holds
    the [nLines * nCols] values, the call returns a rectangular table of
    [nLines] rows and [nCols + 1] columns whose column 0 is zero and whose
    entry [(i, j + 1)] is the stored value number [i * nCols + j] as a
    64-bit float, and leaves the file right after the values; when the file
    holds fewer, the handler of line 57 raises [TypeError] and the file is
    left exhausted. *)
Theorem buffered_table_read fuel t nCols nLines fid :
  0 < nCols <= GoodBufferSize -> 0 <= nLines -> (Z.to_nat nLines < fuel)%nat ->
  (nbytes t * (nLines * nCols) <= Z.of_nat (List.length fid) ->
   exists data,
     freadRowOrderTableBuffered fuel (nLines * nCols) t nCols 1 fid
     = Return data (skipn (Z.to_nat (nbytes t * (nLines * nCols))) fid)
     /\ wf data /\ nrows data = Z.to_nat nLines /\ ncols data = (Z.to_nat nCols + 1)%nat
     /\ forall i, (i < Z.to_nat nLines)%nat ->
          get2 data i 0 = 0%float
          /\ forall j, (j < Z.to_nat nCols)%nat ->
               get2 data i (j + 1) = to_float64 t (item t fid (i * Z.to_nat nCols + j)))
  /\ (Z.of_nat (List.length fid) < nbytes t * (nLines * nCols) ->
      freadRowOrderTableBuffered fuel (nLines * nCols) t nCols 1 fid = Raise TypeError []).
Proof.
  intros Hc Hl Hfuel. split; intros Hlen.
  - destruct (freadRowOrderTableBuffered_total fuel t nCols nLines fid Hc Hl Hfuel Hlen)
      as (data & fid' & H).
    exists data.
    pose proof (freadRowOrderTableBuffered_offset_column _ _ _ _ _ _ _ (proj1 Hc) H) as Hzero.
    pose proof (freadRowOrderTableBuffered_Return _ _ _ _ _ _ _ (Z.lt_le_incl _ _ (proj1 Hc)) H)
      as (_ & _ & Hwf & Hcols & Hrows & Hent & Hfid & _).
    split.
    { rewrite H, Hfid. do 2 f_equal. rewrite (nbytes_nat t) at 2. nia. }
    split; [exact Hwf|]. split; [exact Hrows|]. split; [exact Hcols|].
    intros i Hi. split; [apply Hzero|]. intros j Hj. apply Hent; assumption.
  - apply freadRowOrderTableBuffered_short; assumption.
Qed.

Lemma buffered_table_read_witness :
  (nbytes int16 * (1 * 2) <= Z.of_nat (List.length wide_payload) ->
   exists data,
     freadRowOrderTableBuffered 2 (1 * 2) int16 2 1 wide_payload
     = Return data (skipn (Z.to_nat (nbytes int16 * (1 * 2))) wide_payload)
     /\ wf data /\ nrows data = Z.to_nat 1 /\ ncols data = (Z.to_nat 2 + 1)%nat
     /\ forall i, (i < Z.to_nat 1)%nat ->
          get2 data i 0 = 0%float
          /\ forall j, (j < Z.to_nat 2)%nat ->
               get2 data i (j + 1)
               = to_float64 int16 (item int16 wide_payload (i * Z.to_nat 2 + j)))
  /\ (Z.of_nat (List.length wide_payload) < nbytes int16 * (1 * 2) ->
      freadRowOrderTableBuffered 2 (1 * 2) int16 2 1 wide_payload = Raise TypeError []).
Proof.
  apply (buffered_table_read 2 int16 2 1 wide_payload).
  - vm_compute. split; [reflexivity|discriminate].
  - lia.
  - vm_compute. lia.
Defined.

(** ** The loop of the buffered read ends *)

Lemma halts_bind {A B} (c : M A) (k : A -> M B) fid :
  halts (c fid) = true ->
  (forall a f, c fid = Return a f -> halts (k a f) = true) ->
  halts (bind c k fid) = true.
Proof.
  unfold bind. destruct (c fid) as [a f|e f|]; intros Hc Hk.
  - apply Hk. reflexivity.
  - reflexivity.
  - discriminate Hc.
Qed.

Lemma halts_fread n t fid : halts (fread n t fid) = true.
Proof.
  unfold fread, bind, fid_read, struct_unpack, ret, raise.
  destruct (_ <? 0); destruct (_ =? _); reflexivity.
Qed.

Lemma halts_item0 {A} (l : list A) fid : halts (item0 l fid) = true.
Proof. destruct l; reflexivity. Qed.

Lemma halts_int_div a b fid : halts (int_div a b fid) = true.
Proof. unfold int_div. destruct (b =? 0); reflexivity. Qed.

Lemma halts_np_full x r c fid : halts (np_full x r c fid) = true.
Proof. unfold np_full. destruct (_ || _); reflexivity. Qed.

Lemma halts_np_column x n fid : halts (np_column x n fid) = true.
Proof.
  unfold np_column. apply halts_bind; [apply halts_np_full|reflexivity].
Qed.

Lemma halts_reshape2 a r c fid : halts (reshape2 a r c fid) = true.
Proof.
  unfold reshape2.
  repeat match goal with
         | |- context [if ?b then _ else _] => destruct b
         end; reflexivity.
Qed.

Lemma halts_np_binop1 f a b fid : halts (np_binop1 f a b fid) = true.
Proof. unfold np_binop1. destruct (broadcast_dim _ _); reflexivity. Qed.

Lemma halts_np_binop2 f a b fid : halts (np_binop2 f a b fid) = true.
Proof.
  unfold np_binop2.
  destruct (broadcast_dim (nrows a) (nrows b)); [|reflexivity].
  destruct (broadcast_dim (ncols a) (ncols b)); reflexivity.
Qed.

Lemma halts_np_concatenate1 a b fid : halts (np_concatenate1 a b fid) = true.
Proof. unfold np_concatenate1. destruct (_ =? _)%nat; reflexivity. Qed.

Lemma halts_get_col data j fid : halts (get_col data j fid) = true.
Proof. unfold get_col. destruct (_ <? _)%nat; reflexivity. Qed.

Lemma halts_set_col data j v fid : halts (set_col data j v fid) = true.
Proof.
  unfold set_col. destruct (_ <? _)%nat; [|reflexivity].
  destruct (can_broadcast_to _ _); reflexivity.
Qed.

Lemma halts_coef_item c k fid : halts (coef_item c k fid) = true.
Proof. unfold coef_item. destruct (nth_error _ _); reflexivity. Qed.

Lemma halts_read_fields count L post fid : halts (read_fields count L post fid) = true.
Proof.
  revert fid. induction count as [|count IH]; intros fid; [reflexivity|].
  cbn [read_fields]. apply halts_bind; [apply halts_fread|]. intros l f _.
  apply halts_bind; [apply IH|]. reflexivity.
Qed.

Lemma halts_read_header content : halts (read_header content) = true.
Proof.
  unfold read_header.
  apply halts_bind; [apply halts_fread|]. intros l0 f0 _.
  apply halts_bind; [apply halts_item0|]. intros id f1 _.
  destruct (negb _); [reflexivity|].
  apply halts_bind.
  { destruct (id =? _); [|reflexivity].
    apply halts_bind; [apply halts_fread|]. intros; apply halts_item0. }
  intros len f2 _.
  apply halts_bind; [apply halts_fread|]. intros l1 f3 _.
  apply halts_bind; [apply halts_item0|]. intros chans f4 _.
  apply halts_bind; [apply halts_fread|]. intros l2 f5 _.
  apply halts_bind; [apply halts_item0|]. intros nt f6 _.
  apply halts_bind.
  { destruct (id =? _);
      (apply halts_bind; [apply halts_fread|]; intros;
       apply halts_bind; [apply halts_fread|]; reflexivity). }
  intros tenc f7 _.
  apply halts_bind.
  { destruct (id =? _).
    - apply halts_bind; [apply halts_np_column|]. intros.
      apply halts_bind; [apply halts_np_column|]. reflexivity.
    - apply halts_bind; [apply halts_fread|]. intros.
      apply halts_bind; [apply halts_fread|]. reflexivity. }
  intros [scl off] f8 _.
  apply halts_bind; [apply halts_fread|]. intros l3 f9 _.
  apply halts_bind; [apply halts_item0|]. intros lendesc f10 _.
  apply halts_bind; [apply halts_fread|]. reflexivity.
Qed.

Lemma halts_read_channel_names h fid : halts (read_channel_names h fid) = true.
Proof.
  unfold read_channel_names.
  apply halts_bind; [apply halts_read_fields|]. intros.
  apply halts_bind; [apply halts_read_fields|]. reflexivity.
Qed.

Lemma halts_reconstruct_time h PackedTime fid :
  halts (reconstruct_time h PackedTime fid) = true.
Proof.
  unfold reconstruct_time.
  destruct (TimeEnc h); (apply halts_bind; [apply halts_np_binop1|]);
    intros; apply halts_np_binop1.
Qed.

Lemma halts_scale_column h c data fid : halts (scale_column h c data fid) = true.
Proof.
  unfold scale_column.
  apply halts_bind; [apply halts_coef_item|]. intros scl f1 _.
  apply halts_bind; [apply halts_coef_item|]. intros off f2 _.
  destruct (_ && _); [apply halts_set_col|].
  apply halts_bind; [apply halts_get_col|]. intros col f3 _.
  apply halts_bind; [apply halts_np_binop1|]. intros d f4 _.
  apply halts_bind; [apply halts_np_binop1|]. intros q f5 _.
  apply halts_set_col.
Qed.

Lemma halts_for_each {S} l (body : nat -> S -> M S) :
  (forall i s fid, halts (body i s fid) = true) ->
  forall s fid, halts (for_each l body s fid) = true.
Proof.
  intros Hbody. induction l as [|i l IH]; intros s fid; [reflexivity|].
  cbn [for_each]. apply halts_bind; [apply Hbody|]. intros. apply IH.
Qed.

Lemma halts_scale_data h use_buffer data time fid :
  halts (scale_data h use_buffer data time fid) = true.
Proof.
  unfold scale_data. destruct use_buffer.
  - apply halts_bind; [apply halts_for_each; apply halts_scale_column|].
    intros. apply halts_set_col.
  - apply halts_bind; [apply halts_np_binop2|]. intros.
    apply halts_bind; [apply halts_np_binop2|]. intros.
    apply halts_bind; [apply halts_reshape2|]. intros.
    apply halts_np_concatenate1.
Qed.

(** The [while] loop of lines 48-55 ends: with fuel above the row count the
    buffered read of a table returns or raises, whatever the file holds. *)
Lemma halts_freadRowOrderTableBuffered fuel t nCols nLines fid :
  0 <= nCols -> (Z.to_nat nLines < fuel)%nat ->
  halts (freadRowOrderTableBuffered fuel (nLines * nCols) t nCols 1 fid) = true.
Proof.
  intros Hc Hfuel.
  destruct (Z.eq_dec nCols 0) as [->|Hne].
  { unfold freadRowOrderTableBuffered. rewrite Z.mul_0_r. reflexivity. }
  destruct (Z.le_gt_cases nCols GoodBufferSize) as [Hle|Hgt].
  2:{ rewrite zero_buffer_size_raises by lia. reflexivity. }
  destruct (Z.lt_ge_cases nLines 0) as [Hneg|Hpos].
  { unfold freadRowOrderTableBuffered.
    rewrite (bind_Return_eq _ _ _ _ _ (int_div_Return _ _ fid Hne)).
    rewrite (bind_Return_eq _ _ _ _ _ (int_div_Return _ _ fid Hne)).
    rewrite Z.quot_mul by exact Hne.
    apply halts_bind; [apply halts_int_div|]. intros nBuffer f _.
    unfold np_full. apply Z.ltb_lt in Hneg. rewrite Hneg. reflexivity. }
  destruct (Z.le_gt_cases (nbytes t * (nLines * nCols)) (Z.of_nat (List.length fid)))
    as [Hfit|Hshort].
  - destruct (freadRowOrderTableBuffered_total fuel t nCols nLines fid
                ltac:(lia) Hpos Hfuel Hfit) as (data & fid' & ->).
    reflexivity.
  - rewrite freadRowOrderTableBuffered_short by (assumption || lia). reflexivity.
Qed.

Lemma halts_read_series fuel h use_buffer body :
  0 <= NumOutChans h -> (use_buffer = true -> (Z.to_nat (NT h) < fuel)%nat) ->
  halts (read_series fuel h use_buffer body) = true.
Proof.
  intros Hc Hfuel. unfold read_series.
  apply halts_bind.
  { destruct (FileID h =? FileFmtID_WithTime); [|reflexivity].
    apply halts_bind; [apply halts_fread|]. intros PackedTime f _.
    cbv zeta. destruct (_ <? _); reflexivity. }
  intros PackedTime f1 _.
  apply halts_bind; [|reflexivity].
  destruct use_buffer.
  - destruct (FileID h =? FileFmtID_NoCompressWithoutTime);
      apply halts_freadRowOrderTableBuffered; auto.
  - apply halts_bind.
    { destruct (FileID h =? FileFmtID_NoCompressWithoutTime);
        (apply halts_bind; [apply halts_fread|]; reflexivity). }
    intros PackedData f2 _. cbv zeta.
    destruct (_ <? _); [reflexivity|apply halts_reshape2].
Qed.

(** X17. The read ends on every file.  The only loop of the source is the
    [while] of lines 48-55; every iteration that does not raise stores at
    least one row, so with fuel above the step count of the header the
    buffered read returns or raises, whatever the file holds.  The
    unbuffered mode has no loop and needs no fuel. *)
Theorem read_terminates fuel filename content use_buffer :
  (forall h region,
     use_buffer = true -> read_header content = Return h region ->
     (Z.to_nat (NT h) < fuel)%nat) ->
  halts (ReadFASTbinary fuel filename content use_buffer) = true.
Proof.
  intros Hfuel. unfold ReadFASTbinary.
  apply halts_bind; [apply halts_read_header|]. intros h region Hh.
  pose proof (read_header_Return _ _ _ Hh) as (_ & Hchans & _).
  apply halts_bind; [apply halts_read_channel_names|]. intros [names units] body _.
  apply halts_bind.
  { apply halts_read_series; [exact Hchans|]. intros Hb. exact (Hfuel h region Hb Hh). }
  intros [PackedTime data] fid1 _.
  apply halts_bind; [apply halts_reconstruct_time|]. intros time fid2 _.
  apply halts_bind; [apply halts_scale_data|]. reflexivity.
Qed.

Lemma read_terminates_witness :
  halts (ReadFASTbinary 6 sample_name sample_fmt2_truncated true) = true.
Proof.
  apply (read_terminates 6 sample_name sample_fmt2_truncated true).
  intros h region _ H. vm_compute in H. injection H as <- _. vm_compute. lia.
Defined.

(** ** The exceptions of a read *)

Lemma bind_Raise {A B} (c : M A) (k : A -> M B) fid e fid' :
  bind c k fid = Raise e fid' ->
  c fid = Raise e fid' \/ exists a fid1, c fid = Return a fid1 /\ k a fid1 = Raise e fid'.
Proof.
  unfold bind. destruct (c fid) as [a f|e0 f|]; intros H; try discriminate.
  - right. exists a, f. split; [reflexivity|exact H].
  - left. injection H as -> ->. reflexivity.
Qed.

Tactic Notation "raise_bind" hyp(H) "as" ident(a) ident(f) ident(H1) :=
  apply bind_Raise in H; destruct H as [H|(a & f & H1 & H)].





















(** ** Bytes after the payload *)

Lemma leaves_ret {A} (a : A) : leaves_file (ret a).
Proof. intros fid fid2. reflexivity. Qed.

Lemma leaves_raise {A} e : leaves_file (@raise A e).
Proof. intros fid fid2. reflexivity. Qed.

Lemma leaves_bind {A B} (c : M A) (k : A -> M B) :
  leaves_file c -> (forall a, leaves_file (k a)) -> leaves_file (bind c k).
Proof.
  intros Hc Hk fid fid2. unfold bind. rewrite (Hc fid fid2).
  destruct (c fid) as [a f| |]; try reflexivity.
  rewrite (Hk a f fid2). reflexivity.
Qed.

Lemma leaves_Return {A} (c : M A) fid a fid' x :
  leaves_file c -> c fid = Return a fid' -> c (fid ++ x) = Return a (fid ++ x) /\ fid' = fid.
Proof.
  intros Hc H. split.
  - rewrite (Hc fid (fid ++ x)), H. reflexivity.
  - pose proof (Hc fid fid) as E. rewrite H in E. injection E as ->. reflexivity.
Qed.

Lemma frame_leaves {A} (c : M A) fid a fid' x :
  leaves_file c -> c fid = Return a fid' -> c (fid ++ x) = Return a (fid' ++ x).
Proof.
  intros Hc H. destruct (leaves_Return c fid a fid' x Hc H) as (E & ->). exact E.
Qed.

Ltac leaves :=
  repeat first
    [ apply leaves_ret | apply leaves_raise
    | apply leaves_bind; [|intros ?]
    | match goal with
      | |- leaves_file (if ?b then _ else _) => destruct b
      | |- leaves_file (match ?o with Some _ => _ | None => _ end) => destruct o
      | |- leaves_file (match ?o with _ :: _ => _ | [] => _ end) => destruct o
      end ].

Lemma leaves_item0 {A} (l : list A) : leaves_file (item0 l).
Proof. unfold item0. leaves. Qed.

Lemma leaves_int_div a b : leaves_file (int_div a b).
Proof. unfold int_div. leaves. Qed.

Lemma leaves_np_full x r c : leaves_file (np_full x r c).
Proof. unfold np_full. leaves. Qed.

Lemma leaves_np_column x n : leaves_file (np_column x n).
Proof. unfold np_column. leaves. apply leaves_np_full. Qed.

Lemma leaves_reshape2 a r c : leaves_file (reshape2 a r c).
Proof. unfold reshape2. cbv zeta. leaves. Qed.

Lemma leaves_assign_block data r0 r1 c0 c1 B : leaves_file (assign_block data r0 r1 c0 c1 B).
Proof.
  unfold assign_block.
  destruct (slice_range r0 r1 _) as [rs rn]. destruct (slice_range c0 c1 _) as [cs cn].
  leaves.
Qed.

Lemma leaves_np_binop1 f a b : leaves_file (np_binop1 f a b).
Proof. unfold np_binop1. leaves. Qed.

Lemma leaves_np_binop2 f a b : leaves_file (np_binop2 f a b).
Proof.
  unfold np_binop2.
  destruct (broadcast_dim (nrows a) (nrows b));
    [destruct (broadcast_dim (ncols a) (ncols b))|]; leaves.
Qed.

Lemma leaves_np_concatenate1 a b : leaves_file (np_concatenate1 a b).
Proof. unfold np_concatenate1. leaves. Qed.

Lemma leaves_get_col data j : leaves_file (get_col data j).
Proof. unfold get_col. leaves. Qed.

Lemma leaves_set_col data j v : leaves_file (set_col data j v).
Proof. unfold set_col. leaves. Qed.

Lemma leaves_coef_item c k : leaves_file (coef_item c k).
Proof. unfold coef_item. leaves. Qed.

Lemma leaves_reconstruct_time h PackedTime : leaves_file (reconstruct_time h PackedTime).
Proof.
  unfold reconstruct_time. destruct (TimeEnc h); leaves; apply leaves_np_binop1.
Qed.

Lemma leaves_scale_column h c data : leaves_file (scale_column h c data).
Proof.
  unfold scale_column. leaves;
    first [apply leaves_coef_item | apply leaves_set_col | apply leaves_get_col
          | apply leaves_np_binop1].
Qed.

Lemma leaves_for_each {S} l (body : nat -> S -> M S) :
  (forall i s, leaves_file (body i s)) -> forall s, leaves_file (for_each l body s).
Proof.
  intros Hbody. induction l as [|i l IH]; intros s; cbn [for_each]; [apply leaves_ret|].
  apply leaves_bind; [apply Hbody|]. intros. apply IH.
Qed.

Lemma leaves_scale_data h use_buffer data time :
  leaves_file (scale_data h use_buffer data time).
Proof.
  unfold scale_data. destruct use_buffer.
  - apply leaves_bind; [apply leaves_for_each; apply leaves_scale_column|].
    intros. apply leaves_set_col.
  - leaves; first [apply leaves_np_binop2 | apply leaves_reshape2
                  | apply leaves_np_concatenate1].
Qed.

(** Bytes after those [fread] takes do not change what it returns. *)
Lemma frame_fread n t fid l fid' x :
  0 <= n -> fread n t fid = Return l fid' -> fread n t (fid ++ x) = Return l (fid' ++ x).
Proof.
  intros Hn H. pose proof (nbytes_pos t) as Hb.
  pose proof (fread_Return _ _ _ _ _ Hn H) as (_ & _ & _ & Hfit).
  rewrite fread_enough in H by assumption.
  rewrite fread_enough by (try assumption; rewrite length_app; lia).
  injection H as <- <-.
  rewrite firstn_app, skipn_app.
  replace (Z.to_nat (nbytes t * n) - List.length fid)%nat with 0%nat by lia.
  cbn [firstn skipn]. rewrite app_nil_r. reflexivity.
Qed.

Lemma frame_read_fields x count L post :
  0 <= L ->
  forall fid l fid',
    read_fields count L post fid = Return l fid' ->
    read_fields count L post (fid ++ x) = Return l (fid' ++ x).
Proof.
  intros HL. induction count as [|count IH]; intros fid l fid' H; cbn [read_fields] in *.
  - inv_ret H. reflexivity.
  - inv_bind H as a f1 Ha. inv_bind H as rest f2 Hrest. inv_ret H.
    rewrite (bind_Return_eq _ _ _ _ _ (frame_fread _ _ _ _ _ x HL Ha)).
    rewrite (bind_Return_eq _ _ _ _ _ (IH _ _ _ Hrest)). reflexivity.
Qed.

Lemma frame_buffered_loop x t nCols nOff BufferSize n :
  0 <= BufferSize ->
  forall fuel data nIntRead nLinesRead fid data' fid',
    buffered_loop fuel n t nCols nOff BufferSize data nIntRead nLinesRead fid
    = Return data' fid' ->
    buffered_loop fuel n t nCols nOff BufferSize data nIntRead nLinesRead (fid ++ x)
    = Return data' (fid' ++ x).
Proof.
  intros HB. induction fuel as [|fuel IH]; intros data nIntRead nLinesRead fid data' fid' H;
    cbn [buffered_loop] in *; [discriminate H|].
  destruct (Z.ltb_spec nIntRead n) as [Hlt|Hge].
  - inv_bind H as k f1 Hk. inv_bind H as items f2 Hitems.
    inv_bind H as Buffer f3 Hre. inv_bind H as d f4 Hassign.
    assert (Hcount : 0 <= Z.min (n - nIntRead) BufferSize) by lia.
    rewrite (bind_Return_eq _ _ _ _ _ (frame_leaves _ _ _ _ x (leaves_int_div _ _) Hk)).
    rewrite (bind_Return_eq _ _ _ _ _ (frame_fread _ _ _ _ _ x Hcount Hitems)).
    rewrite (bind_Return_eq _ _ _ _ _ (frame_leaves _ _ _ _ x (leaves_reshape2 _ _ _) Hre)).
    rewrite (bind_Return_eq _ _ _ _ _
               (frame_leaves _ _ _ _ x (leaves_assign_block _ _ _ _ _ _) Hassign)).
    apply IH. exact H.
  - inv_ret H. reflexivity.
Qed.

Lemma frame_freadRowOrderTableBuffered x fuel n t nCols nOff fid data fid' :
  0 <= nCols ->
  freadRowOrderTableBuffered fuel n t nCols nOff fid = Return data fid' ->
  freadRowOrderTableBuffered fuel n t nCols nOff (fid ++ x) = Return data (fid' ++ x).
Proof.
  intros Hc H. unfold freadRowOrderTableBuffered in *.
  inv_bind H as nLines f1 H1. inv_bind H as nLpB f2 H2.
  inv_bind H as nBuffer f3 H3. inv_bind H as data0 f4 H4.
  rewrite (bind_Return_eq _ _ _ _ _ (frame_leaves _ _ _ _ x (leaves_int_div _ _) H1)).
  rewrite (bind_Return_eq _ _ _ _ _ (frame_leaves _ _ _ _ x (leaves_int_div _ _) H2)).
  rewrite (bind_Return_eq _ _ _ _ _ (frame_leaves _ _ _ _ x (leaves_int_div _ _) H3)).
  rewrite (bind_Return_eq _ _ _ _ _ (frame_leaves _ _ _ _ x (leaves_np_full _ _ _) H4)).
  assert (Hne : nCols <> 0).
  { unfold int_div in H1. destruct (Z.eqb_spec nCols 0); [discriminate H1|assumption]. }
  assert (HB : 0 <= nCols * nLpB).
  { rewrite int_div_Return in H2 by exact Hne. injection H2 as <- _.
    assert (HG : 0 <= GoodBufferSize) by (unfold GoodBufferSize; lia).
    pose proof (Z.quot_pos GoodBufferSize nCols HG ltac:(lia)). nia. }
  unfold try_except in *.
  destruct (buffered_loop _ _ _ _ _ _ _ _ _ f4) as [d f|e f|] eqn:Hloop; try discriminate H.
  injection H as -> ->.
  rewrite (frame_buffered_loop x _ _ _ _ _ HB _ _ _ _ _ _ _ Hloop). reflexivity.
Qed.

Lemma frame_read_series x fuel h use_buffer body PackedTime data fid1 :
  0 <= NT h -> 0 <= NumOutChans h ->
  read_series fuel h use_buffer body = Return (PackedTime, data) fid1 ->
  read_series fuel h use_buffer (body ++ x) = Return (PackedTime, data) (fid1 ++ x).
Proof.
  intros HNT Hc H. unfold read_series in *.
  inv_bind H as PT f1 HPT. inv_bind H as d f2 Hd. inv_ret H.
  assert (HPT' :
    (if FileID h =? FileFmtID_WithTime
     then PackedTime <- fread (NT h) int32 ;;
          let cnt := Z.of_nat (List.length PackedTime) in
          if cnt <? NT h then raise (CouldNotReadTime cnt (NT h))
          else ret PackedTime
     else ret []) (body ++ x) = Return PackedTime (f1 ++ x)).
  { destruct (FileID h =? FileFmtID_WithTime).
    - inv_bind HPT as l f Hl.
      rewrite (bind_Return_eq _ _ _ _ _ (frame_fread _ _ _ _ _ x HNT Hl)).
      cbv zeta in *. destruct (_ <? _); [discriminate HPT|]. inv_ret HPT. reflexivity.
    - inv_ret HPT. reflexivity. }
  rewrite (bind_Return_eq _ _ _ _ _ HPT').
  assert (Hn : 0 <= NT h * NumOutChans h) by nia.
  assert (Hd' :
    (if use_buffer then
       if FileID h =? FileFmtID_NoCompressWithoutTime
       then freadRowOrderTableBuffered fuel (NT h * NumOutChans h) float64 (NumOutChans h) 1
       else freadRowOrderTableBuffered fuel (NT h * NumOutChans h) int16 (NumOutChans h) 1
     else
       PackedData <- (if FileID h =? FileFmtID_NoCompressWithoutTime
                      then l <- fread (NT h * NumOutChans h) float64 ;;
                           ret (map (to_float64 float64) l)
                      else l <- fread (NT h * NumOutChans h) int16 ;;
                           ret (map (to_float64 int16) l)) ;;
       let cnt := Z.of_nat (List.length PackedData) in
       if cnt <? NT h * NumOutChans h
       then raise (CouldNotReadValues cnt (NT h * NumOutChans h))
       else reshape2 PackedData (NT h) (NumOutChans h)) (f1 ++ x)
    = Return data (fid1 ++ x)).
  { destruct use_buffer.
    - destruct (FileID h =? FileFmtID_NoCompressWithoutTime);
        apply frame_freadRowOrderTableBuffered; assumption.
    - inv_bind Hd as PackedData f3 Hraw.
      assert (Hraw' :
        (if FileID h =? FileFmtID_NoCompressWithoutTime
         then l <- fread (NT h * NumOutChans h) float64 ;; ret (map (to_float64 float64) l)
         else l <- fread (NT h * NumOutChans h) int16 ;; ret (map (to_float64 int16) l))
          (f1 ++ x) = Return PackedData (f3 ++ x)).
      { destruct (FileID h =? FileFmtID_NoCompressWithoutTime);
          inv_bind Hraw as l f Hl; inv_ret Hraw;
          rewrite (bind_Return_eq _ _ _ _ _ (frame_fread _ _ _ _ _ x Hn Hl)); reflexivity. }
      rewrite (bind_Return_eq _ _ _ _ _ Hraw').
      cbv zeta in *. destruct (_ <? _); [discriminate Hd|].
      apply frame_leaves; [apply leaves_reshape2|exact Hd]. }
  rewrite (bind_Return_eq _ _ _ _ _ Hd'). reflexivity.
Qed.

Lemma frame_read_scalar x t fid l f1 a f2 :
  fread 1 t fid = Return l f1 -> item0 l f1 = Return a f2 ->
  fread 1 t (fid ++ x) = Return l (f1 ++ x) /\ item0 l (f1 ++ x) = Return a (f2 ++ x).
Proof.
  intros Hl Ha. split.
  - apply frame_fread; [lia|exact Hl].
  - apply frame_leaves; [apply leaves_item0|exact Ha].
Qed.

Lemma frame_read_header x content h region :
  region <> [] ->
  read_header content = Return h region ->
  read_header (content ++ x) = Return h (region ++ x).
Proof.
  intros Hregion H. pose proof (read_header_Return _ _ _ H) as (_ & HC & _).
  unfold read_header in *.
  inv_bind H as l0 f0 Hl0. inv_bind H as id f1 Hid0.
  destruct (frame_read_scalar x _ _ _ _ _ _ Hl0 Hid0) as (E1 & E2).
  rewrite (bind_Return_eq _ _ _ _ _ E1), (bind_Return_eq _ _ _ _ _ E2). clear E1 E2.
  destruct (negb _); [discriminate H|].
  inv_bind H as len f2 Hlen.
  assert (Hlen' : (if id =? FileFmtID_ChanLen_In
                   then l <- fread 1 int16 ;; item0 l
                   else ret 10) (f1 ++ x) = Return len (f2 ++ x)).
  { destruct (id =? FileFmtID_ChanLen_In).
    - inv_bind Hlen as l f Hl.
      destruct (frame_read_scalar x _ _ _ _ _ _ Hl Hlen) as (E1 & E2).
      rewrite (bind_Return_eq _ _ _ _ _ E1). exact E2.
    - apply ret_Return in Hlen. destruct Hlen as [<- <-]. reflexivity. }
  rewrite (bind_Return_eq _ _ _ _ _ Hlen'). clear Hlen Hlen'.
  inv_bind H as l1 f3 Hl1. inv_bind H as chans f4 Hchans0.
  destruct (frame_read_scalar x _ _ _ _ _ _ Hl1 Hchans0) as (E1 & E2).
  rewrite (bind_Return_eq _ _ _ _ _ E1), (bind_Return_eq _ _ _ _ _ E2). clear E1 E2.
  inv_bind H as l2 f5 Hl2. inv_bind H as nt f6 Hnt.
  destruct (frame_read_scalar x _ _ _ _ _ _ Hl2 Hnt) as (E1 & E2).
  rewrite (bind_Return_eq _ _ _ _ _ E1), (bind_Return_eq _ _ _ _ _ E2). clear E1 E2.
  inv_bind H as tenc f7 Htime.
  assert (Htime' :
    (if id =? FileFmtID_WithTime
     then TimeScl <- fread 1 float64 ;; TimeOff <- fread 1 float64 ;;
          ret (PackedTimeEnc TimeScl TimeOff)
     else TimeOut1 <- fread 1 float64 ;; TimeIncr <- fread 1 float64 ;;
          ret (ComputedTimeEnc TimeOut1 TimeIncr)) (f6 ++ x) = Return tenc (f7 ++ x)).
  { destruct (id =? FileFmtID_WithTime);
      inv_bind Htime as s fs Hs; inv_bind Htime as o fo Ho;
      apply ret_Return in Htime; destruct Htime as [<- <-];
      rewrite (bind_Return_eq _ _ _ _ _ (frame_fread 1 _ _ _ _ x ltac:(lia) Hs));
      rewrite (bind_Return_eq _ _ _ _ _ (frame_fread 1 _ _ _ _ x ltac:(lia) Ho));
      reflexivity. }
  rewrite (bind_Return_eq _ _ _ _ _ Htime'). clear Htime Htime'.
  inv_bind H as coefs f8 Hcoef. destruct coefs as [scl off].
  inv_bind H as l3 f9 Hdesc1. inv_bind H as lendesc f10 Hdesc2.
  inv_bind H as desc f11 Hdesc3.
  apply ret_Return in H. destruct H as [<- <-].
  cbn [NumOutChans] in HC.
  assert (Hcoef' :
    (if id =? FileFmtID_NoCompressWithoutTime
     then ColScl <- np_column 1%float chans ;; ColOff <- np_column 0%float chans ;;
          ret (ColScl, ColOff)
     else ColScl <- fread chans float32 ;; ColOff <- fread chans float32 ;;
          ret (TupleCoef ColScl, TupleCoef ColOff)) (f7 ++ x) = Return (scl, off) (f8 ++ x)).
  { destruct (id =? FileFmtID_NoCompressWithoutTime);
      inv_bind Hcoef as s fs Hs; inv_bind Hcoef as o fo Ho;
      apply ret_Return in Hcoef; destruct Hcoef as [E <-]; injection E as <- <-.
    - rewrite (bind_Return_eq _ _ _ _ _ (frame_leaves _ _ _ _ x (leaves_np_column _ _) Hs)).
      rewrite (bind_Return_eq _ _ _ _ _ (frame_leaves _ _ _ _ x (leaves_np_column _ _) Ho)).
      reflexivity.
    - rewrite (bind_Return_eq _ _ _ _ _ (frame_fread _ _ _ _ _ x HC Hs)).
      rewrite (bind_Return_eq _ _ _ _ _ (frame_fread _ _ _ _ _ x HC Ho)).
      reflexivity. }
  rewrite (bind_Return_eq _ _ _ _ _ Hcoef'). clear Hcoef Hcoef'.
  destruct (frame_read_scalar x _ _ _ _ _ _ Hdesc1 Hdesc2) as (E1 & E2).
  rewrite (bind_Return_eq _ _ _ _ _ E1), (bind_Return_eq _ _ _ _ _ E2). clear E1 E2.
  assert (Hld : 0 <= lendesc).
  { destruct (Z.lt_ge_cases lendesc 0) as [Hneg|Hpos]; [|exact Hpos].
    apply (fread_negative _ _ _ _ _ Hneg) in Hdesc3.
    destruct Hdesc3 as (_ & _ & E). contradiction. }
  rewrite (bind_Return_eq _ _ _ _ _ (frame_fread _ _ _ _ _ x Hld Hdesc3)). reflexivity.
Qed.

Lemma frame_read_channel_names x h region names units body :
  0 <= LenName h ->
  read_channel_names h region = Return (names, units) body ->
  read_channel_names h (region ++ x) = Return (names, units) (body ++ x).
Proof.
  intros HL H. unfold read_channel_names in *.
  inv_bind H as n f1 Hn. inv_bind H as u f2 Hu.
  apply ret_Return in H. destruct H as [E <-]. injection E as <- <-.
  rewrite (bind_Return_eq _ _ _ _ _ (frame_read_fields x _ _ _ HL _ _ _ Hn)).
  rewrite (bind_Return_eq _ _ _ _ _ (frame_read_fields x _ _ _ HL _ _ _ Hu)).
  reflexivity.
Qed.

(** X19. The reader never looks past the payload.  If a file whose header
    declares names of at least one byte and a step count that is not
    negative is read, then the same file with any bytes appended is read
    with the same table and the same metadata, in the same mode and with
    the same fuel, and the appended bytes are left unread. *)
Theorem trailing_bytes_are_ignored
    fuel filename content extra use_buffer h region tbl inf fid' :
  read_header content = Return h region ->
  0 < LenName h -> 0 <= NT h ->
  ReadFASTbinary fuel filename content use_buffer = Return (tbl, inf) fid' ->
  ReadFASTbinary fuel filename (content ++ extra) use_buffer
  = Return (tbl, inf) (fid' ++ extra).
Proof.
  intros Hh HL HNT H. pose proof (read_header_Return _ _ _ Hh) as (_ & HC & _).
  unfold ReadFASTbinary in H.
  rewrite (bind_Return_eq _ _ _ _ _ Hh) in H.
  inv_bind H as nu body Hnu. destruct nu as [names units].
  inv_bind H as pd fid1 Hseries. destruct pd as [PackedTime data].
  inv_bind H as time fid2 Htime.
  inv_bind H as data' fid3 Hscale.
  apply ret_Return in H. destruct H as [E <-]. injection E as <- <-.
  assert (Hregion : region <> []).
  { intros ->. unfold read_channel_names in Hnu.
    inv_bind Hnu as n f1 Hn.
    replace (Z.to_nat (NumOutChans h + 1)) with (S (Z.to_nat (NumOutChans h))) in Hn by lia.
    cbn [read_fields] in Hn. inv_bind Hn as a f Ha.
    apply (fread_Return (LenName h)) in Ha; [|lia].
    destruct Ha as (_ & _ & _ & Hfit). cbn [List.length nbytes] in Hfit. lia. }
  unfold ReadFASTbinary.
  rewrite (bind_Return_eq _ _ _ _ _ (frame_read_header extra _ _ _ Hregion Hh)).
  rewrite (bind_Return_eq _ _ _ _ _
             (frame_read_channel_names extra _ _ _ _ _ (Z.lt_le_incl _ _ HL) Hnu)).
  rewrite (bind_Return_eq _ _ _ _ _ (frame_read_series extra _ _ _ _ _ _ _ HNT HC Hseries)).
  rewrite (bind_Return_eq _ _ _ _ _
             (frame_leaves _ _ _ _ extra (leaves_reconstruct_time _ _) Htime)).
  rewrite (bind_Return_eq _ _ _ _ _
             (frame_leaves _ _ _ _ extra (leaves_scale_data _ _ _ _) Hscale)).
  reflexivity.
Qed.

Lemma trailing_bytes_are_ignored_witness :
  ReadFASTbinary 10 sample_name (sample_fmt2 ++ text "appended") true
  = Return (sample_fmt2_table 0, sample_fmt2_info) ([] ++ text "appended").
Proof.
  eapply (trailing_bytes_are_ignored 10 sample_name sample_fmt2 (text "appended") true).
  - vm_compute. reflexivity.
  - vm_compute. reflexivity.
  - vm_compute. discriminate.
  - vm_compute. reflexivity.
Defined.
